(** * Shift scheduling: the constraint model of [shifts_scheduling.py]

    A shallow embedding of [Model] (time grid, variable builder, constraint
    builder, objective, solution decoder) together with the part of the
    [pywraplp] solver interface that the model-building code drives, and
    the properties of the natural-language specification checked against
    it.

    Conventions.
    - A [pd.Timestamp] at hourly resolution is an integer number of hours
      since an epoch that falls on a midnight; [pd.Timedelta(hours=k)] is
      the integer [k].  A calendar date is a day number.
    - Python exceptions are values of [exn]; code that can raise lives in
      the [result] monad.
    - A float is given by the number it holds, a rational ([Q]).  The
      constraints and the objective are read as exact linear expressions
      over these numbers; the arithmetic of the decoder on the values that
      the engine reports is floating-point arithmetic, see [FloatArith]. *)

From Stdlib Require Import ZArith QArith Qround Lia Lqa String List.
From stdpp Require Import gmap list.

Open Scope Z_scope.

(* ===================================================================== *)
(** * Exceptions and the result monad *)
(* ===================================================================== *)

Inductive exn : Type :=
| KeyError
| IndexError
| ValueError
| AssertionError.

Inductive result (A : Type) : Type :=
| Ok (a : A)
| Raise (e : exn).

Arguments Ok {A} a.
Arguments Raise {A} e.

Definition rbind {A B : Type} (r : result A) (k : A -> result B) : result B :=
  match r with
  | Ok a => k a
  | Raise e => Raise e
  end.

Notation "'let*' x := r 'in' k" := (rbind r (fun x => k))
  (at level 10, x pattern, r at level 100, k at level 200).

(** [for x in l: st = body(x, st)] with exceptions. *)
Fixpoint for_each {A S : Type} (l : list A) (body : A -> S -> result S) (st : S)
  : result S :=
  match l with
  | [] => Ok st
  | a :: l' => let* st' := body a st in for_each l' body st'
  end.

(** A comprehension [[f(x) for x in l]] whose element expression can raise. *)
Fixpoint map_r {A B : Type} (f : A -> result B) (l : list A) : result (list B) :=
  match l with
  | [] => Ok []
  | a :: l' => let* b := f a in let* bs := map_r f l' in Ok (b :: bs)
  end.

(** [enumerate(l)] *)
Definition enumerate {A : Type} (l : list A) : list (nat * A) :=
  combine (seq 0 (length l)) l.

(** [d[k]] on a Python dict: [KeyError] when the key is missing. *)
Definition getitem `{Countable K} {V : Type} (d : gmap K V) (k : K) : result V :=
  match d !! k with
  | Some v => Ok v
  | None => Raise KeyError
  end.

(** [df.iloc[j]] on a column: [IndexError] out of range. *)
Definition iloc {A : Type} (col : list A) (j : nat) : result A :=
  match col !! j with
  | Some a => Ok a
  | None => Raise IndexError
  end.

(* ===================================================================== *)
(** * config.py *)
(* ===================================================================== *)

Definition MIN_STAFF_PER_HOUR : Z := 2.
Definition MIN_REST_HOURS : Z := 4.
Definition MIN_SHIFT_HOURS : Z := 9.
Definition MAX_SHIFT_HOURS : Z := 12.
Definition ROLE_OT_PROHIBITED : list string := ["Branch Manager"%string].
Definition MAX_DAYS_PER_WEEK : Z := 6.
Definition MAX_SHIFTS_PER_DAY : Z := 1.
Definition W1 : Q := 3 # 4.

(* ===================================================================== *)
(** * Timestamps *)
(* ===================================================================== *)

Definition Timestamp : Type := Z.
Definition Date : Type := Z.

(** [dt.date()] *)
Definition date (dt : Timestamp) : Date := dt / 24.
(** [dt.hour] *)
Definition hour (dt : Timestamp) : Z := dt mod 24.
(** [pd.to_datetime(d)] for a date [d]: midnight of that day. *)
Definition to_datetime_date (d : Date) : Timestamp := 24 * d.
(** [td.days] of a difference of timestamps. *)
Definition days (td : Z) : Z := td / 24.

(* ===================================================================== *)
(** * Input tables *)
(* ===================================================================== *)

(** A cell of the [date_time] column as the caller hands it over: text
    (as read from a CSV file) or already a timestamp. *)
Inductive cell : Type :=
| Text (s : string)
| Stamp (t : Timestamp).

(** The demand frame.  [date_time] and [demand] are always present; the
    derived columns exist once they have been assigned. *)
Record DataFrame (A : Type) : Type := mkFrame {
  rows : list (A * Z);
  bus_day : option (list Date);
  week : option (list Z)
}.

Arguments mkFrame {A} rows bus_day week.
Arguments rows {A} d.
Arguments bus_day {A} d.
Arguments week {A} d.

Definition col_date_time {A : Type} (df : DataFrame A) : list A := map fst (rows df).
Definition col_demand {A : Type} (df : DataFrame A) : list Z := map snd (rows df).

(** [df['date_time'] = col] (the column keeps its length) *)
Definition set_date_time {A B : Type} (df : DataFrame A) (col : list B) : DataFrame B :=
  mkFrame (combine col (col_demand df)) (bus_day df) (week df).
(** [df['bus_day'] = col] *)
Definition set_bus_day {A : Type} (df : DataFrame A) (col : list Date) : DataFrame A :=
  mkFrame (rows df) (Some col) (week df).
(** [df['week'] = col] *)
Definition set_week {A : Type} (df : DataFrame A) (col : list Z) : DataFrame A :=
  mkFrame (rows df) (bus_day df) (Some col).

Record Staff : Type := mkStaff {
  staff_id : string;
  role : string;
  hourly_wage : Q;
  overtime_hourly_wage : Q
}.

(** [series.min()] (the value on an empty column is never used) *)
Definition col_min (l : list Z) : Z :=
  match l with
  | [] => 0
  | a :: l' => fold_left Z.min l' a
  end.

(** [series.unique().tolist()]: first occurrences, in order. *)
Fixpoint unique (l : list Z) : list Z :=
  match l with
  | [] => []
  | a :: l' => a :: filter (fun b => b <> a) (unique l')
  end.

(** An insertion-ordered Python dict with timestamp keys. *)
Definition odict (V : Type) : Type := list (Timestamp * V).

(** [d[k] = v] *)
Fixpoint odict_set {V : Type} (d : odict V) (k : Timestamp) (v : V) : odict V :=
  match d with
  | [] => [(k, v)]
  | (k', v') :: d' => if k' =? k then (k', v) :: d' else (k', v') :: odict_set d' k v
  end.

Fixpoint odict_lookup {V : Type} (d : odict V) (k : Timestamp) : option V :=
  match d with
  | [] => None
  | (k', v') :: d' => if k' =? k then Some v' else odict_lookup d' k
  end.

(** [d[k]] *)
Definition odict_get {V : Type} (d : odict V) (k : Timestamp) : result V :=
  match odict_lookup d k with
  | Some v => Ok v
  | None => Raise KeyError
  end.

(** [for k in d] *)
Definition keys {V : Type} (d : odict V) : list Timestamp := map fst d.
(** [d.values()] *)
Definition values {V : Type} (d : odict V) : list V := map snd d.

(** [df.set_index('date_time')['demand'].to_dict()] *)
Definition to_dict (rs : list (Timestamp * Z)) : odict Z :=
  fold_left (fun d '(k, v) => odict_set d k v) rs [].

(* ===================================================================== *)
(** * Model.__init__ *)
(* ===================================================================== *)

Record Model : Type := mkModel {
  M : nat;
  demand_dict : odict Z;
  demand_df : DataFrame Timestamp;
  staff_df : list Staff
}.

(** Lines 25-32 of [__init__], once the [date_time] column holds
    timestamps: the derived columns are assigned on the frame passed in,
    and the model keeps that same frame. *)
Definition format_inputs (demand_df : DataFrame Timestamp) (staff_df : list Staff)
  : DataFrame Timestamp * Model :=
  let demand_df := set_bus_day demand_df (map date (col_date_time demand_df)) in
  let demand_df :=
    set_week demand_df
      (map (fun dt => days (dt - col_min (col_date_time demand_df)) / 7 + 1)
           (col_date_time demand_df)) in
  (demand_df,
   mkModel (length staff_df) (to_dict (rows demand_df)) demand_df staff_df).

Section TimeGrid.

(** The text parser of [pd.to_datetime], which belongs to pandas. *)
Variable parse : string -> option Timestamp.

(** [pd.to_datetime] on one cell *)
Definition to_datetime (c : cell) : result Timestamp :=
  match c with
  | Stamp t => Ok t
  | Text s =>
      match parse s with
      | Some t => Ok t
      | None => Raise ValueError
      end
  end.

(** [Model(demand_df, staff_df)].  The first component of the result is
    the caller's [demand_df] object after the call: every assignment in
    [__init__] is made on the object passed in. *)
Definition __init__ (demand_df : DataFrame cell) (staff_df : list Staff)
  : result (DataFrame Timestamp * Model) :=
  let* col := map_r to_datetime (col_date_time demand_df) in
  let demand_df := set_date_time demand_df col in
  Ok (format_inputs demand_df staff_df).

End TimeGrid.

(** The model built from a frame whose [date_time] column already holds
    timestamps. *)
Definition Model_of (rs : list (Timestamp * Z)) (staff_df : list Staff) : Model :=
  snd (format_inputs (mkFrame rs None None) staff_df).

(* ===================================================================== *)
(** * The solver interface (pywraplp), as far as the model drives it *)
(* ===================================================================== *)

(** Variable names: [f'x_start{i}_{j}'], [f'x{i}_{j}'], [f'x_ot{i}_{j}'],
    [f'y1_{j}'], [f'y2_{j}'], [f'x_day{i}_{d}'], kept symbolic. *)
Inductive VarName : Type :=
| Nx_start (i j : nat)
| Nx (i j : nat)
| Nx_ot (i j : nat)
| Ny1 (j : nat)
| Ny2 (j : nat)
| Nx_day (i d : nat).

(** Constraint names: [f"past{i}_{j}"], [f"rest{i}_{j}"],
    [f"min_shift{i}_{j}"], [f"consecutive{i}_{j}_o{o}"], [f"ot{i}_{j}_o{o}"],
    [f"rest{i}_{j}_o{o}"], [f"max_per_day{i}_{j}"], [f"day_link{i}_{j}"],
    [f"dc{j}"], [f"max_per_week{i}_{w}"]. *)
Inductive CName : Type :=
| Cpast (i j : nat)
| Crest (i j : nat)
| Cmin_shift (i j : nat)
| Cconsecutive (i j o : nat)
| Cot (i j o : nat)
| Crest_o (i j o : nat)
| Cmax_per_day (i j : nat)
| Cday_link (i j : nat)
| Cdc (j : nat)
| Cmax_per_week (i : nat) (w : Z).

(** A variable of the solver.  A variable is referred to by its handle,
    its position in the solver's list of variables. *)
Record MPVariable : Type := mkVar {
  v_name : VarName;
  v_lb : Z;
  v_ub : Z;
  v_integer : bool;
  v_priority : option Z
}.

(** Linear expressions, built as the Python operators build them. *)
Inductive LinearExpr : Type :=
| EConst (c : Q)
| EVar (h : nat)
| EAdd (a b : LinearExpr)
| ESub (a b : LinearExpr)
| EMul (c : Q) (e : LinearExpr)
| EDiv (e : LinearExpr) (c : Q).

(** Python's [sum]: starts from 0 and adds from the left. *)
Definition py_sum (l : list LinearExpr) : LinearExpr :=
  fold_left EAdd l (EConst 0).

Inductive Rel : Type := LE | GE.

Record MPConstraint : Type := mkConstraint {
  c_name : CName;
  c_lhs : LinearExpr;
  c_rel : Rel;
  c_rhs : LinearExpr
}.

Record Solver : Type := mkSolver {
  variables : list MPVariable;
  constraints : list MPConstraint;
  objective : option LinearExpr
}.

(** [pywraplp.Solver.CreateSolver(SOLVER)], when the engine exists. *)
Definition CreateSolver : Solver := mkSolver [] [] None.

Definition MakeVar (s : Solver) (var : MPVariable) : Solver * nat :=
  (mkSolver (variables s ++ [var]) (constraints s) (objective s),
   length (variables s)).

Definition IntVar (s : Solver) (lb ub : Z) (name : VarName) : Solver * nat :=
  MakeVar s (mkVar name lb ub true None).
Definition BoolVar (s : Solver) (name : VarName) : Solver * nat :=
  MakeVar s (mkVar name 0 1 true None).
Definition NumVar (s : Solver) (lb ub : Z) (name : VarName) : Solver * nat :=
  MakeVar s (mkVar name lb ub false None).

Definition SetBounds (s : Solver) (h : nat) (lb ub : Z) : Solver :=
  mkSolver
    (alter (fun var => mkVar (v_name var) lb ub (v_integer var) (v_priority var))
           h (variables s))
    (constraints s) (objective s).

Definition SetBranchingPriority (s : Solver) (h : nat) (p : Z) : Solver :=
  mkSolver
    (alter (fun var => mkVar (v_name var) (v_lb var) (v_ub var) (v_integer var) (Some p))
           h (variables s))
    (constraints s) (objective s).

(** [solver.Add(lhs <= rhs, name=...)] and [solver.Add(lhs >= rhs, name=...)] *)
Definition Add (s : Solver) (lhs : LinearExpr) (rel : Rel) (rhs : LinearExpr)
  (name : CName) : Solver :=
  mkSolver (variables s) (constraints s ++ [mkConstraint name lhs rel rhs])
           (objective s).

Definition Minimize (s : Solver) (e : LinearExpr) : Solver :=
  mkSolver (variables s) (constraints s) (Some e).

(** The result status of [solver.Solve()]. *)
Inductive Status : Type :=
| OPTIMAL | FEASIBLE | INFEASIBLE | UNBOUNDED | ABNORMAL | MODEL_INVALID
| NOT_SOLVED.

(** What the engine hands back: a status and a value per variable handle. *)
Record Outcome : Type := mkOutcome {
  status : Status;
  value : nat -> Q
}.

Definition has_solution (st : Status) : bool :=
  match st with
  | OPTIMAL | FEASIBLE => true
  | _ => false
  end.

(** [var.solution_value()].  The engine reports 0 for every variable when
    the last solve produced no solution. *)
Definition solution_value (o : Outcome) (h : nat) : Q :=
  if has_solution (status o) then value o h else 0%Q.

(** ** Meaning of expressions and constraints under an assignment *)

Fixpoint eval (a : nat -> Q) (e : LinearExpr) : Q :=
  match e with
  | EConst c => c
  | EVar h => a h
  | EAdd e1 e2 => (eval a e1 + eval a e2)%Q
  | ESub e1 e2 => (eval a e1 - eval a e2)%Q
  | EMul c e1 => (c * eval a e1)%Q
  | EDiv e1 c => (eval a e1 / c)%Q
  end.

Definition holds (a : nat -> Q) (c : MPConstraint) : Prop :=
  match c_rel c with
  | LE => (eval a (c_lhs c) <= eval a (c_rhs c))%Q
  | GE => (eval a (c_rhs c) <= eval a (c_lhs c))%Q
  end.

Definition is_integer (q : Q) : Prop := exists z : Z, (q == inject_Z z)%Q.

(** The assignment respects the bounds and the integrality of a variable. *)
Definition respects (a : nat -> Q) (h : nat) (var : MPVariable) : Prop :=
  (inject_Z (v_lb var) <= a h)%Q /\ (a h <= inject_Z (v_ub var))%Q /\
  (v_integer var = true -> is_integer (a h)).

(** The assignment is a solution of the model held by the solver. *)
Definition feasible (s : Solver) (a : nat -> Q) : Prop :=
  (forall h var, variables s !! h = Some var -> respects a h var) /\
  (forall c, c ∈ constraints s -> holds a c).

(* ===================================================================== *)
(** * Model.add_variables *)
(* ===================================================================== *)

(** The dictionaries of decision variables of [schedule_shifts];
    [x_start[i][dt]] is the entry at key [(i, dt)]. *)
Record Vars : Type := mkVars {
  x_start : gmap (nat * Timestamp) nat;
  x : gmap (nat * Timestamp) nat;
  x_ot : gmap (nat * Timestamp) nat;
  y1 : gmap Timestamp nat;
  y2 : gmap Timestamp nat;
  x_day : gmap (nat * Timestamp) nat
}.

Definition no_vars : Vars := mkVars ∅ ∅ ∅ ∅ ∅ ∅.

Definition put_x_start (v : Vars) (k : nat * Timestamp) (h : nat) : Vars :=
  mkVars (<[k := h]> (x_start v)) (x v) (x_ot v) (y1 v) (y2 v) (x_day v).
Definition put_x (v : Vars) (k : nat * Timestamp) (h : nat) : Vars :=
  mkVars (x_start v) (<[k := h]> (x v)) (x_ot v) (y1 v) (y2 v) (x_day v).
Definition put_x_ot (v : Vars) (k : nat * Timestamp) (h : nat) : Vars :=
  mkVars (x_start v) (x v) (<[k := h]> (x_ot v)) (y1 v) (y2 v) (x_day v).
Definition put_y1 (v : Vars) (k : Timestamp) (h : nat) : Vars :=
  mkVars (x_start v) (x v) (x_ot v) (<[k := h]> (y1 v)) (y2 v) (x_day v).
Definition put_y2 (v : Vars) (k : Timestamp) (h : nat) : Vars :=
  mkVars (x_start v) (x v) (x_ot v) (y1 v) (<[k := h]> (y2 v)) (x_day v).
Definition put_x_day (v : Vars) (k : nat * Timestamp) (h : nat) : Vars :=
  mkVars (x_start v) (x v) (x_ot v) (y1 v) (y2 v) (<[k := h]> (x_day v)).

(** [self.demand_df['bus_day']] and [self.demand_df['week']] *)
Definition column_bus_day (df : DataFrame Timestamp) : result (list Date) :=
  match bus_day df with
  | Some col => Ok col
  | None => Raise KeyError
  end.
Definition column_week (df : DataFrame Timestamp) : result (list Z) :=
  match week df with
  | Some col => Ok col
  | None => Raise KeyError
  end.

(** [self.demand_df.iloc[j]['bus_day']] *)
Definition iloc_bus_day (m : Model) (j : nat) : result Date :=
  let* col := column_bus_day (demand_df m) in iloc col j.

(** [role in ROLE_OT_PROHIBITED] *)
Definition ot_prohibited (r : string) : bool :=
  existsb (String.eqb r) ROLE_OT_PROHIBITED.

(** [i == (self.M - 1)] *)
Definition is_last_staff (m : Model) (i : nat) : bool :=
  Z.of_nat i =? Z.of_nat (M m) - 1.

(** The body of the inner loop of [add_variables] (lines 85-119). *)
Definition add_slot_variables (m : Model) (i j : nat) (dt : Timestamp)
  (st : Solver * Vars) : result (Solver * Vars) :=
  let '(solver, v) := st in
  let '(solver, h_start) := IntVar solver 0 1 (Nx_start i j) in
  let v := put_x_start v (i, dt) h_start in
  let* bd := iloc_bus_day m j in
  let solver :=
    if date (dt + MIN_SHIFT_HOURS) >? bd then SetBounds solver h_start 0 0
    else solver in
  let '(solver, h_x) := BoolVar solver (Nx i j) in
  let v := put_x v (i, dt) h_x in
  let '(solver, h_ot) := NumVar solver 0 1 (Nx_ot i j) in
  let v := put_x_ot v (i, dt) h_ot in
  let* staff := iloc (staff_df m) i in
  let solver :=
    if ot_prohibited (role staff) || (hour dt <? MIN_SHIFT_HOURS)
    then SetBounds solver h_ot 0 0
    else solver in
  if is_last_staff m i then
    let '(solver, h_y1) := IntVar solver 0 1 (Ny1 j) in
    let v := put_y1 v dt h_y1 in
    let* d := odict_get (demand_dict m) dt in
    let '(solver, h_y2) :=
      IntVar solver 0
             (Z.max 0 (d - Z.min (Z.of_nat (M m)) (MIN_STAFF_PER_HOUR - 1)))
             (Ny2 j) in
    let v := put_y2 v dt h_y2 in
    Ok (solver, v)
  else Ok (solver, v).

(** The body of the loop over business days (lines 122-125). *)
Definition add_day_variable (i : nat) (d : nat) (bd : Date)
  (st : Solver * Vars) : Solver * Vars :=
  let '(solver, v) := st in
  let '(solver, h) := BoolVar solver (Nx_day i d) in
  let v := put_x_day v (i, to_datetime_date bd) h in
  let solver := SetBranchingPriority solver h 1 in
  (solver, v).

Definition add_staff_variables (m : Model) (i : nat) (st : Solver * Vars)
  : result (Solver * Vars) :=
  let* st :=
    for_each (enumerate (col_date_time (demand_df m)))
             (fun '(j, dt) st => add_slot_variables m i j dt st) st in
  let* days := column_bus_day (demand_df m) in
  for_each (enumerate (unique days))
           (fun '(d, bd) st => Ok (add_day_variable i d bd st)) st.

Definition add_variables (m : Model) (st : Solver * Vars) : result (Solver * Vars) :=
  for_each (seq 0 (M m)) (add_staff_variables m) st.

(* ===================================================================== *)
(** * Model.get_subset_dts *)
(* ===================================================================== *)

(** [max_length] is [None] when the argument is left out.  The assertion
    is checked only for a truthy [max_length]. *)
Definition get_subset_dts (m : Model) (min_dt max_dt : Timestamp)
  (max_length : option Z) : result (list Timestamp) :=
  let subset_dts :=
    filter (fun dt => min_dt <= dt <= max_dt) (keys (demand_dict m)) in
  match max_length with
  | None => Ok subset_dts
  | Some n =>
      if n =? 0 then Ok subset_dts
      else if Z.of_nat (length subset_dts) <=? n then Ok subset_dts
      else Raise AssertionError
  end.

(** [max(l)]: [ValueError] on an empty list. *)
Definition py_max (l : list Z) : result Z :=
  match l with
  | [] => Raise ValueError
  | a :: l' => Ok (fold_left Z.max l' a)
  end.

(** [len(l)] as a coefficient *)
Definition len {A : Type} (l : list A) : Q := inject_Z (Z.of_nat (length l)).

(* ===================================================================== *)
(** * Model.add_constraints *)
(* ===================================================================== *)

(** The body of the loop over potential overtime hours (lines 198-217). *)
Definition add_overtime_constraints (v : Vars) (i j : nat) (dt : Timestamp)
  (additional_rest_dts : list Timestamp) (o : nat) (overtime_dt : Timestamp)
  (solver : Solver) : result Solver :=
  let* h_prev := getitem (x v) (i, overtime_dt + -1) in
  let* h_start := getitem (x_start v) (i, dt) in
  let* h_x := getitem (x v) (i, overtime_dt) in
  let solver :=
    Add solver (EAdd (EConst 1) (EVar h_prev)) GE (EAdd (EVar h_start) (EVar h_x))
        (Cconsecutive i j o) in
  let* h_ot := getitem (x_ot v) (i, overtime_dt) in
  let* h_start := getitem (x_start v) (i, dt) in
  let* h_x := getitem (x v) (i, overtime_dt) in
  let solver :=
    Add solver (EAdd (EConst 1) (EVar h_ot)) GE (EAdd (EVar h_start) (EVar h_x))
        (Cot i j o) in
  if (o + 1 <=? length additional_rest_dts)%nat then
    let* h_ot := getitem (x_ot v) (i, overtime_dt) in
    let* r := iloc additional_rest_dts o in
    let* h_r := getitem (x_start v) (i, r) in
    Ok (Add solver (ESub (EConst 1) (EVar h_ot)) GE (EVar h_r) (Crest_o i j o))
  else Ok solver.

(** The body of the loop over slots (lines 141-252).  The state is the
    solver and [last_seen_date]. *)
Definition add_slot_constraints (m : Model) (v : Vars) (i j : nat)
  (dt : Timestamp) (st : Solver * option Timestamp)
  : result (Solver * option Timestamp) :=
  let '(solver, last_seen_date) := st in
  let* bd := iloc_bus_day m j in
  let bus_day := to_datetime_date bd in
  let bus_eod := bus_day + 23 in
  (* x <= sum of x_start over the past MAX_SHIFT_HOURS *)
  let* past_dts :=
    get_subset_dts m (Z.max bus_day (dt - (MAX_SHIFT_HOURS - 1))) dt
                   (Some MAX_SHIFT_HOURS) in
  let* h_x := getitem (x v) (i, dt) in
  let* hs := map_r (fun p_dt => getitem (x_start v) (i, p_dt)) past_dts in
  let solver := Add solver (EVar h_x) LE (py_sum (map EVar hs)) (Cpast i j) in
  (* rest *)
  let* rest_dts :=
    get_subset_dts m (dt + 1) (dt + (MIN_SHIFT_HOURS + MIN_REST_HOURS - 1))
                   (Some (MIN_SHIFT_HOURS + MIN_REST_HOURS - 1)) in
  let* hs := map_r (fun rest_dt => getitem (x_start v) (i, rest_dt)) rest_dts in
  let* h_start := getitem (x_start v) (i, dt) in
  let solver :=
    Add solver (py_sum (map EVar hs)) LE
        (EMul (len rest_dts) (ESub (EConst 1) (EVar h_start))) (Crest i j) in
  (* minimum shift length *)
  let* shift_dts :=
    get_subset_dts m dt (dt + (MIN_SHIFT_HOURS - 1)) (Some MIN_SHIFT_HOURS) in
  let* hs := map_r (fun s_dt => getitem (x v) (i, s_dt)) shift_dts in
  let* h_start := getitem (x_start v) (i, dt) in
  let solver :=
    Add solver (py_sum (map EVar hs)) GE (EMul (len shift_dts) (EVar h_start))
        (Cmin_shift i j) in
  (* potential overtime hours *)
  let* last_shift_dt := py_max shift_dts in
  let* potential_overtime_dts :=
    get_subset_dts m (last_shift_dt + 1)
      (Z.min bus_eod (last_shift_dt + (MAX_SHIFT_HOURS - MIN_SHIFT_HOURS + 1)))
      (Some (MAX_SHIFT_HOURS - MIN_SHIFT_HOURS + 1)) in
  let* additional_rest_dts :=
    if (length rest_dts =? 0)%nat then Ok []
    else
      let* last_rest_dt := py_max rest_dts in
      get_subset_dts m (last_rest_dt + 1) (last_rest_dt + MIN_REST_HOURS)
                     (Some MIN_REST_HOURS) in
  let* solver :=
    for_each (enumerate potential_overtime_dts)
      (fun '(o, overtime_dt) solver =>
         add_overtime_constraints v i j dt additional_rest_dts o overtime_dt solver)
      solver in
  (* one shift per business day *)
  let* other_starts := get_subset_dts m bus_day bus_eod None in
  let* hs := map_r (fun o_start => getitem (x_start v) (i, o_start)) other_starts in
  let solver :=
    Add solver (py_sum (map EVar hs)) LE (EConst (inject_Z MAX_SHIFTS_PER_DAY))
        (Cmax_per_day i j) in
  (* link x with x_day *)
  let* (solver, last_seen_date) :=
    if bool_decide (Some bus_day <> last_seen_date) then
      let* days := column_bus_day (demand_df m) in
      if Z.of_nat (length (unique days)) >? MAX_DAYS_PER_WEEK then
        let* day_dts := get_subset_dts m bus_day bus_eod None in
        let* hs := map_r (fun d_dt => getitem (x v) (i, d_dt)) day_dts in
        let* h_day := getitem (x_day v) (i, bus_day) in
        Ok (Add solver (py_sum (map EVar hs)) LE (EMul (len day_dts) (EVar h_day))
                (Cday_link i j),
            Some bus_day)
      else Ok (solver, last_seen_date)
    else Ok (solver, last_seen_date) in
  (* demand coverage, once per slot *)
  if is_last_staff m i then
    let* hs := map_r (fun s => getitem (x v) (s, dt)) (seq 0 (M m)) in
    let* h_y1 := getitem (y1 v) dt in
    let* h_y2 := getitem (y2 v) dt in
    let* d := odict_get (demand_dict m) dt in
    Ok (Add solver (EAdd (EAdd (py_sum (map EVar hs)) (EVar h_y1)) (EVar h_y2)) GE
            (EConst (inject_Z d)) (Cdc j),
        last_seen_date)
  else Ok (solver, last_seen_date).

(** [self.demand_df.loc[self.demand_df['week'] == w]['bus_day'].unique()] *)
Definition week_days_of (weeks : list Z) (days : list Date) (w : Z) : list Date :=
  unique (map snd (filter (fun p => fst p = w) (combine weeks days))).

(** The body of the loop over weeks (lines 255-263). *)
Definition add_week_constraint (m : Model) (v : Vars) (i : nat) (w : Z)
  (solver : Solver) : result Solver :=
  let* weeks := column_week (demand_df m) in
  let* days := column_bus_day (demand_df m) in
  let week_days := week_days_of weeks days w in
  if Z.of_nat (length week_days) >? MAX_DAYS_PER_WEEK then
    let* hs := map_r (fun w_d => getitem (x_day v) (i, to_datetime_date w_d)) week_days in
    Ok (Add solver (py_sum (map EVar hs)) LE (EConst (inject_Z MAX_DAYS_PER_WEEK))
            (Cmax_per_week i w))
  else Ok solver.

Definition add_staff_constraints (m : Model) (v : Vars) (i : nat) (solver : Solver)
  : result Solver :=
  let* (solver, _) :=
    for_each (enumerate (keys (demand_dict m)))
             (fun '(j, dt) st => add_slot_constraints m v i j dt st)
             (solver, None) in
  let* weeks := column_week (demand_df m) in
  for_each (unique weeks) (add_week_constraint m v i) solver.

Definition add_constraints (m : Model) (v : Vars) (solver : Solver) : result Solver :=
  for_each (seq 0 (M m)) (add_staff_constraints m v) solver.

(* ===================================================================== *)
(** * The objective (schedule_shifts, lines 63-69) *)
(* ===================================================================== *)

(** One summand of the objective, for a slot [dt] of nonzero demand. *)
Definition objective_term (m : Model) (v : Vars) (dt : Timestamp)
  : result LinearExpr :=
  let* h_y1 := getitem (y1 v) dt in
  let* h_y2 := getitem (y2 v) dt in
  let* hs := map_r (fun i => getitem (x_ot v) (i, dt)) (seq 0 (M m)) in
  let* d := odict_get (demand_dict m) dt in
  Ok (EDiv (EAdd (EMul W1 (EAdd (EVar h_y1) (EMul 2 (EVar h_y2))))
                 (EMul (1 - W1) (py_sum (map EVar hs))))
           (inject_Z d)).

Definition objective_expr (m : Model) (v : Vars) : result LinearExpr :=
  let* terms :=
    map_r (objective_term m v)
          (map fst (filter (fun kv => snd kv <> 0) (demand_dict m))) in
  Ok (py_sum terms).

(** [schedule_shifts] up to the call of [solve]: the model handed to the
    engine, and the dictionaries of variables. *)
Definition build_model (m : Model) : result (Solver * Vars) :=
  let solver := CreateSolver in
  let* (solver, v) := add_variables m (solver, no_vars) in
  let* solver := add_constraints m v solver in
  let* obj := objective_expr m v in
  Ok (Minimize solver obj, v).

(* ===================================================================== *)
(** * Model.solve *)
(* ===================================================================== *)

Record ShiftRow : Type := mkRow {
  row_staff_id : string;
  start_date_time : Timestamp;
  end_date_time : Timestamp
}.

(** The metrics dictionary (the constant [csv_file] path is left out). *)
Record Metrics : Type := mkMetrics {
  WDC : Q;
  WOR : Q;
  total_cost : Q;
  solver_status : string;
  shifts : list ShiftRow
}.

(** Python's [max(a, b)] on numbers: [b] when [b > a], otherwise [a]. *)
Definition max2 (a b : Q) : Q := if Qlt_le_dec a b then b else a.

(** ** Floating-point numbers

    The wages of the staff table, the values that the engine reports and
    the numbers that [solve] computes from them are floats (IEEE
    binary64); a [Q] is the number that a float holds.  The sum, the
    product and the quotient of two floats, Python's [sum] and Python's
    [round] belong to the platform (Python and numpy on the arithmetic of
    the machine): the model takes them as given, with three facts about
    zero. *)
Class FloatArith : Type := {
  (* [a + b] *)
  fadd : Q -> Q -> Q;
  (* [a * b] *)
  fmul : Q -> Q -> Q;
  (* [a / b] *)
  fdiv : Q -> Q -> Q;
  (* [sum(l)] *)
  fsum : list Q -> Q;
  (* [round(q, ndigits)] *)
  py_round : Q -> Z -> Q;
  fadd_0_0 : fadd 0 0 = 0%Q;
  fsum_zeros : forall l : list Q, Forall (eq 0%Q) l -> fsum l = 0%Q;
  py_round_0 : forall ndigits : Z, py_round 0 ndigits = 0%Q
}.

(** *** Binary64 arithmetic with rounding to nearest *)

(** [n / d] rounded to the nearest integer, ties to the even one
    ([0 <= n] and [0 < d]). *)
Definition div_half_even (n d : Z) : Z :=
  let f := n / d in
  let r := n mod d in
  if 2 * r <? d then f
  else if d <? 2 * r then f + 1
  else if Z.even f then f else f + 1.

(** The binary64 number nearest to [q], ties to the even significand.
    The exponent is bounded below (subnormal numbers) and not above: the
    model has no infinity. *)
Definition fl (q : Q) : Q :=
  if Qeq_bool q 0 then 0%Q
  else
    let n := Z.abs (Qnum q) in
    let d := Zpos (Qden q) in
    let e0 := Z.log2 n - Z.log2 d in
    let below := if 0 <=? e0 then n <? 2 ^ e0 * d else n * 2 ^ (- e0) <? d in
    let e := if below then e0 - 1 else e0 in
    let ex := Z.max (e - 52) (-1074) in
    let m :=
      if 0 <=? ex then div_half_even n (d * 2 ^ ex)
      else div_half_even (n * 2 ^ (- ex)) d in
    let a :=
      if 0 <=? ex then inject_Z (m * 2 ^ ex)
      else Qred (Qmake m (Z.to_pos (2 ^ (- ex)))) in
    if 0 <? Qnum q then a else (- a)%Q.

Definition b64_add (a b : Q) : Q := fl (a + b).
Definition b64_mul (a b : Q) : Q := fl (a * b).
Definition b64_div (a b : Q) : Q := fl (a / b).

(** [sum] starts from 0 and adds from the left. *)
Definition b64_sum (l : list Q) : Q := fold_left b64_add l 0%Q.

(** [round] of a float: the decimal number with [ndigits] digits nearest
    to the number the float holds, ties to the even digit, and then the
    float nearest to that decimal number. *)
Definition b64_round (q : Q) (ndigits : Z) : Q :=
  if Qeq_bool q 0 then 0%Q
  else
    let scale := inject_Z (10 ^ ndigits) in
    let y := (q * scale)%Q in
    let r :=
      (inject_Z (div_half_even (Z.abs (Qnum y)) (Zpos (Qden y))) / scale)%Q in
    if 0 <? Qnum q then fl r else fl (- r).

(** The arithmetic of a platform with IEEE binary64 floats, rounding to
    nearest: the one of the runs on concrete inputs below. *)
#[export] Instance binary64 : FloatArith.
Proof.
  refine {| fadd := b64_add; fmul := b64_mul; fdiv := b64_div;
            fsum := b64_sum; py_round := b64_round |}.
  - reflexivity.
  - intros l Hl. unfold b64_sum.
    induction Hl as [| q l <- _ IH]; simpl; [reflexivity | exact IH].
  - reflexivity.
Defined.

(** [demand_coverage[dt] += q] on a [defaultdict(float)] *)
Definition cov_add {FA : FloatArith} (d : odict Q) (dt : Timestamp) (q : Q)
  : odict Q :=
  match odict_lookup d dt with
  | Some old => odict_set d dt (fadd old q)
  | None => odict_set d dt (fadd 0 q)
  end.

(** The variables local to the decoding loops. *)
Record Decode : Type := mkDecode {
  d_rows : list ShiftRow;
  d_demand_coverage : odict Q;
  d_total_cost : Q
}.

Definition truthy (q : Q) : bool := negb (Qeq_bool q 0).

(** [max([_dt for _dt in shift_dts if x[i][_dt].solution_value() == 1])
     + pd.Timedelta(hours=1)] *)
Definition shift_end (v : Vars) (o : Outcome) (i : nat)
  (shift_dts : list Timestamp) : result Timestamp :=
  let* flagged :=
    map_r (fun _dt =>
             let* h := getitem (x v) (i, _dt) in
             Ok (_dt, Qeq_bool (solution_value o h) 1))
          shift_dts in
  let* last := py_max (map fst (filter (fun p => snd p = true) flagged)) in
  Ok (last + 1).

(** The body of the loop over slots in [solve] (lines 322-344). *)
Definition decode_slot {FA : FloatArith} (m : Model) (v : Vars) (o : Outcome)
  (i : nat) (staff : Staff) (dt : Timestamp) (st : Decode) : result Decode :=
  let wage := hourly_wage staff in
  let ot_wage := overtime_hourly_wage staff in
  let* h_x := getitem (x v) (i, dt) in
  let* h_ot := getitem (x_ot v) (i, dt) in
  let total_cost :=
    fadd (d_total_cost st)
         (max2 (fmul wage (solution_value o h_x))
               (fmul ot_wage (solution_value o h_ot))) in
  let* h_start := getitem (x_start v) (i, dt) in
  let* rows :=
    if truthy (solution_value o h_start) then
      let* shift_dts :=
        get_subset_dts m dt (dt + (MAX_SHIFT_HOURS - 1)) (Some MAX_SHIFT_HOURS) in
      let* end_dt := shift_end v o i shift_dts in
      Ok (d_rows st ++ [mkRow (staff_id staff) dt end_dt])
    else Ok (d_rows st) in
  let* d := odict_get (demand_dict m) dt in
  let* q :=
    if d =? 0 then Ok 0%Q
    else
      let* h_x := getitem (x v) (i, dt) in
      let* d := odict_get (demand_dict m) dt in
      Ok (fdiv (solution_value o h_x) (inject_Z d)) in
  Ok (mkDecode rows (cov_add (d_demand_coverage st) dt q) total_cost).

Definition decode_staff {FA : FloatArith} (m : Model) (v : Vars) (o : Outcome)
  (i : nat) (st : Decode) : result Decode :=
  let* staff := iloc (staff_df m) i in
  for_each (keys (demand_dict m)) (decode_slot m v o i staff) st.

(** [sum(d[i][dt].solution_value() for i in range(self.M)
         for dt in self.demand_dict)] *)
Definition sum_solution_values {FA : FloatArith} (m : Model)
  (d : gmap (nat * Timestamp) nat) (o : Outcome) : result Q :=
  let* hs :=
    map_r (fun k => getitem d k)
          (i ← seq 0 (M m); dt ← keys (demand_dict m); [(i, dt)]) in
  Ok (fsum (map (solution_value o) hs)).

(** [solve], given what [solver.Solve()] returned. *)
Definition solve {FA : FloatArith} (m : Model) (v : Vars) (o : Outcome)
  : result Metrics :=
  let st := mkDecode [] [] 0%Q in
  let* st :=
    if has_solution (status o) then
      for_each (seq 0 (M m)) (decode_staff m v o) st
    else Ok st in
  let* total_sh := sum_solution_values m (x v) o in
  let demand_coverage := d_demand_coverage st in
  let wdc :=
    if (length demand_coverage =? 0)%nat then 0%Q
    else py_round (fdiv (fsum (values demand_coverage)) (len demand_coverage)) 4 in
  let* wor :=
    if Qeq_bool total_sh 0 then
      Ok (if (length demand_coverage =? 0)%nat then 0%Q else 0%Q)
    else
      let* total_ot := sum_solution_values m (x_ot v) o in
      Ok (py_round (fdiv total_ot total_sh) 4) in
  Ok (mkMetrics wdc wor (py_round (d_total_cost st) 2)
                (match status o with
                 | OPTIMAL => "optimal"
                 | _ => "feasible"
                 end)%string
                (d_rows st)).

(** [schedule_shifts].  [engine] is the solver engine, absent when
    [CreateSolver] returns nothing. *)
Definition schedule_shifts {FA : FloatArith} (m : Model)
  (engine : option (Solver -> Outcome)) : result Metrics :=
  match engine with
  | None => Raise ValueError
  | Some run =>
      let* (solver, v) := build_model m in
      solve m v (run solver)
  end.

(* ===================================================================== *)
(** * Vocabulary of the properties *)
(* ===================================================================== *)

(** ** Variables in the solver and in the dictionaries *)

(** The variable at handle [h] exists and has property [P]. *)
Definition at_handle (s : Solver) (h : nat) (P : MPVariable -> Prop) : Prop :=
  exists var, variables s !! h = Some var /\ P var.

(** Every entry of a dictionary refers to a variable of the solver that
    has the property attached to its key. *)
Definition dict_ok `{Countable K} (s : Solver) (d : gmap K nat)
  (P : K -> MPVariable -> Prop) : Prop :=
  forall k h, d !! k = Some h -> at_handle s h (P k).

(** Bounds and kinds of the variables of each dictionary, by key. *)
Definition start_spec (k : nat * Timestamp) (var : MPVariable) : Prop :=
  v_lb var = 0 /\
  v_ub var = (if date (snd k + MIN_SHIFT_HOURS) >? date (snd k) then 0 else 1) /\
  v_integer var = true.

Definition x_spec (k : nat * Timestamp) (var : MPVariable) : Prop :=
  v_lb var = 0 /\ v_ub var = 1 /\ v_integer var = true.

Definition ot_spec (staff : list Staff) (k : nat * Timestamp) (var : MPVariable)
  : Prop :=
  v_lb var = 0 /\ v_integer var = false /\
  forall st, staff !! fst k = Some st ->
    v_ub var =
      (if ot_prohibited (role st) || (hour (snd k) <? MIN_SHIFT_HOURS) then 0 else 1).

Definition y_spec (k : Timestamp) (var : MPVariable) : Prop :=
  v_lb var = 0 /\ v_integer var = true.

Definition day_spec (k : nat * Timestamp) (var : MPVariable) : Prop :=
  v_lb var = 0 /\ v_ub var = 1 /\ v_integer var = true /\
  exists d, v_name var = Nx_day (fst k) d.

Record vars_ok (staff : list Staff) (s : Solver) (v : Vars) : Prop := mk_vars_ok {
  ok_start : dict_ok s (x_start v) start_spec;
  ok_x : dict_ok s (x v) x_spec;
  ok_ot : dict_ok s (x_ot v) (ot_spec staff);
  ok_y1 : dict_ok s (y1 v) y_spec;
  ok_y2 : dict_ok s (y2 v) y_spec;
  ok_day : dict_ok s (x_day v) day_spec
}.

(** The second state has every key of the first. *)
Record vars_le (v v' : Vars) : Prop := mk_vars_le {
  le_start : forall k, is_Some (x_start v !! k) -> is_Some (x_start v' !! k);
  le_x : forall k, is_Some (x v !! k) -> is_Some (x v' !! k);
  le_ot : forall k, is_Some (x_ot v !! k) -> is_Some (x_ot v' !! k);
  le_y1 : forall k, is_Some (y1 v !! k) -> is_Some (y1 v' !! k);
  le_y2 : forall k, is_Some (y2 v !! k) -> is_Some (y2 v' !! k);
  le_day : forall k, is_Some (x_day v !! k) -> is_Some (x_day v' !! k)
}.

(** The names, bounds and kinds of the variables that one pass of the
    inner loop creates. *)
Definition slot_variables (m : Model) (st : Staff) (i j : nat) (dt : Timestamp)
  (bd : Date) : list MPVariable :=
  [ mkVar (Nx_start i j) 0 (if date (dt + MIN_SHIFT_HOURS) >? bd then 0 else 1)
          true None;
    mkVar (Nx i j) 0 1 true None;
    mkVar (Nx_ot i j) 0
          (if ot_prohibited (role st) || (hour dt <? MIN_SHIFT_HOURS) then 0 else 1)
          false None ].

Definition shortfall_variables (m : Model) (j : nat) (d : Z) : list MPVariable :=
  [ mkVar (Ny1 j) 0 1 true None;
    mkVar (Ny2 j) 0
          (Z.max 0 (d - Z.min (Z.of_nat (M m)) (MIN_STAFF_PER_HOUR - 1)))
          true None ].

Definition slot_in (m : Model) (v : Vars) (i : nat) (dt : Timestamp) : Prop :=
  is_Some (x_start v !! (i, dt)) /\ is_Some (x v !! (i, dt)) /\
  is_Some (x_ot v !! (i, dt)) /\
  (is_last_staff m i = true -> is_Some (y1 v !! dt) /\ is_Some (y2 v !! dt)).

Definition day_in (v : Vars) (i : nat) (d : Date) : Prop :=
  is_Some (x_day v !! (i, to_datetime_date d)).

(** Every staff index and slot has its variables, every staff index and
    business day its day indicator. *)
Definition complete (rs : list (Timestamp * Z)) (staff : list Staff) (v : Vars)
  : Prop :=
  forall i, (i < length staff)%nat ->
    (forall dt, dt ∈ map fst rs -> slot_in (Model_of rs staff) v i dt) /\
    (forall d, d ∈ map date (map fst rs) -> day_in v i d).

(** ** Constraints in the solver *)

(** The slots of the grid between two timestamps. *)
Definition window (m : Model) (lo hi : Timestamp) : list Timestamp :=
  filter (fun dt => lo <= dt <= hi) (keys (demand_dict m)).

(** The day-off constraints carry these names only on a long horizon. *)
Definition name_ok (m : Model) (n : CName) : Prop :=
  match n with
  | Cday_link _ _ | Cmax_per_week _ _ =>
      exists days, column_bus_day (demand_df m) = Ok days /\
                   Z.of_nat (length (unique days)) > MAX_DAYS_PER_WEEK
  | _ => True
  end.

(** [s'] is [s] with more constraints, all with admissible names. *)
Definition extends (m : Model) (s s' : Solver) : Prop :=
  variables s' = variables s /\ objective s' = objective s /\
  exists cs, constraints s' = constraints s ++ cs /\
             Forall (fun c => name_ok m (c_name c)) cs.

(** The handles of the variables of staff [i] at the slots of a list. *)
Definition handles (d : gmap (nat * Timestamp) nat) (i : nat)
  (l : list Timestamp) (hs : list nat) : Prop :=
  Forall2 (fun dt h => d !! (i, dt) = Some h) l hs.

(** The constraints that one pass of the loop over slots adds, each in
    the form the source gives it. *)
Definition has_past m v i j dt (cs : list MPConstraint) : Prop :=
  exists bd h_x hs,
    iloc_bus_day m j = Ok bd /\ x v !! (i, dt) = Some h_x /\
    handles (x_start v) i
            (window m (Z.max (to_datetime_date bd) (dt - (MAX_SHIFT_HOURS - 1))) dt)
            hs /\
    mkConstraint (Cpast i j) (EVar h_x) LE (py_sum (map EVar hs)) ∈ cs.

Definition has_rest m v i j dt (cs : list MPConstraint) : Prop :=
  let rest_dts :=
    window m (dt + 1) (dt + (MIN_SHIFT_HOURS + MIN_REST_HOURS - 1)) in
  exists h_start hs,
    x_start v !! (i, dt) = Some h_start /\ handles (x_start v) i rest_dts hs /\
    mkConstraint (Crest i j) (py_sum (map EVar hs)) LE
                 (EMul (len rest_dts) (ESub (EConst 1) (EVar h_start))) ∈ cs.

Definition has_min_shift m v i j dt (cs : list MPConstraint) : Prop :=
  let shift_dts := window m dt (dt + (MIN_SHIFT_HOURS - 1)) in
  exists h_start hs,
    x_start v !! (i, dt) = Some h_start /\ handles (x v) i shift_dts hs /\
    mkConstraint (Cmin_shift i j) (py_sum (map EVar hs)) GE
                 (EMul (len shift_dts) (EVar h_start)) ∈ cs.

Definition has_consecutive v i j dt (o : nat) (overtime_dt : Timestamp)
  (cs : list MPConstraint) : Prop :=
  exists h_prev h_start h_x,
    x v !! (i, overtime_dt + -1) = Some h_prev /\
    x_start v !! (i, dt) = Some h_start /\
    x v !! (i, overtime_dt) = Some h_x /\
    mkConstraint (Cconsecutive i j o) (EAdd (EConst 1) (EVar h_prev)) GE
                 (EAdd (EVar h_start) (EVar h_x)) ∈ cs.

Definition has_overtime m v i j dt (cs : list MPConstraint) : Prop :=
  exists bd last_shift_dt,
    iloc_bus_day m j = Ok bd /\
    py_max (window m dt (dt + (MIN_SHIFT_HOURS - 1))) = Ok last_shift_dt /\
    forall o overtime_dt,
      window m (last_shift_dt + 1)
             (Z.min (to_datetime_date bd + 23)
                    (last_shift_dt + (MAX_SHIFT_HOURS - MIN_SHIFT_HOURS + 1)))
        !! o = Some overtime_dt ->
      has_consecutive v i j dt o overtime_dt cs.

Definition slot_content m v i j dt (cs : list MPConstraint) : Prop :=
  has_past m v i j dt cs /\ has_rest m v i j dt cs /\
  has_min_shift m v i j dt cs /\ has_overtime m v i j dt cs.

(** ** Assignments *)

(** The sum of the values of a list of variables. *)
Definition total (a : nat -> Q) (hs : list nat) : Q :=
  fold_right (fun h acc => (a h + acc)%Q) 0%Q hs.

Definition respectsb (a : nat -> Q) (h : nat) (var : MPVariable) : bool :=
  Qle_bool (inject_Z (v_lb var)) (a h) && Qle_bool (a h) (inject_Z (v_ub var)) &&
  (if v_integer var then Qeq_bool (a h) (inject_Z (Qfloor (a h))) else true).

Definition holdsb (a : nat -> Q) (c : MPConstraint) : bool :=
  match c_rel c with
  | LE => Qle_bool (eval a (c_lhs c)) (eval a (c_rhs c))
  | GE => Qle_bool (eval a (c_rhs c)) (eval a (c_lhs c))
  end.

Definition feasibleb (s : Solver) (a : nat -> Q) : bool :=
  forallb (fun p => respectsb a (fst p) (snd p)) (enumerate (variables s)) &&
  forallb (holdsb a) (constraints s).

(** An assignment given by the names of the variables. *)
Definition by_name (s : Solver) (f : VarName -> Q) : nat -> Q :=
  fun h =>
    match variables s !! h with
    | Some var => f (v_name var)
    | None => 0%Q
    end.

(** [n] hourly slots from [t0] on, each with demand [d]. *)
Definition hourly_rows (t0 : Timestamp) (n : nat) (d : Z) : list (Timestamp * Z) :=
  map (fun k => (t0 + Z.of_nat k, d)) (seq 0 n).

Definition manager : Staff := mkStaff "101" "Manager" (963 # 100) (1444 # 100).
Definition branch_manager : Staff :=
  mkStaff "101" "Branch Manager" (963 # 100) (1444 # 100).

(** Slots 0:00, 1:00 and 2:00 of one day; one branch manager. *)
Definition morning_built : Solver * Vars :=
  Eval vm_compute in
    match build_model (Model_of (hourly_rows 0 3 3) [branch_manager]) with
    | Ok r => r
    | Raise _ => (CreateSolver, no_vars)
    end.

(** Slots 15:00 and 16:00 of one day; one manager. *)
Definition afternoon_built : Solver * Vars :=
  Eval vm_compute in
    match build_model (Model_of (hourly_rows 15 2 3) [manager]) with
    | Ok r => r
    | Raise _ => (CreateSolver, no_vars)
    end.

(** A shift of [MIN_SHIFT_HOURS] hours starting at [dt] occupies the
    slots [dt .. dt + MIN_SHIFT_HOURS - 1]; it crosses into the next
    business day when its last slot belongs to a later date. *)
Definition minimum_shift_crosses_day (dt : Timestamp) : Prop :=
  date (dt + (MIN_SHIFT_HOURS - 1)) > date dt.

(** The two strings of the example and nothing else. *)
Definition parse_two (s : string) : option Timestamp :=
  if String.eqb s "2025-01-01 00:00:00" then Some 482136
  else if String.eqb s "2025-01-01 01:00:00" then Some 482137
  else None.

Definition csv_frame : DataFrame cell :=
  mkFrame [(Text "2025-01-01 00:00:00", 3); (Text "2025-01-01 01:00:00", 2)]
          None None.

(** ** Grids and decoded values *)

(** The timestamps are one per hour, without gaps, strictly increasing. *)
Definition hourly_grid (dts : list Timestamp) : Prop :=
  exists t0, dts = map (fun k => t0 + Z.of_nat k) (seq 0 (length dts)).

(** The value the engine reports for the variable stored at a key. *)
Definition var_value (o : Outcome) (d : gmap (nat * Timestamp) nat) (i : nat)
  (dt : Timestamp) : Q :=
  match d !! (i, dt) with
  | Some h => solution_value o h
  | None => 0%Q
  end.

(** The slots of a list at which staff [i] is reported working. *)
Definition worked_slots (v : Vars) (o : Outcome) (i : nat) (l : list Timestamp)
  : list Timestamp :=
  filter (fun u => Qeq_bool (var_value o (x v) i u) 1 = true) l.

Definition decoded_end (m : Model) (v : Vars) (o : Outcome) (i : nat)
  (dt : Timestamp) : Timestamp :=
  match worked_slots v o i (window m dt (dt + (MAX_SHIFT_HOURS - 1))) with
  | [] => dt
  | a :: l => fold_left Z.max l a + 1
  end.

Definition decoded_rows (m : Model) (v : Vars) (o : Outcome) (i : nat)
  (st : Staff) (dt : Timestamp) : list ShiftRow :=
  if truthy (var_value o (x_start v) i dt)
  then [mkRow (staff_id st) dt (decoded_end m v o i dt)]
  else [].

Definition coverage_term {FA : FloatArith} (m : Model) (v : Vars) (o : Outcome)
  (i : nat) (dt : Timestamp) : Q :=
  match odict_lookup (demand_dict m) dt with
  | Some d => if d =? 0 then 0%Q else fdiv (var_value o (x v) i dt) (inject_Z d)
  | None => 0%Q
  end.

(** Every reported start has a reported working slot in its window. *)
Definition decodable (m : Model) (v : Vars) (o : Outcome) (i : nat) : Prop :=
  forall dt, dt ∈ keys (demand_dict m) ->
    truthy (var_value o (x_start v) i dt) = true ->
    worked_slots v o i (window m dt (dt + (MAX_SHIFT_HOURS - 1))) <> [].

Definition staff_rows (m : Model) (v : Vars) (o : Outcome) (i : nat) (st : Staff)
  : list ShiftRow :=
  flat_map (decoded_rows m v o i st) (keys (demand_dict m)).

Definition staff_coverage {FA : FloatArith} (m : Model) (v : Vars) (o : Outcome)
  (i : nat) (cov : odict Q) : odict Q :=
  fold_left (fun c dt => cov_add c dt (coverage_term m v o i dt))
            (keys (demand_dict m)) cov.

(** The shift records of a run, staff by staff and slot by slot. *)
Definition all_rows (m : Model) (v : Vars) (o : Outcome) : list ShiftRow :=
  flat_map (fun i =>
              match staff_df m !! i with
              | Some st => staff_rows m v o i st
              | None => []
              end)
           (seq 0 (M m)).

(** The [demand_coverage] dictionary at the end of the decoding loops. *)
Definition all_coverage {FA : FloatArith} (m : Model) (v : Vars) (o : Outcome)
  : odict Q :=
  fold_left (fun c i => staff_coverage m v o i c) (seq 0 (M m)) [].

(** The dictionaries have the variables that decoding reads. *)
Definition decode_ready (m : Model) (v : Vars) : Prop :=
  NoDup (keys (demand_dict m)) /\ M m = length (staff_df m) /\
  forall i u, (i < M m)%nat -> u ∈ keys (demand_dict m) ->
    is_Some (x_start v !! (i, u)) /\ is_Some (x v !! (i, u)) /\
    is_Some (x_ot v !! (i, u)).

(** The WDC entry computed from a final [demand_coverage] dictionary. *)
Definition wdc_of {FA : FloatArith} (cov : odict Q) : Q :=
  if (length cov =? 0)%nat then 0%Q
  else py_round (fdiv (fsum (values cov)) (len cov)) 4.

(** The coverage that the decoding loops accumulate for a slot: 0 for a
    slot of zero demand, and otherwise, staff member by staff member, the
    reported work over the demand of the slot. *)
Definition slot_coverage {FA : FloatArith} (m : Model) (v : Vars) (o : Outcome)
  (kv : Timestamp * Z) : Q :=
  if snd kv =? 0 then 0%Q
  else
    fold_left
      (fun acc i => fadd acc (fdiv (var_value o (x v) i (fst kv)) (inject_Z (snd kv))))
      (seq 0 (M m)) 0%Q.

Definition sum_over {A : Type} (f : A -> Q) (l : list A) : Q :=
  fold_right (fun a acc => (f a + acc)%Q) 0%Q l.

(** The number of staff reported working at a slot. *)
Definition headcount (m : Model) (v : Vars) (o : Outcome) (dt : Timestamp) : Q :=
  sum_over (fun i => var_value o (x v) i dt) (seq 0 (M m)).

(** The sum, over the slots of nonzero demand, of headcount over demand. *)
Definition covered_demand (m : Model) (v : Vars) (o : Outcome) : Q :=
  sum_over (fun kv => headcount m v o (fst kv) / inject_Z (snd kv))%Q
           (filter (fun kv => snd kv <> 0) (demand_dict m)).

(** The average that C4 states: the same sum, divided by the number of
    slots of nonzero demand. *)
Definition WDC_over_demand_slots (m : Model) (v : Vars) (o : Outcome) : Q :=
  let demand_slots := filter (fun kv => snd kv <> 0) (demand_dict m) in
  (covered_demand m v o / len demand_slots)%Q.

(** Two slots, the first with demand 1 and the second with demand 0. *)
Definition two_slot_rows : list (Timestamp * Z) := [(0, 1); (1, 0)].

Definition two_slot_built : Solver * Vars :=
  Eval vm_compute in
    match build_model (Model_of two_slot_rows [manager]) with
    | Ok r => r
    | Raise _ => (CreateSolver, no_vars)
    end.

(** The only staff member starts at the first slot and works every slot. *)
Definition one_shift (n : VarName) : Q :=
  match n with
  | Nx_start 0 0 => 1
  | Nx 0 _ => 1
  | _ => 0
  end.

Definition two_slot_outcome : Outcome :=
  mkOutcome FEASIBLE (by_name (fst two_slot_built) one_shift).

(** The computation does not end in a failed [assert]. *)
Definition no_assert {A : Type} (r : result A) : Prop := r <> Raise AssertionError.

(** A frame whose [date_time] column already holds timestamps. *)
Definition stamped (rs : list (Timestamp * Z)) : DataFrame cell :=
  mkFrame (map (fun r => (Stamp (fst r), snd r)) rs) None None.

(** The demand table is what the specification asks for: timestamps one
    per hour and strictly increasing, no negative demand. *)
Definition well_formed_demand (rs : list (Timestamp * Z)) : Prop :=
  hourly_grid (map fst rs) /\ Forall (fun r => 0 <= snd r) rs.

Definition starts_at (v : Vars) (a : nat -> Q) (i : nat) (dt : Timestamp) : Prop :=
  exists h, x_start v !! (i, dt) = Some h /\ (a h == 1)%Q.

Definition works_at (v : Vars) (a : nat -> Q) (i : nat) (dt : Timestamp) : Prop :=
  exists h, x v !! (i, dt) = Some h /\ (a h == 1)%Q.

(** The specification's reading of a shift end: walk forward from the
    start, at most [n] slots, while the next slot is worked; the shift
    ends one hour after the slot reached. *)
Fixpoint last_contiguous (works : Timestamp -> bool) (t : Timestamp) (n : nat)
  : Timestamp :=
  match n with
  | O => t
  | S n' => if works (t + 1) then last_contiguous works (t + 1) n' else t
  end.

(** Staff [i] is reported working at slot [u] of the grid. *)
Definition reported_working (m : Model) (v : Vars) (o : Outcome) (i : nat)
  (u : Timestamp) : bool :=
  bool_decide (u ∈ keys (demand_dict m)) && Qeq_bool (var_value o (x v) i u) 1.

Definition spec_shift_end (m : Model) (v : Vars) (o : Outcome) (i : nat)
  (t : Timestamp) : Timestamp :=
  last_contiguous (reported_working m v o i) t (Z.to_nat (MAX_SHIFT_HOURS - 1)) + 1.

(** One record per staff member and slot with a reported start, ending
    where the specification says. *)
Definition spec_rows (m : Model) (v : Vars) (o : Outcome) : list ShiftRow :=
  flat_map
    (fun i =>
       match staff_df m !! i with
       | Some st =>
           flat_map
             (fun t =>
                if truthy (var_value o (x_start v) i t)
                then [mkRow (staff_id st) t (spec_shift_end m v o i t)]
                else [])
             (keys (demand_dict m))
       | None => []
       end)
    (seq 0 (M m)).

(** One day of 24 hourly slots with demand 3; one manager. *)
Definition one_day_built : Solver * Vars :=
  Eval vm_compute in
    match build_model (Model_of (hourly_rows 0 24 3) [manager]) with
    | Ok r => r
    | Raise _ => (CreateSolver, no_vars)
    end.

(** The manager starts at 10:00 and works twelve hours, the last three as
    overtime; every slot is short of staff. *)
Definition long_shift (n : VarName) : Q :=
  match n with
  | Nx_start _ j => if (j =? 10)%nat then 1 else 0
  | Nx _ j => if ((10 <=? j) && (j <=? 21))%nat then 1 else 0
  | Nx_ot _ j => if ((19 <=? j) && (j <=? 21))%nat then 1 else 0
  | Ny1 _ => 1
  | Ny2 _ => 2
  | Nx_day _ _ => 1
  end.

Definition one_day_outcome : Outcome :=
  mkOutcome FEASIBLE (by_name (fst one_day_built) long_shift).

(** Work at 10:00 and 12:00 but not at 11:00: no solution of the model. *)
Definition gapped_shift (n : VarName) : Q :=
  match n with
  | Nx_start _ j => if (j =? 10)%nat then 1 else 0
  | Nx _ j => if ((j =? 10) || (j =? 12))%nat then 1 else 0
  | _ => 0
  end.

(** ** The other constraints of a pass of the loop over slots *)

(** The potential overtime hours after the minimum shift that starts at a
    slot of business day [bd] and has [last_shift_dt] as its last slot. *)
Definition potential_overtime_dts (m : Model) (bd : Date)
  (last_shift_dt : Timestamp) : list Timestamp :=
  window m (last_shift_dt + 1)
         (Z.min (to_datetime_date bd + 23)
                (last_shift_dt + (MAX_SHIFT_HOURS - MIN_SHIFT_HOURS + 1))).

(** The slots after the rest window of [dt]; none when that window has no
    slot. *)
Definition additional_rest_dts (m : Model) (dt : Timestamp) : list Timestamp :=
  match window m (dt + 1) (dt + (MIN_SHIFT_HOURS + MIN_REST_HOURS - 1)) with
  | [] => []
  | a :: l =>
      window m (fold_left Z.max l a + 1) (fold_left Z.max l a + MIN_REST_HOURS)
  end.

Definition has_ot v i j dt (o : nat) (overtime_dt : Timestamp)
  (cs : list MPConstraint) : Prop :=
  exists h_ot h_start h_x,
    x_ot v !! (i, overtime_dt) = Some h_ot /\
    x_start v !! (i, dt) = Some h_start /\
    x v !! (i, overtime_dt) = Some h_x /\
    mkConstraint (Cot i j o) (EAdd (EConst 1) (EVar h_ot)) GE
                 (EAdd (EVar h_start) (EVar h_x)) ∈ cs.

Definition has_extra_rest v (i j o : nat) (overtime_dt r : Timestamp)
  (cs : list MPConstraint) : Prop :=
  exists h_ot h_r,
    x_ot v !! (i, overtime_dt) = Some h_ot /\
    x_start v !! (i, r) = Some h_r /\
    mkConstraint (Crest_o i j o) (ESub (EConst 1) (EVar h_ot)) GE (EVar h_r) ∈ cs.

(** What the loop over potential overtime hours adds besides the
    constraints on consecutive hours. *)
Definition has_overtime_flags m v i j dt (cs : list MPConstraint) : Prop :=
  exists bd last_shift_dt,
    iloc_bus_day m j = Ok bd /\
    py_max (window m dt (dt + (MIN_SHIFT_HOURS - 1))) = Ok last_shift_dt /\
    forall o overtime_dt,
      potential_overtime_dts m bd last_shift_dt !! o = Some overtime_dt ->
      has_ot v i j dt o overtime_dt cs /\
      forall r, additional_rest_dts m dt !! o = Some r ->
                has_extra_rest v i j o overtime_dt r cs.

Definition has_max_per_day m v (i j : nat) (cs : list MPConstraint) : Prop :=
  exists bd hs,
    iloc_bus_day m j = Ok bd /\
    handles (x_start v) i
            (window m (to_datetime_date bd) (to_datetime_date bd + 23)) hs /\
    mkConstraint (Cmax_per_day i j) (py_sum (map EVar hs)) LE
                 (EConst (inject_Z MAX_SHIFTS_PER_DAY)) ∈ cs.

Definition has_dc m v (j : nat) (dt : Timestamp) (cs : list MPConstraint) : Prop :=
  exists hs h_y1 h_y2 d,
    Forall2 (fun s h => x v !! (s, dt) = Some h) (seq 0 (M m)) hs /\
    y1 v !! dt = Some h_y1 /\ y2 v !! dt = Some h_y2 /\
    odict_get (demand_dict m) dt = Ok d /\
    mkConstraint (Cdc j)
                 (EAdd (EAdd (py_sum (map EVar hs)) (EVar h_y1)) (EVar h_y2)) GE
                 (EConst (inject_Z d)) ∈ cs.

Definition slot_content_rest m v i j dt (cs : list MPConstraint) : Prop :=
  has_overtime_flags m v i j dt cs /\ has_max_per_day m v i j cs /\
  (is_last_staff m i = true -> has_dc m v j dt cs).

(** The constraint that links the slots of business day [bd] with the day
    indicator of staff [i]. *)
Definition has_day_link m v (i : nat) (bd : Date) (cs : list MPConstraint) : Prop :=
  let day_dts := window m (to_datetime_date bd) (to_datetime_date bd + 23) in
  exists j hs h_day,
    handles (x v) i day_dts hs /\
    x_day v !! (i, to_datetime_date bd) = Some h_day /\
    mkConstraint (Cday_link i j) (py_sum (map EVar hs)) LE
                 (EMul (len day_dts) (EVar h_day)) ∈ cs.

(** The constraint on the number of days worked in week [w]. *)
Definition has_max_per_week m v (i : nat) (w : Z) (cs : list MPConstraint) : Prop :=
  exists weeks days hs,
    column_week (demand_df m) = Ok weeks /\
    column_bus_day (demand_df m) = Ok days /\
    Forall2 (fun d h => x_day v !! (i, to_datetime_date d) = Some h)
            (week_days_of weeks days w) hs /\
    mkConstraint (Cmax_per_week i w) (py_sum (map EVar hs)) LE
                 (EConst (inject_Z MAX_DAYS_PER_WEEK)) ∈ cs.

(** The horizon has more than [MAX_DAYS_PER_WEEK] business days. *)
Definition long_horizon (m : Model) : Prop :=
  exists days, column_bus_day (demand_df m) = Ok days /\
               Z.of_nat (length (unique days)) > MAX_DAYS_PER_WEEK.

(** One day of 24 hourly slots with demand 3; one branch manager. *)
Definition branch_day_built : Solver * Vars :=
  Eval vm_compute in
    match build_model (Model_of (hourly_rows 0 24 3) [branch_manager]) with
    | Ok r => r
    | Raise _ => (CreateSolver, no_vars)
    end.

(** The branch manager starts at 10:00 and works nine hours, none of them
    as overtime; every slot is short of staff. *)
Definition regular_shift (n : VarName) : Q :=
  match n with
  | Nx_start _ j => if (j =? 10)%nat then 1 else 0
  | Nx _ j => if ((10 <=? j) && (j <=? 18))%nat then 1 else 0
  | Nx_ot _ _ => 0
  | Ny1 _ => 1
  | Ny2 _ => 2
  | Nx_day _ _ => 1
  end.

Definition branch_day_outcome : Outcome :=
  mkOutcome OPTIMAL (by_name (fst branch_day_built) regular_shift).

(** The day links and the weekly limits that the passes for one staff
    member leave in the model. *)
Definition days_off_content m v (i : nat) (cs : list MPConstraint) : Prop :=
  (forall j dt, keys (demand_dict m) !! j = Some dt ->
     exists bd, iloc_bus_day m j = Ok bd /\ has_day_link m v i bd cs) /\
  (forall weeks days w,
     column_week (demand_df m) = Ok weeks ->
     column_bus_day (demand_df m) = Ok days ->
     w ∈ weeks ->
     Z.of_nat (length (week_days_of weeks days w)) > MAX_DAYS_PER_WEEK ->
     has_max_per_week m v i w cs).

(** Seven business days with one slot each, at 10:00, with demand 1; one
    manager. *)
Definition week_rows : list (Timestamp * Z) :=
  map (fun k => (10 + 24 * Z.of_nat k, 1)) (seq 0 7).

Definition week_built : Solver * Vars :=
  Eval vm_compute in
    match build_model (Model_of week_rows [manager]) with
    | Ok r => r
    | Raise _ => (CreateSolver, no_vars)
    end.

(** The manager works the slot of each of the first six days. *)
Definition six_days (n : VarName) : Q :=
  match n with
  | Nx_start _ j => if (j <? 6)%nat then 1 else 0
  | Nx _ j => if (j <? 6)%nat then 1 else 0
  | Nx_ot _ _ => 0
  | Ny1 _ => 1
  | Ny2 _ => 0
  | Nx_day _ d => if (d <? 6)%nat then 1 else 0
  end.

Definition week_outcome : Outcome :=
  mkOutcome OPTIMAL (by_name (fst week_built) six_days).

(** ** The shortfall variables *)

Definition y1_spec (k : Timestamp) (var : MPVariable) : Prop :=
  v_lb var = 0 /\ v_ub var = 1 /\ v_integer var = true.

Definition y2_spec (m : Model) (k : Timestamp) (var : MPVariable) : Prop :=
  v_lb var = 0 /\ v_integer var = true /\
  exists d, odict_get (demand_dict m) k = Ok d /\
            v_ub var = Z.max 0 (d - Z.min (Z.of_nat (M m)) (MIN_STAFF_PER_HOUR - 1)).

Definition shortfall_ok (m : Model) (st : Solver * Vars) : Prop :=
  dict_ok (fst st) (y1 (snd st)) y1_spec /\
  dict_ok (fst st) (y2 (snd st)) (y2_spec m).

(** ** The objective *)

(** The value of the variable stored at a key, 0 without such a variable. *)
Definition value_at `{Countable K} (a : nat -> Q) (d : gmap K nat) (k : K) : Q :=
  match d !! k with
  | Some h => a h
  | None => 0%Q
  end.

(** The weighted shortfall and overtime of a slot, per unit of demand. *)
Definition slot_penalty (m : Model) (v : Vars) (a : nat -> Q) (kv : Timestamp * Z)
  : Q :=
  ((W1 * (value_at a (y1 v) (fst kv) + 2 * value_at a (y2 v) (fst kv))
    + (1 - W1) * sum_over (fun i => value_at a (x_ot v) (i, fst kv)) (seq 0 (M m)))
   / inject_Z (snd kv))%Q.

Definition objective_value (m : Model) (v : Vars) (a : nat -> Q) : Q :=
  sum_over (slot_penalty m v a) (filter (fun kv => snd kv <> 0) (demand_dict m)).

(** No division of the expression is by zero. *)
Fixpoint div_safe (e : LinearExpr) : Prop :=
  match e with
  | EConst _ | EVar _ => True
  | EAdd e1 e2 | ESub e1 e2 => div_safe e1 /\ div_safe e2
  | EMul _ e1 => div_safe e1
  | EDiv e1 c => ~ (c == 0)%Q /\ div_safe e1
  end.

(** The engine reports that the model has no solution. *)
Definition no_solution_outcome : Outcome := mkOutcome INFEASIBLE (fun _ => 0%Q).

(** The metrics of the run of [one_day_outcome]. *)
Definition one_day_metrics : Metrics :=
  Eval vm_compute in
    match solve (Model_of (hourly_rows 0 24 3) [manager])
                (snd one_day_built) one_day_outcome with
    | Ok metrics => metrics
    | Raise _ => mkMetrics 0 0 0 "" []
    end.

(** ** Hours and cost of a run *)

(** The hours reported in a dictionary of variables, summed over all
    staff and slots, staff member by staff member. *)
Definition reported_hours {FA : FloatArith} (m : Model)
  (d : gmap (nat * Timestamp) nat) (o : Outcome) : Q :=
  fsum (map (fun k => var_value o d (fst k) (snd k))
            (i ← seq 0 (M m); dt ← keys (demand_dict m); [(i, dt)])).

(** The pay of a staff member for a slot: the larger of the regular and
    the overtime pay. *)
Definition slot_cost {FA : FloatArith} (v : Vars) (o : Outcome) (i : nat)
  (st : Staff) (dt : Timestamp) : Q :=
  max2 (fmul (hourly_wage st) (var_value o (x v) i dt))
       (fmul (overtime_hourly_wage st) (var_value o (x_ot v) i dt)).

(** The pay accumulated over the slots of one staff member, and over all
    staff, in the order of the decoding loops. *)
Definition staff_cost {FA : FloatArith} (m : Model) (v : Vars) (o : Outcome)
  (cost : Q) (i : nat) : Q :=
  match staff_df m !! i with
  | Some st =>
      fold_left (fun c dt => fadd c (slot_cost v o i st dt)) (keys (demand_dict m)) cost
  | None => cost
  end.

Definition labour_cost {FA : FloatArith} (m : Model) (v : Vars) (o : Outcome) : Q :=
  fold_left (staff_cost m v o) (seq 0 (M m)) 0%Q.

(** A table read from a CSV file with its two rows in decreasing order of
    time and a negative demand. *)
Definition backwards_frame : DataFrame cell :=
  mkFrame [(Text "2025-01-01 01:00:00", -3); (Text "2025-01-01 00:00:00", 2)]
          None None.

(** One day of 24 hourly slots with demand 20; one clerk paid 10.005 per
    hour, who works the regular shift from 10:00. *)
Definition clerk : Staff := mkStaff "102" "Clerk" (10005 # 1000) (15 # 1).

Definition busy_day_built : Solver * Vars :=
  Eval vm_compute in
    match build_model (Model_of (hourly_rows 0 24 20) [clerk]) with
    | Ok r => r
    | Raise _ => (CreateSolver, no_vars)
    end.

Definition busy_day_outcome : Outcome :=
  mkOutcome FEASIBLE (by_name (fst busy_day_built) regular_shift).

(* ===================================================================== *)
(** * Properties *)
(* ===================================================================== *)

(** ** The result monad and loops *)

Ltac inv_bind H :=
  repeat match type of H with
  | rbind ?r _ = Ok _ =>
      let E := fresh "E" in
      destruct r eqn:E; simpl in H; [| discriminate H]
  end.

Lemma rbind_Ok {A B : Type} (r : result A) (k : A -> result B) (b : B) :
  rbind r k = Ok b -> exists a, r = Ok a /\ k a = Ok b.
Proof. destruct r; simpl; [eauto | discriminate]. Qed.

(** Invariant rule for a loop that is known to have finished. *)
Lemma for_each_inv {A S : Type} (I : list A -> S -> Prop)
  (body : A -> S -> result S) (l : list A) :
  forall done st st',
    for_each l body st = Ok st' ->
    I done st ->
    (forall d a s s', I d s -> a ∈ l -> body a s = Ok s' -> I (d ++ [a]) s') ->
    I (done ++ l) st'.
Proof.
  induction l as [| a l IH]; intros done st st' Hrun Hinit Hstep; simpl in Hrun.
  - injection Hrun as <-. by rewrite app_nil_r.
  - apply rbind_Ok in Hrun as (s1 & Hbody & Hrest).
    replace (done ++ a :: l) with ((done ++ [a]) ++ l) by by rewrite <- app_assoc.
    apply (IH _ s1); [done | |].
    + eapply Hstep; [done | | done]. apply list_elem_of_here.
    + intros d b s s' Hd Hb. apply Hstep; [done |]. by apply list_elem_of_further.
Qed.

(** Invariant rule that also shows the loop finishes. *)
Lemma for_each_total {A S : Type} (I : list A -> S -> Prop)
  (body : A -> S -> result S) (l : list A) :
  forall done st,
    I done st ->
    (forall d a s, I d s -> a ∈ l -> exists s', body a s = Ok s' /\ I (d ++ [a]) s') ->
    exists st', for_each l body st = Ok st' /\ I (done ++ l) st'.
Proof.
  induction l as [| a l IH]; intros done st Hinit Hstep; simpl.
  - exists st. by rewrite app_nil_r.
  - destruct (Hstep done a st Hinit) as (s1 & -> & H1); [apply list_elem_of_here |].
    simpl.
    replace (done ++ a :: l) with ((done ++ [a]) ++ l) by by rewrite <- app_assoc.
    apply IH; [done |].
    intros d b s Hd Hb. apply Hstep; [done |]. by apply list_elem_of_further.
Qed.

Lemma map_r_Ok {A B : Type} (f : A -> result B) (l : list A) (bs : list B) :
  map_r f l = Ok bs <-> Forall2 (fun a b => f a = Ok b) l bs.
Proof.
  revert bs. induction l as [| a l IH]; intros bs; simpl.
  - split.
    + intros [= <-]. constructor.
    + intros H. by inversion H.
  - split.
    + intros H. inv_bind H. injection H as <-.
      constructor; [done |]. by apply IH.
    + intros H. inversion H as [| ? b ? bs' Hab Hrest]; subst.
      rewrite Hab. simpl. apply IH in Hrest. rewrite Hrest. done.
Qed.

Lemma map_r_total {A B : Type} (f : A -> result B) (l : list A) :
  (forall a, a ∈ l -> exists b, f a = Ok b) -> exists bs, map_r f l = Ok bs.
Proof.
  induction l as [| a l IH]; intros Hall; simpl; [eauto |].
  destruct (Hall a) as [b ->]; [apply list_elem_of_here |]. simpl.
  destruct IH as [bs ->]; [| simpl; eauto].
  intros a' Ha'. apply Hall. by apply list_elem_of_further.
Qed.

Lemma map_r_not_assert {A B : Type} (f : A -> result B) (l : list A) :
  (forall a, f a <> Raise AssertionError) -> map_r f l <> Raise AssertionError.
Proof.
  intros Hf. induction l as [| a l IH]; simpl; [done |].
  specialize (Hf a). destruct (f a); simpl; [| congruence].
  destruct (map_r f l); simpl; done.
Qed.

Lemma elem_of_enumerate_from {A : Type} (l : list A) (n j : nat) (a : A) :
  (j, a) ∈ combine (seq n (length l)) l <-> (n <= j)%nat /\ l !! (j - n)%nat = Some a.
Proof.
  revert n. induction l as [| b l IH]; intros n; simpl.
  - split; [intros H; by apply elem_of_nil in H | intros [_ H]; done].
  - rewrite elem_of_cons, IH. split.
    + intros [[= -> ->] | [Hle Hl]].
      * split; [lia |]. by rewrite Nat.sub_diag.
      * split; [lia |]. by replace (j - n)%nat with (S (j - S n)) by lia.
    + intros [Hle Hl]. destruct (decide (j = n)) as [-> | Hne].
      * left. rewrite Nat.sub_diag in Hl. simpl in Hl. by injection Hl as ->.
      * right. split; [lia |].
        by replace (j - n)%nat with (S (j - S n)) in Hl by lia.
Qed.

Lemma elem_of_enumerate {A : Type} (l : list A) (j : nat) (a : A) :
  (j, a) ∈ enumerate l <-> l !! j = Some a.
Proof.
  unfold enumerate. rewrite elem_of_enumerate_from, Nat.sub_0_r.
  split; [by intros [_ H] | intros H; split; [lia | done]].
Qed.

(** ** Columns and dictionaries *)

Lemma elem_of_unique (l : list Z) (a : Z) : a ∈ unique l <-> a ∈ l.
Proof.
  induction l as [| b l IH]; simpl; [done |].
  rewrite !elem_of_cons, list_elem_of_filter, IH.
  destruct (decide (a = b)) as [-> | Hne]; tauto.
Qed.

Lemma NoDup_unique (l : list Z) : NoDup (unique l).
Proof.
  induction l as [| b l IH]; simpl; [constructor |].
  constructor.
  - rewrite list_elem_of_filter. intros [Hb _]. done.
  - by apply NoDup_filter.
Qed.

Lemma length_unique_incl (l k : list Z) :
  (forall a, a ∈ l -> a ∈ k) -> (length (unique l) <= length (unique k))%nat.
Proof.
  intros Hincl. apply submseteq_length, NoDup_submseteq; [apply NoDup_unique |].
  intros a. rewrite !elem_of_unique. apply Hincl.
Qed.

Lemma keys_odict_set {V : Type} (d : odict V) (k : Timestamp) (v : V) :
  keys (odict_set d k v) = if bool_decide (k ∈ keys d) then keys d else keys d ++ [k].
Proof.
  induction d as [| [k' v'] d IH]; simpl; [done |].
  destruct (Z.eqb_spec k' k) as [-> | Hne]; simpl.
  - rewrite bool_decide_eq_true_2; [done | apply list_elem_of_here].
  - rewrite IH.
    destruct (decide (k ∈ keys d)) as [Hin | Hnin].
    + rewrite !bool_decide_eq_true_2; [done | by apply list_elem_of_further | done].
    + rewrite !bool_decide_eq_false_2; [done | | done].
      rewrite elem_of_cons. intros [-> | H]; done.
Qed.

Lemma odict_lookup_set {V : Type} (d : odict V) (k k' : Timestamp) (v : V) :
  odict_lookup (odict_set d k v) k' =
  if bool_decide (k = k') then Some v else odict_lookup d k'.
Proof.
  induction d as [| [k0 v0] d IH]; simpl.
  - destruct (Z.eqb_spec k k') as [-> | Hne].
    + by rewrite bool_decide_eq_true_2.
    + by rewrite bool_decide_eq_false_2.
  - destruct (Z.eqb_spec k0 k) as [-> | Hne]; simpl.
    + destruct (Z.eqb_spec k k') as [-> | Hne'].
      * by rewrite bool_decide_eq_true_2.
      * by rewrite bool_decide_eq_false_2.
    + rewrite IH. destruct (Z.eqb_spec k0 k') as [-> | Hne']; [| done].
      by rewrite bool_decide_eq_false_2.
Qed.

Lemma odict_lookup_is_Some {V : Type} (d : odict V) (k : Timestamp) :
  is_Some (odict_lookup d k) <-> k ∈ keys d.
Proof.
  induction d as [| [k0 v0] d IH]; simpl.
  - split; [by intros [? ?] | intros H; by apply elem_of_nil in H].
  - rewrite elem_of_cons. destruct (Z.eqb_spec k0 k) as [-> | Hne].
    + split; [by left | eauto].
    + rewrite IH. split; [tauto |]. intros [-> | H]; done.
Qed.

Lemma NoDup_keys_odict_set {V : Type} (d : odict V) (k : Timestamp) (v : V) :
  NoDup (keys d) -> NoDup (keys (odict_set d k v)).
Proof.
  intros Hnd. rewrite keys_odict_set. case_bool_decide as Hin; [done |].
  apply NoDup_app. split; [done |]. split; [| apply NoDup_singleton].
  intros a Ha. rewrite list_elem_of_singleton. intros ->. done.
Qed.

Lemma to_dict_app (rs : list (Timestamp * Z)) (d : odict Z) :
  forall k,
    k ∈ keys (fold_left (fun d '(k, v) => odict_set d k v) rs d) <->
    k ∈ keys d \/ k ∈ map fst rs.
Proof.
  revert d. induction rs as [| [k0 v0] rs IH]; intros d k; simpl.
  - rewrite elem_of_nil. tauto.
  - rewrite IH, keys_odict_set, elem_of_cons.
    case_bool_decide as Hin.
    + split; [tauto |]. intros [H | [-> | H]]; tauto.
    + rewrite elem_of_app, list_elem_of_singleton. tauto.
Qed.

Lemma elem_of_keys_to_dict (rs : list (Timestamp * Z)) (k : Timestamp) :
  k ∈ keys (to_dict rs) <-> k ∈ map fst rs.
Proof.
  unfold to_dict. rewrite to_dict_app. simpl. rewrite elem_of_nil. tauto.
Qed.

Lemma NoDup_keys_to_dict (rs : list (Timestamp * Z)) : NoDup (keys (to_dict rs)).
Proof.
  unfold to_dict.
  assert (forall d : odict Z, NoDup (keys d) ->
            NoDup (keys (fold_left (fun d '(k, v) => odict_set d k v) rs d))) as H.
  { induction rs as [| [k0 v0] rs IH]; intros d Hd; simpl; [done |].
    apply IH. by apply NoDup_keys_odict_set. }
  apply H. constructor.
Qed.

Lemma odict_get_total {V : Type} (d : odict V) (k : Timestamp) :
  k ∈ keys d -> exists v, odict_get d k = Ok v.
Proof.
  intros Hin. apply odict_lookup_is_Some in Hin as [v Hv].
  exists v. unfold odict_get. by rewrite Hv.
Qed.

(** ** The model built by [__init__] *)

Lemma Model_of_M rs staff : M (Model_of rs staff) = length staff.
Proof. reflexivity. Qed.

Lemma Model_of_demand_dict rs staff : demand_dict (Model_of rs staff) = to_dict rs.
Proof. reflexivity. Qed.

Lemma Model_of_staff_df rs staff : staff_df (Model_of rs staff) = staff.
Proof. reflexivity. Qed.

Lemma Model_of_dts rs staff :
  col_date_time (demand_df (Model_of rs staff)) = map fst rs.
Proof. reflexivity. Qed.

Lemma Model_of_bus_day rs staff :
  column_bus_day (demand_df (Model_of rs staff)) = Ok (map date (map fst rs)).
Proof. reflexivity. Qed.

Lemma Model_of_week rs staff :
  exists weeks, column_week (demand_df (Model_of rs staff)) = Ok weeks /\
                length weeks = length rs.
Proof.
  eexists. split; [reflexivity |].
  unfold col_date_time. simpl. by rewrite !length_map.
Qed.

Lemma iloc_bus_day_Model_of rs staff (j : nat) (dt : Timestamp) :
  map fst rs !! j = Some dt -> iloc_bus_day (Model_of rs staff) j = Ok (date dt).
Proof.
  intros Hj. unfold iloc_bus_day. rewrite Model_of_bus_day. simpl.
  unfold iloc. by rewrite list_lookup_fmap, Hj.
Qed.

Lemma iloc_total {A : Type} (col : list A) (j : nat) :
  (j < length col)%nat -> exists a, iloc col j = Ok a /\ col !! j = Some a.
Proof.
  intros Hj. destruct (lookup_lt_is_Some_2 col j Hj) as [a Ha].
  exists a. unfold iloc. by rewrite Ha.
Qed.

(** ** What [add_variables] leaves in the solver and the dictionaries *)

Lemma vars_le_refl v : vars_le v v.
Proof. by constructor. Qed.

Lemma vars_le_trans v1 v2 v3 : vars_le v1 v2 -> vars_le v2 v3 -> vars_le v1 v3.
Proof. intros [] []. constructor; eauto. Qed.

Lemma at_handle_app s s' h P news :
  variables s' = variables s ++ news -> at_handle s h P -> at_handle s' h P.
Proof.
  intros Hv (var & Hl & HP). exists var. split; [| done].
  rewrite Hv. by apply lookup_app_l_Some.
Qed.

Lemma dict_ok_app `{Countable K} s s' (d : gmap K nat) P news :
  variables s' = variables s ++ news -> dict_ok s d P -> dict_ok s' d P.
Proof. intros Hv Hd k h Hk. eapply at_handle_app; eauto. Qed.

Lemma dict_ok_insert `{Countable K} s (d : gmap K nat) P k h :
  dict_ok s d P -> at_handle s h (P k) -> dict_ok s (<[k := h]> d) P.
Proof.
  intros Hd Hh k' h'. rewrite lookup_insert. case_decide as Hk.
  - intros [= <-]. by subst.
  - apply Hd.
Qed.

Lemma is_Some_insert_mono `{Countable K} (d : gmap K nat) k h k' :
  is_Some (d !! k') -> is_Some (<[k := h]> d !! k').
Proof.
  intros Hs. rewrite lookup_insert. case_decide; [eauto | done].
Qed.

Lemma alter_last {A : Type} (f : A -> A) (l : list A) (a : A) (t : list A) :
  alter f (length l) (l ++ a :: t) = l ++ f a :: t.
Proof.
  replace (length l) with (length l + 0)%nat by lia.
  by rewrite alter_app_r.
Qed.

Lemma add_slot_variables_eq m i j dt s v bd st :
  iloc_bus_day m j = Ok bd ->
  iloc (staff_df m) i = Ok st ->
  add_slot_variables m i j dt (s, v) =
  let n := length (variables s) in
  let v3 := put_x_ot (put_x (put_x_start v (i, dt) n) (i, dt) (S n))
                     (i, dt) (S (S n)) in
  if is_last_staff m i then
    let* d := odict_get (demand_dict m) dt in
    Ok (mkSolver (variables s ++ slot_variables m st i j dt bd
                              ++ shortfall_variables m j d)
                 (constraints s) (objective s),
        put_y2 (put_y1 v3 dt (S (S (S n)))) dt (S (S (S (S n)))))
  else
    Ok (mkSolver (variables s ++ slot_variables m st i j dt bd)
                 (constraints s) (objective s), v3).
Proof.
  intros Hbd Hst. unfold add_slot_variables. rewrite Hbd, Hst.
  unfold IntVar, BoolVar, NumVar, MakeVar, SetBounds, slot_variables,
    shortfall_variables. simpl.
  destruct (date (dt + MIN_SHIFT_HOURS) >? bd);
    destruct (ot_prohibited (role st) || (hour dt <? MIN_SHIFT_HOURS));
    simpl; rewrite ?alter_last; simpl;
    destruct (is_last_staff m i); simpl;
    try destruct (odict_get (demand_dict m) dt); simpl; try reflexivity;
    rewrite ?length_app; simpl; rewrite ?Nat.add_1_r, <- ?app_assoc; reflexivity.
Qed.

Lemma slot_in_le m v v' i dt : vars_le v v' -> slot_in m v i dt -> slot_in m v' i dt.
Proof.
  intros [Ls Lx Lo L1 L2 Ld] (H1 & H2 & H3 & H4). repeat split; eauto.
  - apply L1. by apply H4.
  - apply L2. by apply H4.
Qed.

Lemma day_in_le v v' i d : vars_le v v' -> day_in v i d -> day_in v' i d.
Proof. intros [] H. unfold day_in. eauto. Qed.

Ltac new_handle k :=
  unfold at_handle; simpl; eexists; split;
  [ rewrite lookup_app_r by lia;
    match goal with
    | |- _ !! ?e = _ => replace e with k by lia
    end; reflexivity
  | ].

Lemma add_slot_variables_step rs staff i j dt s v st :
  map fst rs !! j = Some dt ->
  staff !! i = Some st ->
  vars_ok staff s v ->
  exists s' v',
    add_slot_variables (Model_of rs staff) i j dt (s, v) = Ok (s', v') /\
    vars_ok staff s' v' /\ vars_le v v' /\ slot_in (Model_of rs staff) v' i dt /\
    constraints s' = constraints s /\ objective s' = objective s.
Proof.
  intros Hj Hst [Hs Hx Ho H1 H2 Hd].
  assert (iloc (staff_df (Model_of rs staff)) i = Ok st) as Hil.
  { unfold iloc. by rewrite Model_of_staff_df, Hst. }
  rewrite (add_slot_variables_eq _ _ _ _ _ _ _ _
             (iloc_bus_day_Model_of rs staff j dt Hj) Hil).
  cbv zeta.
  assert (start_spec (i, dt)
            (mkVar (Nx_start i j) 0
               (if date (dt + MIN_SHIFT_HOURS) >? date dt then 0 else 1) true None))
    as Pstart by done.
  assert (x_spec (i, dt) (mkVar (Nx i j) 0 1 true None)) as Px by done.
  assert (ot_spec staff (i, dt)
            (mkVar (Nx_ot i j) 0
               (if ot_prohibited (role st) || (hour dt <? MIN_SHIFT_HOURS)
                then 0 else 1) false None)) as Pot.
  { repeat split. simpl. intros st'. rewrite Hst. by intros [= <-]. }
  destruct (is_last_staff (Model_of rs staff) i) eqn:Hlast.
  - destruct (odict_get_total (demand_dict (Model_of rs staff)) dt) as [d Hd'].
    { rewrite Model_of_demand_dict, elem_of_keys_to_dict.
      by apply list_elem_of_lookup_2 with j. }
    rewrite Hd'. simpl. eexists _, _. split; [reflexivity |].
    split; [| split; [| split]]; [| | | done].
    + constructor; simpl.
      * apply dict_ok_insert; [eapply dict_ok_app; [reflexivity | done] |].
        new_handle 0%nat. done.
      * apply dict_ok_insert; [eapply dict_ok_app; [reflexivity | done] |].
        new_handle 1%nat. done.
      * apply dict_ok_insert; [eapply dict_ok_app; [reflexivity | done] |].
        new_handle 2%nat. done.
      * apply dict_ok_insert; [eapply dict_ok_app; [reflexivity | done] |].
        new_handle 3%nat. done.
      * apply dict_ok_insert; [eapply dict_ok_app; [reflexivity | done] |].
        new_handle 4%nat. done.
      * eapply dict_ok_app; [reflexivity | done].
    + constructor; simpl; intros k; try done; apply is_Some_insert_mono.
    + repeat split; simpl; rewrite lookup_insert_eq; eauto.
  - simpl. eexists _, _. split; [reflexivity |].
    split; [| split; [| split]]; [| | | done].
    + constructor; simpl.
      * apply dict_ok_insert; [eapply dict_ok_app; [reflexivity | done] |].
        new_handle 0%nat. done.
      * apply dict_ok_insert; [eapply dict_ok_app; [reflexivity | done] |].
        new_handle 1%nat. done.
      * apply dict_ok_insert; [eapply dict_ok_app; [reflexivity | done] |].
        new_handle 2%nat. done.
      * eapply dict_ok_app; [reflexivity | done].
      * eapply dict_ok_app; [reflexivity | done].
      * eapply dict_ok_app; [reflexivity | done].
    + constructor; simpl; intros k; try done; apply is_Some_insert_mono.
    + unfold slot_in. simpl. rewrite !lookup_insert_eq.
      split; [eauto | split; [eauto | split; [eauto | congruence]]].
Qed.

Lemma add_day_variable_step staff i d bd s v :
  vars_ok staff s v ->
  exists s' v',
    add_day_variable i d bd (s, v) = (s', v') /\
    vars_ok staff s' v' /\ vars_le v v' /\ day_in v' i bd /\
    constraints s' = constraints s /\ objective s' = objective s.
Proof.
  intros [Hs Hx Ho H1 H2 Hd].
  unfold add_day_variable, BoolVar, MakeVar, SetBranchingPriority. simpl.
  rewrite alter_last. eexists _, _. split; [reflexivity |].
  split; [| split; [| split]]; [| | | done].
  - constructor; simpl; try (eapply dict_ok_app; [reflexivity | done]).
    apply dict_ok_insert; [eapply dict_ok_app; [reflexivity | done] |].
    new_handle 0%nat. repeat split. by exists d.
  - constructor; simpl; intros k; try done; apply is_Some_insert_mono.
  - unfold day_in. simpl. rewrite lookup_insert_eq. eauto.
Qed.

(** Run the loop in the goal under the invariant [I]. *)
Ltac loop_total I pat :=
  match goal with
  | |- context [for_each ?l ?b ?st] =>
      destruct (for_each_total I b l [] st) as pat
  end.

Lemma add_staff_variables_step rs staff i s v st :
  staff !! i = Some st ->
  vars_ok staff s v ->
  exists s' v',
    add_staff_variables (Model_of rs staff) i (s, v) = Ok (s', v') /\
    vars_ok staff s' v' /\ vars_le v v' /\
    (forall dt, dt ∈ map fst rs -> slot_in (Model_of rs staff) v' i dt) /\
    (forall d, d ∈ map date (map fst rs) -> day_in v' i d) /\
    constraints s' = constraints s /\ objective s' = objective s.
Proof.
  intros Hst Hok. unfold add_staff_variables.
  rewrite Model_of_dts, Model_of_bus_day.
  loop_total
    (fun (done : list (nat * Timestamp)) '(s1, v1) =>
       vars_ok staff s1 v1 /\ vars_le v v1 /\
       (forall j dt, (j, dt) ∈ done -> slot_in (Model_of rs staff) v1 i dt) /\
       constraints s1 = constraints s /\ objective s1 = objective s)
    ipattern:(([s1 v1] & -> & Hok1 & Hle1 & Hin1 & Hc1 & Ho1)).
  { split; [done |]. split; [apply vars_le_refl |].
    split; [| done]. intros j dt H. by apply elem_of_nil in H. }
  { intros d [j dt] [s0 v0] (Hok0 & Hle0 & Hin0 & Hc0 & Ho0) Hjd.
    apply elem_of_enumerate in Hjd.
    destruct (add_slot_variables_step rs staff i j dt s0 v0 st Hjd Hst Hok0)
      as (s' & v' & -> & Hok' & Hle' & Hin' & Hc' & Ho').
    exists (s', v'). split; [done |].
    split; [done |]. split; [by eapply vars_le_trans |].
    split; [| split; congruence].
    intros j' dt' Hd'. apply elem_of_app in Hd' as [Hd' | Hd'].
    - eapply slot_in_le; [done |]. by eapply Hin0.
    - apply list_elem_of_singleton in Hd'. by injection Hd' as -> ->. }
  simpl.
  loop_total
    (fun (done : list (nat * Z)) '(s2, v2) =>
       vars_ok staff s2 v2 /\ vars_le v1 v2 /\
       (forall d bd, (d, bd) ∈ done -> day_in v2 i bd) /\
       constraints s2 = constraints s /\ objective s2 = objective s)
    ipattern:(([s2 v2] & -> & Hok2 & Hle2 & Hin2 & Hc2 & Ho2)).
  { split; [done |]. split; [apply vars_le_refl |].
    split; [| done]. intros j dt H. by apply elem_of_nil in H. }
  { intros done [d bd] [s0 v0] (Hok0 & Hle0 & Hin0 & Hc0 & Ho0) Hjd.
    destruct (add_day_variable_step staff i d bd s0 v0 Hok0)
      as (s' & v' & -> & Hok' & Hle' & Hin' & Hc' & Ho').
    exists (s', v'). split; [done |].
    split; [done |]. split; [by eapply vars_le_trans |].
    split; [| split; congruence].
    intros d' bd' Hd'. apply elem_of_app in Hd' as [Hd' | Hd'].
    - eapply day_in_le; [done |]. by eapply Hin0.
    - apply list_elem_of_singleton in Hd'. by injection Hd' as -> ->. }
  exists s2, v2. split; [done |]. split; [done |].
  split; [by eapply vars_le_trans |]. split; [| split; [| done]].
  - intros dt Hdt. apply list_elem_of_lookup in Hdt as [j Hj].
    eapply slot_in_le; [done |]. apply (Hin1 j). simpl.
    by apply elem_of_enumerate.
  - intros d Hd. apply elem_of_unique in Hd.
    apply list_elem_of_lookup in Hd as [j Hj].
    apply (Hin2 j). simpl. by apply elem_of_enumerate.
Qed.

Lemma add_variables_total rs staff :
  exists s v,
    add_variables (Model_of rs staff) (CreateSolver, no_vars) = Ok (s, v) /\
    vars_ok staff s v /\ complete rs staff v /\
    constraints s = [] /\ objective s = None.
Proof.
  unfold add_variables. rewrite Model_of_M.
  loop_total
    (fun (done : list nat) '(s1, v1) =>
       vars_ok staff s1 v1 /\
       (forall i, i ∈ done ->
          (forall dt, dt ∈ map fst rs -> slot_in (Model_of rs staff) v1 i dt) /\
          (forall d, d ∈ map date (map fst rs) -> day_in v1 i d)) /\
       constraints s1 = [] /\ objective s1 = None)
    ipattern:(([s1 v1] & -> & Hok1 & Hin1 & Hc1 & Ho1)).
  { split; [| split; [| done]].
    - constructor; intros k h; simpl; by rewrite lookup_empty.
    - intros i H. by apply elem_of_nil in H. }
  { intros done i [s0 v0] (Hok0 & Hin0 & Hc0 & Ho0) Hi.
    apply elem_of_seq in Hi as [_ Hi]. simpl in Hi.
    destruct (lookup_lt_is_Some_2 staff i Hi) as [st Hst].
    destruct (add_staff_variables_step rs staff i s0 v0 st Hst Hok0)
      as (s' & v' & -> & Hok' & Hle' & Hs' & Hd' & Hc' & Ho').
    exists (s', v'). split; [done |]. split; [done |].
    split; [| split; congruence].
    intros i' Hi'. apply elem_of_app in Hi' as [Hi' | Hi'].
    - destruct (Hin0 i' Hi') as [Ha Hb]. split.
      + intros dt Hdt. eapply slot_in_le; [done |]. by apply Ha.
      + intros d Hd. eapply day_in_le; [done |]. by apply Hb.
    - apply list_elem_of_singleton in Hi' as ->. done. }
  exists s1, v1. split; [done |]. split; [done |]. split; [| done].
  intros i Hi. apply Hin1. simpl. apply elem_of_seq. lia.
Qed.

(** ** What [add_constraints] adds *)

Lemma get_subset_dts_Ok m lo hi ml l :
  get_subset_dts m lo hi ml = Ok l -> l = window m lo hi.
Proof.
  unfold get_subset_dts, window. destruct ml as [n |]; [| congruence].
  destruct (n =? 0); [congruence |].
  destruct (_ <=? n); [congruence | discriminate].
Qed.

Lemma elem_of_window m lo hi dt :
  dt ∈ window m lo hi <-> lo <= dt <= hi /\ dt ∈ keys (demand_dict m).
Proof. unfold window. by rewrite list_elem_of_filter. Qed.

Lemma extends_refl m s : extends m s s.
Proof. repeat split. exists []. by rewrite app_nil_r. Qed.

Lemma extends_trans m s1 s2 s3 : extends m s1 s2 -> extends m s2 s3 -> extends m s1 s3.
Proof.
  intros (Hv1 & Ho1 & cs1 & Hc1 & Hn1) (Hv2 & Ho2 & cs2 & Hc2 & Hn2).
  split; [congruence |]. split; [congruence |].
  exists (cs1 ++ cs2). split; [by rewrite Hc2, Hc1, app_assoc |].
  by apply Forall_app.
Qed.

Lemma extends_Add m s lhs rel rhs n :
  name_ok m n -> extends m s (Add s lhs rel rhs n).
Proof.
  intros Hn. repeat split. exists [mkConstraint n lhs rel rhs].
  split; [done |]. by constructor.
Qed.

Lemma extends_elem_of m s s' c :
  extends m s s' -> c ∈ constraints s -> c ∈ constraints s'.
Proof.
  intros (_ & _ & cs & -> & _) Hc. apply elem_of_app. by left.
Qed.

Lemma elem_of_Add s lhs rel rhs n :
  mkConstraint n lhs rel rhs ∈ constraints (Add s lhs rel rhs n).
Proof. simpl. apply elem_of_app. right. apply list_elem_of_here. Qed.

Lemma getitem_Ok `{Countable K} {V : Type} (d : gmap K V) (k : K) (v : V) :
  getitem d k = Ok v <-> d !! k = Some v.
Proof. unfold getitem. destruct (d !! k); split; congruence. Qed.

Lemma map_r_getitem d i l hs :
  map_r (fun dt => getitem d (i, dt)) l = Ok hs <-> handles d i l hs.
Proof.
  rewrite map_r_Ok. unfold handles.
  split; intros H; eapply Forall2_impl; try exact H; intros dt h;
    by rewrite getitem_Ok.
Qed.

Lemma slot_content_mono m v i j dt (cs cs' : list MPConstraint) :
  (forall c, c ∈ cs -> c ∈ cs') -> slot_content m v i j dt cs ->
  slot_content m v i j dt cs'.
Proof.
  intros Hsub (Hp & Hr & Hm & Ho). repeat split.
  - destruct Hp as (bd & h & hs & ? & ? & ? & ?). exists bd, h, hs. eauto.
  - destruct Hr as (h & hs & ? & ? & ?). exists h, hs. eauto.
  - destruct Hm as (h & hs & ? & ? & ?). exists h, hs. eauto.
  - destruct Ho as (bd & ms & ? & ? & Hall). exists bd, ms.
    split; [done |]. split; [done |]. intros o odt Ho.
    destruct (Hall o odt Ho) as (h1 & h2 & h3 & ? & ? & ? & ?).
    exists h1, h2, h3. eauto.
Qed.

Ltac step_bind H :=
  match type of H with
  | rbind ?r _ = Ok _ =>
      let E := fresh "E" in
      destruct r eqn:E; cbn [rbind] in H; [| discriminate H]
  end.

Lemma add_overtime_constraints_inv m v i j dt rest o overtime_dt s s' :
  add_overtime_constraints v i j dt rest o overtime_dt s = Ok s' ->
  extends m s s' /\ has_consecutive v i j dt o overtime_dt (constraints s').
Proof.
  unfold add_overtime_constraints. intros H.
  repeat step_bind H. apply getitem_Ok in E, E0, E1.
  set (s1 := Add s _ GE _ (Cconsecutive i j o)) in H.
  assert (extends m s s1) as Hs1 by by apply extends_Add.
  assert (has_consecutive v i j dt o overtime_dt (constraints s1)) as Hc1.
  { exists a, a0, a1. repeat split; try done. apply elem_of_Add. }
  set (s2 := Add s1 _ GE _ (Cot i j o)) in H.
  assert (extends m s1 s2) as Hs2 by by apply extends_Add.
  assert (has_consecutive v i j dt o overtime_dt (constraints s2)) as Hc2.
  { destruct Hc1 as (h1 & h2 & h3 & ? & ? & ? & ?). exists h1, h2, h3.
    repeat split; try done. by eapply (extends_elem_of m). }
  destruct (_ <=? _)%nat.
  - repeat step_bind H. injection H as <-.
    split.
    + eapply extends_trans; [done |]. eapply extends_trans; [done |].
      by apply extends_Add.
    + destruct Hc2 as (h1 & h2 & h3 & ? & ? & ? & ?). exists h1, h2, h3.
      repeat split; try done. eapply (extends_elem_of m); [| done].
      by apply extends_Add.
  - injection H as <-. split; [by eapply extends_trans | done].
Qed.

Tactic Notation "bind_in" hyp(H) "as" simple_intropattern(x) ident(E) :=
  match type of H with
  | rbind ?r _ = Ok _ =>
      destruct r as [x |] eqn:E; cbn [rbind] in H; [| discriminate H]
  end.

Lemma add_slot_constraints_inv m v i j dt s ls s' ls' :
  add_slot_constraints m v i j dt (s, ls) = Ok (s', ls') ->
  extends m s s' /\ slot_content m v i j dt (constraints s').
Proof.
  unfold add_slot_constraints. intros H.
  bind_in H as bd Ebd.
  bind_in H as past_dts Epast. apply get_subset_dts_Ok in Epast as ->.
  bind_in H as h_x Ehx. apply getitem_Ok in Ehx.
  bind_in H as hs_past Ehp. apply map_r_getitem in Ehp.
  bind_in H as rest_dts Erest. apply get_subset_dts_Ok in Erest as ->.
  bind_in H as hs_rest Ehr. apply map_r_getitem in Ehr.
  bind_in H as h_start Ehs. apply getitem_Ok in Ehs.
  bind_in H as shift_dts Eshift. apply get_subset_dts_Ok in Eshift as ->.
  bind_in H as hs_shift Ehsh. apply map_r_getitem in Ehsh.
  bind_in H as last_shift_dt Emax.
  bind_in H as pot Epot. apply get_subset_dts_Ok in Epot as ->.
  bind_in H as add_rest Eadd.
  bind_in H as s4 Eloop.
  bind_in H as other Eother.
  bind_in H as hs_other Eho.
  bind_in H as p Elink. destruct p as [s6 ls6].
  set (s1 := Add s _ LE _ (Cpast i j)) in *.
  set (s2 := Add s1 _ LE _ (Crest i j)) in *.
  set (s3 := Add s2 _ GE _ (Cmin_shift i j)) in *.
  set (s5 := Add s4 _ LE _ (Cmax_per_day i j)) in *.
  assert (extends m s s1) as X1 by by apply extends_Add.
  assert (extends m s1 s2) as X2 by by apply extends_Add.
  assert (extends m s2 s3) as X3 by by apply extends_Add.
  assert (extends m s4 s5) as X5 by by apply extends_Add.
  (* the loop over potential overtime hours *)
  pose proof (for_each_inv
    (fun (done : list (nat * Timestamp)) s' =>
       extends m s3 s' /\
       forall o odt, (o, odt) ∈ done -> has_consecutive v i j dt o odt (constraints s'))
    _ _ [] _ _ Eloop) as Hloop.
  destruct Hloop as [X4 Hcons].
  { split; [apply extends_refl |]. intros o odt Ho. by apply elem_of_nil in Ho. }
  { intros d [o odt] sa sb [Xa Ha] _ Hbody.
    apply (add_overtime_constraints_inv m) in Hbody as [Xb Hb].
    split; [by eapply extends_trans |].
    intros o' odt' Ho'. apply elem_of_app in Ho' as [Ho' | Ho'].
    - destruct (Ha o' odt' Ho') as (h1 & h2 & h3 & ? & ? & ? & ?).
      exists h1, h2, h3. repeat split; try done. by eapply (extends_elem_of m).
    - apply list_elem_of_singleton in Ho'. by injection Ho' as -> ->. }
  simpl in Hcons.
  (* linking x with x_day *)
  assert (extends m s5 s6) as X6.
  { destruct (bool_decide _); [| injection Elink as <- <-; apply extends_refl].
    bind_in Elink as days Edays.
    destruct (_ >? _) eqn:Hlong; [| injection Elink as <- <-; apply extends_refl].
    repeat step_bind Elink. injection Elink as <- <-.
    apply extends_Add. simpl. exists days. split; [done | lia]. }
  assert (extends m s s6) as X.
  { repeat (eapply extends_trans; [eassumption |]). apply extends_refl. }
  assert (slot_content m v i j dt (constraints s6)) as Hcontent.
  { repeat split.
    - exists bd, h_x, hs_past. repeat split; try done.
      apply (extends_elem_of m s1); [| apply elem_of_Add].
      repeat (eapply extends_trans; [eassumption |]). apply extends_refl.
    - exists h_start, hs_rest. repeat split; try done.
      apply (extends_elem_of m s2); [| apply elem_of_Add].
      repeat (eapply extends_trans; [eassumption |]). apply extends_refl.
    - exists h_start, hs_shift. repeat split; try done.
      apply (extends_elem_of m s3); [| apply elem_of_Add].
      repeat (eapply extends_trans; [eassumption |]). apply extends_refl.
    - exists bd, last_shift_dt. repeat split; try done.
      intros o odt Ho. apply elem_of_enumerate in Ho.
      destruct (Hcons o odt Ho) as (h1 & h2 & h3 & ? & ? & ? & ?).
      exists h1, h2, h3. repeat split; try done.
      apply (extends_elem_of m s4); [| done].
      repeat (eapply extends_trans; [eassumption |]). apply extends_refl. }
  destruct (is_last_staff m i).
  - bind_in H as hs_all Eall. bind_in H as h_y1 Ey1. bind_in H as h_y2 Ey2.
    bind_in H as d Ed. injection H as <- <-. split.
    + eapply extends_trans; [done |]. by apply extends_Add.
    + eapply slot_content_mono; [| done].
      intros c. apply (extends_elem_of m). by apply extends_Add.
  - injection H as <- <-. done.
Qed.

Lemma length_week_days_of weeks days w :
  (length (week_days_of weeks days w) <= length (unique days))%nat.
Proof.
  unfold week_days_of. apply length_unique_incl. intros a Ha.
  apply list_elem_of_fmap in Ha as ([w' d] & -> & Hin).
  apply list_elem_of_filter in Hin as [_ Hin]. simpl.
  apply list_elem_of_In in Hin. apply in_combine_r in Hin.
  by apply list_elem_of_In.
Qed.

Lemma add_week_constraint_inv m v i w s s' :
  add_week_constraint m v i w s = Ok s' -> extends m s s'.
Proof.
  unfold add_week_constraint. intros H.
  bind_in H as weeks Ew. bind_in H as days Ed.
  destruct (_ >? _) eqn:Hlong; [| injection H as <-; apply extends_refl].
  bind_in H as hs Ehs. injection H as <-.
  apply extends_Add. simpl. exists days. split; [done |].
  pose proof (length_week_days_of weeks days w). lia.
Qed.

Lemma add_staff_constraints_inv m v i s s' :
  add_staff_constraints m v i s = Ok s' ->
  extends m s s' /\
  forall j dt, keys (demand_dict m) !! j = Some dt ->
               slot_content m v i j dt (constraints s').
Proof.
  unfold add_staff_constraints. intros H.
  bind_in H as p Eslots. destruct p as [s1 ls1].
  bind_in H as weeks Ew.
  pose proof (for_each_inv
    (fun (done : list (nat * Timestamp)) (st : Solver * option Timestamp) =>
       extends m s (fst st) /\
       forall j dt, (j, dt) ∈ done -> slot_content m v i j dt (constraints (fst st)))
    _ _ [] _ _ Eslots) as Hslots.
  destruct Hslots as [X1 Hc1].
  { split; [apply extends_refl |]. intros j dt Hj. by apply elem_of_nil in Hj. }
  { intros d [j dt] [sa la] [sb lb] [Xa Ha] _ Hbody.
    apply add_slot_constraints_inv in Hbody as [Xb Hb]. simpl in *.
    split; [by eapply extends_trans |].
    intros j' dt' Hj'. apply elem_of_app in Hj' as [Hj' | Hj'].
    - eapply slot_content_mono; [| by apply Ha].
      intros c. by apply (extends_elem_of m).
    - apply list_elem_of_singleton in Hj'. by injection Hj' as -> ->. }
  simpl in X1, Hc1.
  pose proof (for_each_inv
    (fun (done : list Z) (s' : Solver) => extends m s1 s')
    _ _ [] _ _ H) as X2.
  simpl in X2.
  assert (extends m s1 s') as X3.
  { apply X2; [apply extends_refl |].
    intros d w sa sb Xa _ Hbody. apply add_week_constraint_inv in Hbody.
    by eapply extends_trans. }
  split; [by eapply extends_trans |].
  intros j dt Hj. eapply slot_content_mono.
  - intros c. by apply (extends_elem_of m s1).
  - apply Hc1. by apply elem_of_enumerate.
Qed.

Lemma add_constraints_inv m v s s' :
  add_constraints m v s = Ok s' ->
  extends m s s' /\
  forall i j dt, (i < M m)%nat -> keys (demand_dict m) !! j = Some dt ->
                 slot_content m v i j dt (constraints s').
Proof.
  unfold add_constraints. intros H.
  pose proof (for_each_inv
    (fun (done : list nat) (s' : Solver) =>
       extends m s s' /\
       forall i j dt, i ∈ done -> keys (demand_dict m) !! j = Some dt ->
                      slot_content m v i j dt (constraints s'))
    _ _ [] _ _ H) as Hall.
  destruct Hall as [X Hc].
  { split; [apply extends_refl |]. intros i j dt Hi. by apply elem_of_nil in Hi. }
  { intros d i sa sb [Xa Ha] _ Hbody.
    apply add_staff_constraints_inv in Hbody as [Xb Hb].
    split; [by eapply extends_trans |].
    intros i' j dt Hi' Hj. apply elem_of_app in Hi' as [Hi' | Hi'].
    - eapply slot_content_mono; [| by apply Ha].
      intros c. by apply (extends_elem_of m).
    - apply list_elem_of_singleton in Hi' as ->. by apply Hb. }
  split; [done |]. intros i j dt Hi Hj. apply Hc; [| done].
  simpl. apply elem_of_seq. lia.
Qed.

(** ** The model handed to the engine *)

Lemma build_model_inv rs staff s v :
  build_model (Model_of rs staff) = Ok (s, v) ->
  exists s1 s2 obj,
    add_variables (Model_of rs staff) (CreateSolver, no_vars) = Ok (s1, v) /\
    add_constraints (Model_of rs staff) v s1 = Ok s2 /\
    s = Minimize s2 obj /\
    vars_ok staff s v /\ complete rs staff v /\
    variables s = variables s1 /\ constraints s1 = [] /\
    extends (Model_of rs staff) s1 s2 /\ constraints s = constraints s2.
Proof.
  unfold build_model. intros H.
  destruct (add_variables_total rs staff) as (s1 & v1 & Hvars & Hok & Hcomp & Hc & Ho).
  rewrite Hvars in H. cbn [rbind] in H.
  bind_in H as s2 Econs. bind_in H as obj Eobj. injection H as <- <-.
  destruct (add_constraints_inv _ _ _ _ Econs) as [X _].
  pose proof X as (Hv & Hob & Hcs).
  exists s1, s2, obj.
  split; [done |]. split; [done |]. split; [done |].
  split; [| split; [done |]; split; [done |]; split; [done |]; split; done].
  destruct Hok as [Ks Kx Ko K1 K2 Kd].
  constructor; intros k h Hk; unfold at_handle; simpl; rewrite Hv.
  - by apply Ks.
  - by apply Kx.
  - by apply Ko.
  - by apply K1.
  - by apply K2.
  - by apply Kd.
Qed.

(** ** Values under a feasible assignment *)

Lemma feasible_at_handle s a h P :
  feasible s a -> at_handle s h P -> exists var, P var /\ respects a h var.
Proof.
  intros [Hb _] (var & Hl & HP). exists var. split; [done |]. by apply Hb.
Qed.

Lemma integer_0_1 (q : Q) :
  is_integer q -> (0 <= q)%Q -> (q <= 1)%Q -> (q == 0)%Q \/ (q == 1)%Q.
Proof.
  intros [z Hz] H0 H1. rewrite Hz in *.
  change 0%Q with (inject_Z 0) in H0. change 1%Q with (inject_Z 1) in H1.
  rewrite <- Zle_Qle in H0, H1.
  assert (z = 0 \/ z = 1) as [-> | ->] by lia; [by left | by right].
Qed.

Lemma start_value s v staff a k h :
  vars_ok staff s v -> feasible s a -> x_start v !! k = Some h ->
  (a h == 0)%Q \/ (a h == 1)%Q.
Proof.
  intros Hok Hf Hk.
  destruct (feasible_at_handle s a h _ Hf (ok_start _ _ _ Hok k h Hk))
    as (var & (Hlb & Hub & Hint) & (Rl & Ru & Ri)).
  rewrite Hlb in Rl. rewrite Hub in Ru.
  apply integer_0_1; [by apply Ri | done |].
  destruct (_ >? _); [| done]. change (inject_Z 0) with 0%Q in Ru. lra.
Qed.

Lemma x_value s v staff a k h :
  vars_ok staff s v -> feasible s a -> x v !! k = Some h ->
  (a h == 0)%Q \/ (a h == 1)%Q.
Proof.
  intros Hok Hf Hk.
  destruct (feasible_at_handle s a h _ Hf (ok_x _ _ _ Hok k h Hk))
    as (var & (Hlb & Hub & Hint) & (Rl & Ru & Ri)).
  rewrite Hlb in Rl. rewrite Hub in Ru.
  apply integer_0_1; [by apply Ri | done | done].
Qed.

Lemma eval_fold_left_EAdd a (es : list LinearExpr) (e0 : LinearExpr) :
  (eval a (fold_left EAdd es e0) ==
   eval a e0 + fold_right (fun e acc => eval a e + acc) 0 es)%Q.
Proof.
  revert e0. induction es as [| e es IH]; intros e0; simpl.
  - lra.
  - rewrite IH. simpl. lra.
Qed.

Lemma eval_py_sum a (hs : list nat) :
  (eval a (py_sum (map EVar hs)) == total a hs)%Q.
Proof.
  unfold py_sum. rewrite eval_fold_left_EAdd. simpl.
  induction hs as [| h hs IH]; simpl; [lra |].
  rewrite Qplus_0_l in IH. rewrite IH. lra.
Qed.

Lemma total_nonneg a hs :
  (forall h, h ∈ hs -> (0 <= a h)%Q) -> (0 <= total a hs)%Q.
Proof.
  induction hs as [| h hs IH]; intros Hall; simpl; [lra |].
  assert (0 <= a h)%Q by (apply Hall, list_elem_of_here).
  assert (0 <= total a hs)%Q.
  { apply IH. intros h' Hh'. apply Hall. by apply list_elem_of_further. }
  lra.
Qed.

Lemma total_le_0 a hs h :
  (forall h, h ∈ hs -> (0 <= a h)%Q) -> (total a hs <= 0)%Q -> h ∈ hs ->
  (a h == 0)%Q.
Proof.
  induction hs as [| h0 hs IH]; intros Hall Hle Hin; [by apply elem_of_nil in Hin |].
  simpl in Hle.
  assert (0 <= a h0)%Q by (apply Hall, list_elem_of_here).
  assert (0 <= total a hs)%Q.
  { apply total_nonneg. intros h' Hh'. apply Hall. by apply list_elem_of_further. }
  apply elem_of_cons in Hin as [-> | Hin]; [lra |].
  apply IH; [| lra | done].
  intros h' Hh'. apply Hall. by apply list_elem_of_further.
Qed.

Lemma total_le_len a hs :
  (forall h, h ∈ hs -> (a h <= 1)%Q) -> (total a hs <= len hs)%Q.
Proof.
  unfold len. induction hs as [| h hs IH]; intros Hall; simpl length.
  - apply Qle_refl.
  - assert (a h <= 1)%Q by (apply Hall, list_elem_of_here).
    assert (total a hs <= inject_Z (Z.of_nat (length hs)))%Q.
    { apply IH. intros h' Hh'. apply Hall. by apply list_elem_of_further. }
    rewrite Nat2Z.inj_succ. unfold Z.succ. rewrite inject_Z_plus.
    simpl total. change (inject_Z 1) with 1%Q. lra.
Qed.

Lemma total_ge_len a hs h :
  (forall h, h ∈ hs -> (a h <= 1)%Q) -> (len hs <= total a hs)%Q -> h ∈ hs ->
  (a h == 1)%Q.
Proof.
  unfold len. induction hs as [| h0 hs IH]; intros Hall Hle Hin;
    [by apply elem_of_nil in Hin |].
  simpl length in Hle. rewrite Nat2Z.inj_succ in Hle. unfold Z.succ in Hle.
  rewrite inject_Z_plus in Hle. simpl total in Hle.
  change (inject_Z 1) with 1%Q in Hle.
  assert (a h0 <= 1)%Q by (apply Hall, list_elem_of_here).
  assert (total a hs <= len hs)%Q.
  { apply total_le_len. intros h' Hh'. apply Hall. by apply list_elem_of_further. }
  unfold len in *.
  apply elem_of_cons in Hin as [-> | Hin]; [lra |].
  apply IH; [| lra | done].
  intros h' Hh'. apply Hall. by apply list_elem_of_further.
Qed.

Lemma total_pos a hs :
  (0 < total a hs)%Q -> exists h, h ∈ hs /\ ~ (a h == 0)%Q.
Proof.
  induction hs as [| h0 hs IH]; simpl; intros Hpos; [lra |].
  destruct (Qeq_dec (a h0) 0) as [H0 | H0].
  - destruct IH as (h & Hin & Hh); [lra |].
    exists h. split; [by apply list_elem_of_further | done].
  - exists h0. split; [apply list_elem_of_here | done].
Qed.

Lemma handles_lookup d i l hs dt :
  handles d i l hs -> dt ∈ l -> exists h, d !! (i, dt) = Some h /\ h ∈ hs.
Proof.
  intros Hh Hin. apply list_elem_of_lookup in Hin as [n Hn].
  destruct (Forall2_lookup_l _ _ _ _ _ Hh Hn) as (h & Hh' & Hd).
  exists h. split; [done |]. by apply list_elem_of_lookup_2 with n.
Qed.

Lemma handles_elem_of d i l hs h :
  handles d i l hs -> h ∈ hs -> exists dt, dt ∈ l /\ d !! (i, dt) = Some h.
Proof.
  intros Hh Hin. apply list_elem_of_lookup in Hin as [n Hn].
  destruct (Forall2_lookup_r _ _ _ _ _ Hh Hn) as (dt & Hdt & Hd).
  exists dt. split; [| done]. by apply list_elem_of_lookup_2 with n.
Qed.

Lemma handles_length d i l hs : handles d i l hs -> length hs = length l.
Proof. intros Hh. symmetry. by apply Forall2_length in Hh. Qed.

(** ** Variables of the built model *)

Lemma built_x_start rs staff s v i dt :
  build_model (Model_of rs staff) = Ok (s, v) ->
  (i < length staff)%nat -> dt ∈ map fst rs ->
  exists h var,
    x_start v !! (i, dt) = Some h /\ variables s !! h = Some var /\
    start_spec (i, dt) var.
Proof.
  intros Hb Hi Hdt.
  destruct (build_model_inv _ _ _ _ Hb) as (s1 & s2 & obj & _ & _ & _ & Hok & Hc & _).
  destruct (Hc i Hi) as [Hslot _]. destruct (Hslot dt Hdt) as ([h Hh] & _).
  destruct (ok_start _ _ _ Hok _ _ Hh) as (var & Hvar & Hspec). by exists h, var.
Qed.

Lemma built_x_ot rs staff s v i dt :
  build_model (Model_of rs staff) = Ok (s, v) ->
  (i < length staff)%nat -> dt ∈ map fst rs ->
  exists h var,
    x_ot v !! (i, dt) = Some h /\ variables s !! h = Some var /\
    ot_spec staff (i, dt) var.
Proof.
  intros Hb Hi Hdt.
  destruct (build_model_inv _ _ _ _ Hb) as (s1 & s2 & obj & _ & _ & _ & Hok & Hc & _).
  destruct (Hc i Hi) as [Hslot _]. destruct (Hslot dt Hdt) as (_ & _ & [h Hh] & _).
  destruct (ok_ot _ _ _ Hok _ _ Hh) as (var & Hvar & Hspec). by exists h, var.
Qed.

Lemma built_x_day rs staff s v i d :
  build_model (Model_of rs staff) = Ok (s, v) ->
  (i < length staff)%nat -> d ∈ map date (map fst rs) ->
  exists h var,
    x_day v !! (i, to_datetime_date d) = Some h /\ variables s !! h = Some var /\
    day_spec (i, to_datetime_date d) var.
Proof.
  intros Hb Hi Hd.
  destruct (build_model_inv _ _ _ _ Hb) as (s1 & s2 & obj & _ & _ & _ & Hok & Hc & _).
  destruct (Hc i Hi) as [_ Hday]. destruct (Hday d Hd) as [h Hh].
  destruct (ok_day _ _ _ Hok _ _ Hh) as (var & Hvar & Hspec). by exists h, var.
Qed.

Lemma built_names rs staff s v c :
  build_model (Model_of rs staff) = Ok (s, v) ->
  c ∈ constraints s -> name_ok (Model_of rs staff) (c_name c).
Proof.
  intros Hb Hc.
  destruct (build_model_inv _ _ _ _ Hb)
    as (s1 & s2 & obj & _ & _ & _ & _ & _ & _ & Hnil & X & Hcs).
  destruct X as (_ & _ & cs & Hcs2 & Hall).
  rewrite Hcs, Hcs2, Hnil in Hc. simpl in Hc.
  rewrite Forall_forall in Hall. by apply Hall.
Qed.

Lemma built_slot_content rs staff s v i j dt :
  build_model (Model_of rs staff) = Ok (s, v) ->
  (i < length staff)%nat -> keys (to_dict rs) !! j = Some dt ->
  slot_content (Model_of rs staff) v i j dt (constraints s).
Proof.
  intros Hb Hi Hj.
  destruct (build_model_inv _ _ _ _ Hb)
    as (s1 & s2 & obj & _ & Hcons & _ & _ & _ & _ & _ & _ & Hcs).
  rewrite Hcs. by apply (add_constraints_inv _ _ _ _ Hcons).
Qed.

Lemma hour_offset (dt : Timestamp) : hour dt = dt - to_datetime_date (date dt).
Proof. unfold hour, to_datetime_date, date. rewrite Z.mod_eq by lia. lia. Qed.

(** A start forbids every start in the rest window after it. *)
Lemma rest_excludes_starts m staff s v a i j dt h r h' :
  vars_ok staff s v -> feasible s a ->
  has_rest m v i j dt (constraints s) ->
  x_start v !! (i, dt) = Some h -> (a h == 1)%Q ->
  r ∈ keys (demand_dict m) ->
  dt + 1 <= r <= dt + (MIN_SHIFT_HOURS + MIN_REST_HOURS - 1) ->
  x_start v !! (i, r) = Some h' -> (a h' == 0)%Q.
Proof.
  intros Hok Hf (h0 & hs & Hh0 & Hhs & Hc) Hh Hone Hr Hwin Hh'.
  rewrite Hh in Hh0. injection Hh0 as <-.
  pose proof (proj2 Hf _ Hc) as Hholds. unfold holds in Hholds. simpl in Hholds.
  rewrite eval_py_sum, Hone in Hholds.
  destruct (handles_lookup _ _ _ _ r Hhs) as (h1 & Hh1 & Hin).
  { by apply elem_of_window. }
  pose proof (eq_trans (eq_sym Hh1) Hh') as Heq. injection Heq as ->.
  apply (total_le_0 a hs); [| lra | done].
  intros h2 Hh2. destruct (handles_elem_of _ _ _ _ _ Hhs Hh2) as (dt2 & _ & Hd2).
  destruct (start_value _ _ _ _ _ _ Hok Hf Hd2) as [-> | ->]; lra.
Qed.

(** C5. For every staff member and slot, the overtime variable
    [x_ot[s][t]] of the built model has lower and upper bound 0 whenever
    the role of [s] is in [ROLE_OT_PROHIBITED] or the hour of [t] is below
    [MIN_SHIFT_HOURS] (the first [MIN_SHIFT_HOURS] hours of its business
    day), and therefore takes the value 0 in every assignment that is
    feasible for the model. *)
Theorem overtime_fixed_to_zero rs staff s v i st dt :
  build_model (Model_of rs staff) = Ok (s, v) ->
  staff !! i = Some st ->
  dt ∈ map fst rs ->
  ot_prohibited (role st) = true \/
    dt - to_datetime_date (date dt) < MIN_SHIFT_HOURS ->
  exists h var,
    x_ot v !! (i, dt) = Some h /\ variables s !! h = Some var /\
    v_lb var = 0 /\ v_ub var = 0 /\
    forall a, feasible s a -> (a h == 0)%Q.
Proof.
  intros Hb Hst Hdt Hcond.
  destruct (built_x_ot rs staff s v i dt Hb) as (h & var & Hh & Hvar & Hlb & _ & Hub);
    [by eapply lookup_lt_Some | done |].
  specialize (Hub st Hst). simpl in Hub.
  assert (v_ub var = 0) as Hub0.
  { rewrite Hub. destruct Hcond as [-> | Hhour]; [done |].
    rewrite <- hour_offset in Hhour. apply Z.ltb_lt in Hhour. rewrite Hhour.
    by rewrite orb_true_r. }
  exists h, var. repeat split; try done.
  intros a [Hbounds _]. destruct (Hbounds h var Hvar) as (Rl & Ru & _).
  rewrite Hlb in Rl. rewrite Hub0 in Ru. change (inject_Z 0) with 0%Q in *. lra.
Qed.

(** C6. In the built model every staff member and slot has the rest
    constraint: the sum of [x_start] over the slots of the grid in
    (t, t + MIN_SHIFT_HOURS + MIN_REST_HOURS - 1] is at most the number of
    those slots times (1 - x_start[s][t]).  Hence in every feasible
    assignment two slots t < t' at which the same staff member starts a
    shift are at least MIN_SHIFT_HOURS + MIN_REST_HOURS hours apart. *)
Theorem rest_between_shift_starts rs staff s v :
  build_model (Model_of rs staff) = Ok (s, v) ->
  (forall i j t,
     (i < length staff)%nat -> keys (to_dict rs) !! j = Some t ->
     has_rest (Model_of rs staff) v i j t (constraints s)) /\
  (forall a i t t' h h',
     feasible s a -> (i < length staff)%nat ->
     t ∈ map fst rs -> t' ∈ map fst rs ->
     x_start v !! (i, t) = Some h -> x_start v !! (i, t') = Some h' ->
     (a h == 1)%Q -> (a h' == 1)%Q -> t < t' ->
     MIN_SHIFT_HOURS + MIN_REST_HOURS <= t' - t).
Proof.
  intros Hb. split.
  - intros i j t Hi Hj. by apply (built_slot_content rs staff s v i j t Hb Hi Hj).
  - intros a i t t' h h' Hf Hi Ht Ht' Hh Hh' H1 H1' Hlt.
    destruct (Z_lt_le_dec (t' - t) (MIN_SHIFT_HOURS + MIN_REST_HOURS))
      as [Hnear | Hfar]; [exfalso | done].
    apply elem_of_keys_to_dict in Ht, Ht'.
    apply list_elem_of_lookup in Ht as [j Hj].
    destruct (build_model_inv _ _ _ _ Hb) as (_ & _ & _ & _ & _ & _ & Hok & _).
    pose proof (built_slot_content rs staff s v i j t Hb Hi Hj) as (_ & Hrest & _).
    assert (a h' == 0)%Q as H0.
    { eapply (rest_excludes_starts _ staff s v a i j t h t' h'); try done. lia. }
    rewrite H0 in H1'. discriminate H1'.
Qed.

(** C7, as amended. The day indicators [x_day[s][d]] are created for every
    staff member and every business day of the horizon, whatever its
    length.  The day-link and weekly day-off constraints are present only
    when the horizon has more than [MAX_DAYS_PER_WEEK] business days: on a
    horizon of at most [MAX_DAYS_PER_WEEK] days no constraint of the model
    carries one of their names. *)
Theorem day_variables_always_day_constraints_long_horizon rs staff s v :
  build_model (Model_of rs staff) = Ok (s, v) ->
  (forall i d,
     (i < length staff)%nat -> d ∈ map date (map fst rs) ->
     exists h var k,
       x_day v !! (i, to_datetime_date d) = Some h /\
       variables s !! h = Some var /\ v_name var = Nx_day i k) /\
  (Z.of_nat (length (unique (map date (map fst rs)))) <= MAX_DAYS_PER_WEEK ->
   forall c, c ∈ constraints s ->
     (forall i j, c_name c <> Cday_link i j) /\
     (forall i w, c_name c <> Cmax_per_week i w)).
Proof.
  intros Hb. split.
  - intros i d Hi Hd.
    destruct (built_x_day rs staff s v i d Hb Hi Hd)
      as (h & var & Hh & Hvar & _ & _ & _ & k & Hk).
    by exists h, var, k.
  - intros Hshort c Hc. pose proof (built_names rs staff s v c Hb Hc) as Hn.
    split; intros i j Heq; rewrite Heq in Hn; unfold name_ok in Hn;
      destruct Hn as (days & Hdays & Hlong);
      rewrite Model_of_bus_day in Hdays; injection Hdays as <-; lia.
Qed.

(** C8, as amended. In the built model [x_start[s][t]] is an integer
    variable with lower bound 0; its upper bound is 0 exactly when the end
    timestamp [t + MIN_SHIFT_HOURS] of a shift of minimum length falls on a
    later date than [t], that is when the hour of [t] is at least
    [24 - MIN_SHIFT_HOURS], and 1 otherwise. *)
Theorem start_fixed_iff_minimum_shift_ends_next_day rs staff s v i dt :
  build_model (Model_of rs staff) = Ok (s, v) ->
  (i < length staff)%nat -> dt ∈ map fst rs ->
  exists h var,
    x_start v !! (i, dt) = Some h /\ variables s !! h = Some var /\
    v_lb var = 0 /\ v_integer var = true /\
    (v_ub var = 0 \/ v_ub var = 1) /\
    (v_ub var = 0 <-> date (dt + MIN_SHIFT_HOURS) > date dt) /\
    (date (dt + MIN_SHIFT_HOURS) > date dt <-> 24 - MIN_SHIFT_HOURS <= hour dt).
Proof.
  intros Hb Hi Hdt.
  destruct (built_x_start rs staff s v i dt Hb Hi Hdt)
    as (h & var & Hh & Hvar & Hlb & Hub & Hint).
  simpl in Hub. exists h, var. repeat split; try done.
  - rewrite Hub. destruct (_ >? _); [by left | by right].
  - rewrite Hub. destruct (Z.gtb_spec (date (dt + MIN_SHIFT_HOURS)) (date dt)); lia.
  - rewrite Hub. destruct (Z.gtb_spec (date (dt + MIN_SHIFT_HOURS)) (date dt)); lia.
  - unfold date, hour, MIN_SHIFT_HOURS. Z.to_euclidean_division_equations. lia.
  - unfold date, hour, MIN_SHIFT_HOURS. Z.to_euclidean_division_equations. lia.
Qed.

(** ** Checking a concrete assignment *)

Lemma feasibleb_sound s a : feasibleb s a = true -> feasible s a.
Proof.
  unfold feasibleb. rewrite andb_true_iff, !forallb_forall. intros [Hv Hc]. split.
  - intros h var Hh.
    specialize (Hv (h, var)). simpl in Hv. unfold respectsb in Hv.
    rewrite !andb_true_iff in Hv.
    destruct Hv as [[Hl Hu] Hi].
    { apply list_elem_of_In. by apply elem_of_enumerate. }
    apply Qle_bool_iff in Hl, Hu. repeat split; try done.
    intros Hint. rewrite Hint in Hi. apply Qeq_bool_iff in Hi. by eexists.
  - intros c Hin. apply list_elem_of_In in Hin. specialize (Hc c Hin).
    unfold holdsb in Hc. unfold holds.
    destruct (c_rel c); by apply Qle_bool_iff in Hc.
Qed.

(** ** Concrete inputs *)

Lemma morning_built_eq :
  build_model (Model_of (hourly_rows 0 3 3) [branch_manager]) = Ok morning_built.
Proof. vm_compute. reflexivity. Defined.

Lemma afternoon_built_eq :
  build_model (Model_of (hourly_rows 15 2 3) [manager]) = Ok afternoon_built.
Proof. vm_compute. reflexivity. Defined.

Lemma overtime_fixed_to_zero_witness :
  exists h var,
    x_ot (snd morning_built) !! (0%nat, 1) = Some h /\
    variables (fst morning_built) !! h = Some var /\
    v_lb var = 0 /\ v_ub var = 0 /\
    forall a, feasible (fst morning_built) a -> (a h == 0)%Q.
Proof.
  apply (overtime_fixed_to_zero (hourly_rows 0 3 3) [branch_manager]
           (fst morning_built) (snd morning_built) 0%nat branch_manager 1).
  - exact morning_built_eq.
  - reflexivity.
  - vm_compute. apply list_elem_of_further, list_elem_of_here.
  - left. reflexivity.
Defined.

Lemma rest_between_shift_starts_witness :
  (forall i j t,
     (i < 1)%nat -> keys (to_dict (hourly_rows 0 3 3)) !! j = Some t ->
     has_rest (Model_of (hourly_rows 0 3 3) [branch_manager]) (snd morning_built)
              i j t (constraints (fst morning_built))) /\
  (forall a i t t' h h',
     feasible (fst morning_built) a -> (i < 1)%nat ->
     t ∈ map fst (hourly_rows 0 3 3) -> t' ∈ map fst (hourly_rows 0 3 3) ->
     x_start (snd morning_built) !! (i, t) = Some h ->
     x_start (snd morning_built) !! (i, t') = Some h' ->
     (a h == 1)%Q -> (a h' == 1)%Q -> t < t' ->
     MIN_SHIFT_HOURS + MIN_REST_HOURS <= t' - t).
Proof.
  apply (rest_between_shift_starts (hourly_rows 0 3 3) [branch_manager]
           (fst morning_built) (snd morning_built)).
  exact morning_built_eq.
Defined.

Lemma day_variables_always_day_constraints_long_horizon_witness :
  (forall i d,
     (i < 1)%nat -> d ∈ map date (map fst (hourly_rows 0 3 3)) ->
     exists h var k,
       x_day (snd morning_built) !! (i, to_datetime_date d) = Some h /\
       variables (fst morning_built) !! h = Some var /\ v_name var = Nx_day i k) /\
  (Z.of_nat (length (unique (map date (map fst (hourly_rows 0 3 3)))))
   <= MAX_DAYS_PER_WEEK ->
   forall c, c ∈ constraints (fst morning_built) ->
     (forall i j, c_name c <> Cday_link i j) /\
     (forall i w, c_name c <> Cmax_per_week i w)).
Proof.
  apply (day_variables_always_day_constraints_long_horizon
           (hourly_rows 0 3 3) [branch_manager]
           (fst morning_built) (snd morning_built)).
  exact morning_built_eq.
Defined.

Lemma start_fixed_iff_minimum_shift_ends_next_day_witness :
  exists h var,
    x_start (snd afternoon_built) !! (0%nat, 16) = Some h /\
    variables (fst afternoon_built) !! h = Some var /\
    v_lb var = 0 /\ v_integer var = true /\
    (v_ub var = 0 \/ v_ub var = 1) /\
    (v_ub var = 0 <-> date (16 + MIN_SHIFT_HOURS) > date 16) /\
    (date (16 + MIN_SHIFT_HOURS) > date 16 <-> 24 - MIN_SHIFT_HOURS <= hour 16).
Proof.
  apply (start_fixed_iff_minimum_shift_ends_next_day
           (hourly_rows 15 2 3) [manager]
           (fst afternoon_built) (snd afternoon_built) 0%nat 16).
  - exact afternoon_built_eq.
  - simpl. lia.
  - vm_compute. apply list_elem_of_further, list_elem_of_here.
Defined.

(** C8 as stated fails at 15:00: the minimum shift occupies the slots
    15:00 to 23:00 of the same day, yet [x_start] is fixed to 0. *)
Lemma start_fixed_at_15_without_crossing :
  build_model (Model_of (hourly_rows 15 2 3) [manager]) = Ok afternoon_built /\
  exists h var,
    x_start (snd afternoon_built) !! (0%nat, 15) = Some h /\
    variables (fst afternoon_built) !! h = Some var /\
    v_lb var = 0 /\ v_ub var = 0 /\ ~ minimum_shift_crosses_day 15.
Proof.
  split; [exact afternoon_built_eq |].
  eexists _, _. split; [vm_compute; reflexivity |].
  split; [vm_compute; reflexivity |].
  split; [reflexivity |]. split; [reflexivity |].
  unfold minimum_shift_crosses_day. vm_compute. intros H. discriminate H.
Defined.

(** C7 as stated fails on a one-day horizon: the day indicator exists. *)
Lemma day_variable_on_short_horizon :
  build_model (Model_of (hourly_rows 0 3 3) [branch_manager]) = Ok morning_built /\
  Z.of_nat (length (unique (map date (map fst (hourly_rows 0 3 3)))))
    <= MAX_DAYS_PER_WEEK /\
  exists h var,
    x_day (snd morning_built) !! (0%nat, 0) = Some h /\
    variables (fst morning_built) !! h = Some var /\
    v_name var = Nx_day 0 0.
Proof.
  split; [exact morning_built_eq |].
  split; [vm_compute; intros H; discriminate H |].
  eexists _, _. split; [vm_compute; reflexivity |].
  split; [vm_compute; reflexivity | reflexivity].
Defined.

(** ** Model.__init__ and the caller's frame *)

Lemma fst_combine_Forall2 {A B C : Type} (R : A -> B -> Prop) (l : list A)
  (k : list B) (rs : list (A * C)) :
  Forall2 R (map fst rs) k -> map fst (combine k (map snd rs)) = k.
Proof.
  revert k. induction rs as [| [a c] rs IH]; intros k H; simpl in *.
  - by inversion H.
  - inversion H as [| ? b ? k' Hab Hrest]; subst. simpl. f_equal. by apply IH.
Qed.

Lemma snd_combine_Forall2 {A B C : Type} (R : A -> B -> Prop)
  (k : list B) (rs : list (A * C)) :
  Forall2 R (map fst rs) k -> map snd (combine k (map snd rs)) = map snd rs.
Proof.
  revert k. induction rs as [| [a c] rs IH]; intros k H; simpl in *.
  - by inversion H.
  - inversion H as [| ? b ? k' Hab Hrest]; subst. simpl. f_equal. by apply IH.
Qed.

(** C10. [__init__] works on the caller's frame: after the call that
    frame holds timestamps in [date_time] (the parsed cells), the same
    demand column, and the derived columns [bus_day] and [week]; the model
    keeps this very frame.  A frame that came without the derived columns
    is therefore not left as it was. *)
Theorem init_mutates_demand_df (parse : string -> option Timestamp)
  (df : DataFrame cell) (staff : list Staff) (df' : DataFrame Timestamp)
  (m : Model) :
  __init__ parse df staff = Ok (df', m) ->
  Forall2 (fun c t => to_datetime parse c = Ok t)
          (col_date_time df) (col_date_time df') /\
  col_demand df' = col_demand df /\
  bus_day df' = Some (map date (col_date_time df')) /\
  week df' =
    Some (map (fun dt => days (dt - col_min (col_date_time df')) / 7 + 1)
              (col_date_time df')) /\
  demand_df m = df' /\
  (bus_day df = None \/ week df = None ->
   (bus_day df', week df') <> (bus_day df, week df)).
Proof.
  unfold __init__. intros H. bind_in H as col Ecol.
  apply map_r_Ok in Ecol. injection H as <- <-.
  unfold format_inputs, set_week, set_bus_day, set_date_time, col_date_time,
    col_demand in *. simpl.
  rewrite (fst_combine_Forall2 _ (map fst (rows df)) col (rows df) Ecol).
  rewrite (snd_combine_Forall2 _ col (rows df) Ecol).
  repeat split; try done.
  intros [Hnone | Hnone] Heq; rewrite Hnone in Heq; discriminate Heq.
Qed.

Lemma init_mutates_demand_df_witness :
  let df' := mkFrame [(482136, 3); (482137, 2)] (Some [20089; 20089]) (Some [1; 1]) in
  let m := Model_of [(482136, 3); (482137, 2)] [manager] in
  Forall2 (fun c t => to_datetime parse_two c = Ok t)
          (col_date_time csv_frame) (col_date_time df') /\
  col_demand df' = col_demand csv_frame /\
  bus_day df' = Some (map date (col_date_time df')) /\
  week df' =
    Some (map (fun dt => days (dt - col_min (col_date_time df')) / 7 + 1)
              (col_date_time df')) /\
  demand_df m = df' /\
  (bus_day csv_frame = None \/ week csv_frame = None ->
   (bus_day df', week df') <> (bus_day csv_frame, week csv_frame)).
Proof.
  apply (init_mutates_demand_df parse_two csv_frame [manager]).
  vm_compute. reflexivity.
Defined.

(** ** Windows of the grid *)

Lemma NoDup_window m lo hi :
  NoDup (keys (demand_dict m)) -> NoDup (window m lo hi).
Proof. intros Hnd. by apply NoDup_filter. Qed.

(** Distinct whole hours between [lo] and [hi]: at most [hi - lo + 1]. *)
Lemma window_length m lo hi (n : Z) :
  NoDup (keys (demand_dict m)) -> 0 <= n -> hi - lo < n ->
  Z.of_nat (length (window m lo hi)) <= n.
Proof.
  intros Hnd Hn Hsmall.
  assert (length (window m lo hi) <= length (seqZ lo n))%nat as Hlen.
  { apply submseteq_length, NoDup_submseteq; [by apply NoDup_window |].
    intros dt Hdt. apply elem_of_window in Hdt as [Hr _].
    apply elem_of_seqZ. lia. }
  rewrite length_seqZ in Hlen. lia.
Qed.

Lemma get_subset_dts_total m lo hi (n : Z) :
  NoDup (keys (demand_dict m)) -> 0 < n -> hi - lo < n ->
  get_subset_dts m lo hi (Some n) = Ok (window m lo hi).
Proof.
  intros Hnd Hn Hsmall. unfold get_subset_dts. fold (window m lo hi).
  destruct (Z.eqb_spec n 0) as [-> | _]; [lia |].
  pose proof (window_length m lo hi n Hnd ltac:(lia) Hsmall) as Hlen.
  apply Z.leb_le in Hlen. by rewrite Hlen.
Qed.

Lemma get_subset_dts_None m lo hi :
  get_subset_dts m lo hi None = Ok (window m lo hi).
Proof. reflexivity. Qed.

Lemma fold_left_max_spec (l : list Z) (a : Z) :
  let mx := fold_left Z.max l a in
  (mx = a \/ mx ∈ l) /\ a <= mx /\ forall b, b ∈ l -> b <= mx.
Proof.
  revert a. induction l as [| b l IH]; intros a; simpl.
  - split; [by left |]. split; [lia |]. intros b Hb. by apply elem_of_nil in Hb.
  - destruct (IH (Z.max a b)) as (Hin & Hle & Hall).
    split; [| split].
    + destruct Hin as [Heq | Hin].
      * destruct (Z.max_spec a b) as [[_ Hm] | [_ Hm]].
        -- right. rewrite Heq, Hm. apply list_elem_of_here.
        -- left. by rewrite Heq, Hm.
      * right. by apply list_elem_of_further.
    + lia.
    + intros c Hc. apply elem_of_cons in Hc as [-> | Hc]; [lia | by apply Hall].
Qed.

Lemma py_max_Ok (l : list Z) (mx : Z) :
  py_max l = Ok mx -> mx ∈ l /\ forall b, b ∈ l -> b <= mx.
Proof.
  destruct l as [| a l]; simpl; [discriminate |]. intros [= <-].
  destruct (fold_left_max_spec l a) as (Hin & Hle & Hall). split.
  - destruct Hin as [-> | Hin]; [apply list_elem_of_here | by apply list_elem_of_further].
  - intros b Hb. apply elem_of_cons in Hb as [-> | Hb]; [done | by apply Hall].
Qed.

Lemma py_max_total (l : list Z) (a : Z) :
  a ∈ l -> exists mx, py_max l = Ok mx.
Proof.
  destruct l as [| b l]; [intros H; by apply elem_of_nil in H |].
  intros _. simpl. eauto.
Qed.

(** ** Hourly grids *)

Lemma elem_of_hourly_grid dts :
  hourly_grid dts ->
  exists t0, forall dt, dt ∈ dts <-> t0 <= dt < t0 + Z.of_nat (length dts).
Proof.
  intros [t0 Hg]. exists t0. intros dt. rewrite Hg at 1.
  rewrite list_elem_of_fmap. split.
  - intros (k & -> & Hk). apply elem_of_seq in Hk. lia.
  - intros Hr. exists (Z.to_nat (dt - t0)). split; [lia |].
    apply elem_of_seq. lia.
Qed.

Lemma NoDup_hourly_grid dts : hourly_grid dts -> NoDup dts.
Proof.
  intros [t0 Hg]. rewrite Hg. apply NoDup_fmap_2; [| apply NoDup_seq].
  intros a b Hab. lia.
Qed.

Lemma hourly_grid_convex dts a b c :
  hourly_grid dts -> a ∈ dts -> c ∈ dts -> a <= b <= c -> b ∈ dts.
Proof.
  intros Hg Ha Hc Hb. destruct (elem_of_hourly_grid dts Hg) as [t0 Ht0].
  apply Ht0. apply Ht0 in Ha, Hc. lia.
Qed.

Lemma keys_fold_odict_set (rs : list (Timestamp * Z)) (d : odict Z) :
  NoDup (keys d ++ map fst rs) ->
  keys (fold_left (fun d '(k, v) => odict_set d k v) rs d) = keys d ++ map fst rs.
Proof.
  revert d. induction rs as [| [k v] rs IH]; intros d Hnd; simpl.
  - by rewrite app_nil_r.
  - assert (k ∉ keys d) as Hk.
    { apply NoDup_app in Hnd as (_ & Hdisj & _). intros Hin.
      apply (Hdisj k Hin). simpl. apply list_elem_of_here. }
    assert (keys (odict_set d k v) = keys d ++ [k]) as Hkeys.
    { rewrite keys_odict_set. by rewrite bool_decide_eq_false_2. }
    rewrite IH; rewrite Hkeys, <- app_assoc; done.
Qed.

Lemma keys_to_dict_NoDup (rs : list (Timestamp * Z)) :
  NoDup (map fst rs) -> keys (to_dict rs) = map fst rs.
Proof. intros Hnd. unfold to_dict. by rewrite keys_fold_odict_set. Qed.

(** ** [add_constraints] finishes on an hourly grid *)

Lemma getitem_total `{Countable K} {V : Type} (d : gmap K V) (k : K) :
  is_Some (d !! k) -> exists h, getitem d k = Ok h.
Proof. intros [h Hh]. exists h. unfold getitem. by rewrite Hh. Qed.

Lemma map_r_getitem_total (d : gmap (nat * Timestamp) nat) (i : nat)
  (l : list Timestamp) :
  (forall dt, dt ∈ l -> is_Some (d !! (i, dt))) ->
  exists hs, map_r (fun dt => getitem d (i, dt)) l = Ok hs.
Proof. intros Hall. apply map_r_total. intros dt Hdt. by apply getitem_total, Hall. Qed.

Lemma keys_Model_of_grid rs staff :
  hourly_grid (map fst rs) ->
  keys (demand_dict (Model_of rs staff)) = map fst rs.
Proof.
  intros Hg. rewrite Model_of_demand_dict.
  by apply keys_to_dict_NoDup, NoDup_hourly_grid.
Qed.

Lemma NoDup_keys_Model_of rs staff : NoDup (keys (demand_dict (Model_of rs staff))).
Proof. rewrite Model_of_demand_dict. apply NoDup_keys_to_dict. Qed.

Lemma window_keys rs staff lo hi dt :
  dt ∈ window (Model_of rs staff) lo hi -> dt ∈ map fst rs.
Proof.
  intros Hdt. apply elem_of_window in Hdt as [_ Hk].
  by rewrite Model_of_demand_dict, elem_of_keys_to_dict in Hk.
Qed.

Ltac ok_step lem :=
  let r := fresh "r" in
  let E := fresh "E" in
  destruct lem as [r E];
  match goal with
  | |- context [rbind ?t _] =>
      replace t with (Ok r) by exact (eq_sym E)
  end;
  clear E; cbn [rbind].

(** The comprehension over a window at the head of the goal. *)
Ltac ok_window W :=
  match goal with
  | |- context [rbind (map_r ?f (window ?m ?lo ?hi)) _] =>
      let r := fresh "hs" in
      let E := fresh "E" in
      destruct (map_r_total f (window m lo hi)) as [r E];
      [ intros ? ?; apply getitem_total; eapply W; eassumption
      | rewrite E; clear E; cbn [rbind] ]
  end.

Lemma add_overtime_constraints_total v i j dt rest o overtime_dt s :
  is_Some (x v !! (i, overtime_dt + -1)) ->
  is_Some (x_start v !! (i, dt)) ->
  is_Some (x v !! (i, overtime_dt)) ->
  is_Some (x_ot v !! (i, overtime_dt)) ->
  (forall r, r ∈ rest -> is_Some (x_start v !! (i, r))) ->
  exists s', add_overtime_constraints v i j dt rest o overtime_dt s = Ok s'.
Proof.
  intros Hprev Hstart Hx Hot Hrest. unfold add_overtime_constraints.
  ok_step (getitem_total _ _ Hprev). ok_step (getitem_total _ _ Hstart).
  ok_step (getitem_total _ _ Hx). ok_step (getitem_total _ _ Hot).
  destruct (Nat.leb_spec (o + 1) (length rest)) as [Hlen | _]; [| eauto].
  destruct (iloc_total rest o) as (u & Eu & Hu); [lia |].
  rewrite Eu. cbn [rbind].
  ok_step (getitem_total (x_start v) (i, u)
             (Hrest u (list_elem_of_lookup_2 _ _ _ Hu))).
  eauto.
Qed.

Lemma add_slot_constraints_total rs staff v i j dt s ls :
  hourly_grid (map fst rs) -> complete rs staff v ->
  (i < length staff)%nat -> map fst rs !! j = Some dt ->
  exists s' ls',
    add_slot_constraints (Model_of rs staff) v i j dt (s, ls) = Ok (s', ls').
Proof.
  intros Hg Hcomp Hi Hj. set (m := Model_of rs staff).
  pose proof (NoDup_keys_Model_of rs staff) as Hnd. fold m in Hnd.
  assert (dt ∈ map fst rs) as Hdt by by apply list_elem_of_lookup_2 with j.
  destruct (Hcomp i Hi) as [Hslots Hdays].
  assert (forall lo hi u, u ∈ window m lo hi -> is_Some (x_start v !! (i, u)))
    as Wstart.
  { intros lo hi u Hu. apply window_keys in Hu. by destruct (Hslots u Hu). }
  assert (forall lo hi u, u ∈ window m lo hi -> is_Some (x v !! (i, u))) as Wx.
  { intros lo hi u Hu. apply window_keys in Hu.
    by destruct (Hslots u Hu) as (_ & ? & _). }
  destruct (Hslots dt Hdt) as (Sstart & Sx & Sot & Sy).
  unfold add_slot_constraints.
  assert (iloc_bus_day m j = Ok (date dt)) as ->
    by by apply iloc_bus_day_Model_of.
  cbn [rbind].
  rewrite get_subset_dts_total by (try done; unfold MAX_SHIFT_HOURS; lia).
  cbn [rbind].
  ok_step (getitem_total _ _ Sx).
  ok_window Wstart.
  rewrite get_subset_dts_total
    by (try done; unfold MIN_SHIFT_HOURS, MIN_REST_HOURS; lia).
  cbn [rbind].
  ok_window Wstart.
  ok_step (getitem_total _ _ Sstart).
  rewrite get_subset_dts_total by (try done; unfold MIN_SHIFT_HOURS; lia).
  cbn [rbind].
  ok_window Wx.
  destruct (py_max_total (window m dt (dt + (MIN_SHIFT_HOURS - 1))) dt)
    as [last_shift_dt Emax].
  { apply elem_of_window. split; [unfold MIN_SHIFT_HOURS; lia |].
    unfold m. by rewrite keys_Model_of_grid. }
  rewrite Emax. cbn [rbind]. apply py_max_Ok in Emax as [Hmax_in Hmax_ge].
  rewrite get_subset_dts_total
    by (try done; unfold MAX_SHIFT_HOURS, MIN_SHIFT_HOURS; lia).
  cbn [rbind].
  set (rest_dts := window m (dt + 1) (dt + (MIN_SHIFT_HOURS + MIN_REST_HOURS - 1))).
  assert (exists add_rest,
            (if (length rest_dts =? 0)%nat then Ok []
             else
               let* last_rest_dt := py_max rest_dts in
               get_subset_dts m (last_rest_dt + 1) (last_rest_dt + MIN_REST_HOURS)
                              (Some MIN_REST_HOURS)) = Ok add_rest /\
            forall u, u ∈ add_rest -> is_Some (x_start v !! (i, u)))
    as (add_rest & -> & Hadd).
  { destruct rest_dts as [| u0 rest'] eqn:Hrest; cbn [length Nat.eqb py_max rbind].
    - exists []. split; [done |]. intros u Hu. by apply elem_of_nil in Hu.
    - eexists. rewrite get_subset_dts_total
        by (try done; unfold MIN_REST_HOURS; lia).
      split; [done |]. apply Wstart. }
  cbn [rbind].
  match goal with
  | |- context [for_each ?l ?b ?st] =>
      destruct (for_each_total (fun _ _ => True) b l [] st) as (s4 & -> & _)
  end.
  { done. }
  { intros d [o odt] s0 _ Ho. apply elem_of_enumerate in Ho.
    apply list_elem_of_lookup_2 in Ho.
    destruct (add_overtime_constraints_total v i j dt add_rest o odt s0)
      as [s' Hs']; try done.
    - replace (odt + -1) with (odt - 1) by lia.
      destruct (Hslots (odt - 1)) as (_ & ? & _); [| done].
      apply (hourly_grid_convex _ last_shift_dt (odt - 1) odt Hg).
      + by apply window_keys in Hmax_in.
      + by apply window_keys in Ho.
      + apply elem_of_window in Ho as [Hr _]. lia.
    - by eapply Wx.
    - apply window_keys in Ho. by destruct (Hslots odt Ho) as (_ & _ & ? & _).
    - eauto. }
  cbn [rbind]. rewrite get_subset_dts_None. cbn [rbind].
  ok_window Wstart.
  assert (is_Some (x_day v !! (i, to_datetime_date (date dt)))) as Sday.
  { apply (Hdays (date dt)). by apply (list_elem_of_fmap_2 date). }
  destruct (bool_decide _).
  - unfold m at 1. rewrite Model_of_bus_day. cbn [rbind].
    destruct (_ >? _).
    + ok_window Wx. ok_step (getitem_total _ _ Sday).
      destruct (is_last_staff m i) eqn:Hlast; [| eauto].
      destruct (map_r_total (fun s0 => getitem (x v) (s0, dt)) (seq 0 (M m)))
        as [hs_all ->].
      { intros i' Hi'. apply elem_of_seq in Hi' as [_ Hi']. simpl in Hi'.
        apply getitem_total.
        by destruct (Hcomp i' Hi') as [Hs' _], (Hs' dt Hdt) as (_ & ? & _). }
      cbn [rbind]. destruct (Sy Hlast) as [Sy1 Sy2].
      ok_step (getitem_total _ _ Sy1). ok_step (getitem_total _ _ Sy2).
      ok_step (odict_get_total (demand_dict m) dt
                 ltac:(unfold m; by rewrite keys_Model_of_grid)).
      eauto.
    + cbn [rbind].
      destruct (is_last_staff m i) eqn:Hlast; [| eauto].
      destruct (map_r_total (fun s0 => getitem (x v) (s0, dt)) (seq 0 (M m)))
        as [hs_all ->].
      { intros i' Hi'. apply elem_of_seq in Hi' as [_ Hi']. simpl in Hi'.
        apply getitem_total.
        by destruct (Hcomp i' Hi') as [Hs' _], (Hs' dt Hdt) as (_ & ? & _). }
      cbn [rbind]. destruct (Sy Hlast) as [Sy1 Sy2].
      ok_step (getitem_total _ _ Sy1). ok_step (getitem_total _ _ Sy2).
      ok_step (odict_get_total (demand_dict m) dt
                 ltac:(unfold m; by rewrite keys_Model_of_grid)).
      eauto.
  - cbn [rbind].
    destruct (is_last_staff m i) eqn:Hlast; [| eauto].
    destruct (map_r_total (fun s0 => getitem (x v) (s0, dt)) (seq 0 (M m)))
      as [hs_all ->].
    { intros i' Hi'. apply elem_of_seq in Hi' as [_ Hi']. simpl in Hi'.
      apply getitem_total.
      by destruct (Hcomp i' Hi') as [Hs' _], (Hs' dt Hdt) as (_ & ? & _). }
    cbn [rbind]. destruct (Sy Hlast) as [Sy1 Sy2].
    ok_step (getitem_total _ _ Sy1). ok_step (getitem_total _ _ Sy2).
    ok_step (odict_get_total (demand_dict m) dt
               ltac:(unfold m; by rewrite keys_Model_of_grid)).
    eauto.
Qed.

Lemma elem_of_week_days_of weeks days w d :
  d ∈ week_days_of weeks days w -> d ∈ days.
Proof.
  unfold week_days_of. rewrite elem_of_unique. intros Hd.
  apply list_elem_of_fmap in Hd as ([w' d'] & -> & Hin).
  apply list_elem_of_filter in Hin as [_ Hin]. simpl.
  apply list_elem_of_In in Hin. apply in_combine_r in Hin.
  by apply list_elem_of_In.
Qed.

Lemma add_week_constraint_total rs staff v i w s :
  complete rs staff v -> (i < length staff)%nat ->
  exists s', add_week_constraint (Model_of rs staff) v i w s = Ok s'.
Proof.
  intros Hcomp Hi. unfold add_week_constraint.
  destruct (Model_of_week rs staff) as (weeks & -> & _). cbn [rbind].
  rewrite Model_of_bus_day. cbn [rbind].
  destruct (_ >? _); [| eauto].
  match goal with
  | |- context [rbind (map_r ?f ?l) _] => destruct (map_r_total f l) as [hs ->]
  end; [| cbn [rbind]; eauto].
  intros d Hd. apply getitem_total. apply elem_of_week_days_of in Hd.
  destruct (Hcomp i Hi) as [_ Hdays]. by apply Hdays.
Qed.

Lemma add_staff_constraints_total rs staff v i s :
  hourly_grid (map fst rs) -> complete rs staff v -> (i < length staff)%nat ->
  exists s', add_staff_constraints (Model_of rs staff) v i s = Ok s'.
Proof.
  intros Hg Hcomp Hi. unfold add_staff_constraints.
  rewrite keys_Model_of_grid by done.
  match goal with
  | |- context [for_each ?l ?b ?st] =>
      destruct (for_each_total (fun _ _ => True) b l [] st) as ([s1 ls1] & -> & _)
  end.
  { done. }
  { intros d [j dt] [s0 ls0] _ Hj. apply elem_of_enumerate in Hj.
    destruct (add_slot_constraints_total rs staff v i j dt s0 ls0 Hg Hcomp Hi Hj)
      as (s' & ls' & ->).
    by exists (s', ls'). }
  cbn [rbind].
  destruct (Model_of_week rs staff) as (weeks & -> & _). cbn [rbind].
  match goal with
  | |- context [for_each ?l ?b ?st] =>
      destruct (for_each_total (fun _ _ => True) b l [] st) as (s2 & -> & _)
  end; [done | | eauto].
  intros d w s0 _ _.
  destruct (add_week_constraint_total rs staff v i w s0 Hcomp Hi) as [s' ->].
  by exists s'.
Qed.

Lemma add_constraints_total rs staff v s :
  hourly_grid (map fst rs) -> complete rs staff v ->
  exists s', add_constraints (Model_of rs staff) v s = Ok s'.
Proof.
  intros Hg Hcomp. unfold add_constraints. rewrite Model_of_M.
  match goal with
  | |- context [for_each ?l ?b ?st] =>
      destruct (for_each_total (fun _ _ => True) b l [] st) as (s2 & -> & _)
  end; [done | | eauto].
  intros d i s0 _ Hi. apply elem_of_seq in Hi as [_ Hi]. simpl in Hi.
  destruct (add_staff_constraints_total rs staff v i s0 Hg Hcomp Hi) as [s' ->].
  by exists s'.
Qed.

Lemma is_last_staff_last rs staff :
  staff <> [] ->
  is_last_staff (Model_of rs staff) (length staff - 1) = true /\
  (length staff - 1 < length staff)%nat.
Proof.
  intros Hne. destruct staff as [| st staff]; [done |].
  unfold is_last_staff. rewrite Model_of_M. simpl length. split; [| lia].
  apply Z.eqb_eq. lia.
Qed.

Lemma objective_expr_total rs staff v :
  complete rs staff v -> staff <> [] ->
  exists obj, objective_expr (Model_of rs staff) v = Ok obj.
Proof.
  intros Hcomp Hne. unfold objective_expr.
  match goal with
  | |- context [rbind (map_r ?f ?l) _] => destruct (map_r_total f l) as [ts ->]
  end; [| cbn [rbind]; eauto].
  intros dt Hdt. apply list_elem_of_fmap in Hdt as ([dt' d] & -> & Hin).
  apply list_elem_of_filter in Hin as [_ Hin]. simpl.
  assert (dt' ∈ keys (demand_dict (Model_of rs staff))) as Hk.
  { by apply (list_elem_of_fmap_2 fst) in Hin. }
  assert (dt' ∈ map fst rs) as Hdt'.
  { by rewrite Model_of_demand_dict, elem_of_keys_to_dict in Hk. }
  destruct (is_last_staff_last rs staff Hne) as [Hlast Hlt].
  destruct (Hcomp _ Hlt) as [Hslots _].
  destruct (Hslots dt' Hdt') as (_ & _ & _ & Hy). destruct (Hy Hlast) as [Hy1 Hy2].
  unfold objective_term.
  ok_step (getitem_total _ _ Hy1). ok_step (getitem_total _ _ Hy2).
  match goal with
  | |- context [rbind (map_r ?f ?l) _] => destruct (map_r_total f l) as [hs ->]
  end.
  { intros i Hi. apply elem_of_seq in Hi as [_ Hi]. simpl in Hi.
    rewrite ?Model_of_M in Hi. apply getitem_total.
    by destruct (Hcomp i Hi) as [Hs' _], (Hs' dt' Hdt') as (_ & _ & ? & _). }
  cbn [rbind].
  ok_step (odict_get_total (demand_dict (Model_of rs staff)) dt' Hk).
  eauto.
Qed.

(** On an hourly grid with at least one staff member the model is built. *)
Lemma build_model_total rs staff :
  hourly_grid (map fst rs) -> staff <> [] ->
  exists s v, build_model (Model_of rs staff) = Ok (s, v).
Proof.
  intros Hg Hne. unfold build_model.
  destruct (add_variables_total rs staff) as (s1 & v & -> & Hok & Hcomp & _).
  cbn [rbind].
  destruct (add_constraints_total rs staff v s1 Hg Hcomp) as [s2 ->]. cbn [rbind].
  destruct (objective_expr_total rs staff v Hcomp Hne) as [obj ->]. cbn [rbind].
  eauto.
Qed.

(** ** What [solve] decodes *)

Lemma map_r_ext {A B : Type} (f : A -> result B) (g : A -> B) (l : list A) :
  (forall a, a ∈ l -> f a = Ok (g a)) -> map_r f l = Ok (map g l).
Proof.
  induction l as [| a l IH]; intros Hall; simpl; [done |].
  rewrite (Hall a) by apply list_elem_of_here. simpl.
  rewrite IH; [done |]. intros b Hb. apply Hall. by apply list_elem_of_further.
Qed.

Lemma filter_flagged {A : Type} (f : A -> bool) (l : list A) :
  map fst (filter (fun p : A * bool => snd p = true) (map (fun u => (u, f u)) l))
  = filter (fun u => f u = true) l.
Proof.
  induction l as [| a l IH]; simpl; [done |].
  rewrite !filter_cons. simpl. destruct (decide (f a = true)); simpl; by rewrite IH.
Qed.

Lemma var_value_getitem o d i dt h :
  d !! (i, dt) = Some h -> var_value o d i dt = solution_value o h.
Proof. intros Hh. unfold var_value. by rewrite Hh. Qed.

Lemma shift_end_eq m v o i dt :
  (forall u, u ∈ keys (demand_dict m) -> is_Some (x v !! (i, u))) ->
  worked_slots v o i (window m dt (dt + (MAX_SHIFT_HOURS - 1))) <> [] ->
  shift_end v o i (window m dt (dt + (MAX_SHIFT_HOURS - 1)))
  = Ok (decoded_end m v o i dt).
Proof.
  intros Hx Hne. unfold shift_end.
  rewrite (map_r_ext _ (fun u => (u, Qeq_bool (var_value o (x v) i u) 1))).
  - cbn [rbind]. rewrite filter_flagged.
    unfold decoded_end, worked_slots in *.
    destruct (filter _ _) as [| a l]; [done |]. reflexivity.
  - intros u Hu. apply elem_of_window in Hu as [_ Hu].
    destruct (Hx u Hu) as [h Hh]. unfold getitem. rewrite Hh. cbn [rbind].
    by rewrite (var_value_getitem o _ i u h Hh).
Qed.

Lemma decode_slot_eq {FA : FloatArith} m v o i st dt (D : Decode) :
  NoDup (keys (demand_dict m)) ->
  (forall u, u ∈ keys (demand_dict m) -> is_Some (x v !! (i, u))) ->
  is_Some (x_start v !! (i, dt)) -> is_Some (x_ot v !! (i, dt)) ->
  dt ∈ keys (demand_dict m) ->
  (truthy (var_value o (x_start v) i dt) = true ->
   worked_slots v o i (window m dt (dt + (MAX_SHIFT_HOURS - 1))) <> []) ->
  decode_slot m v o i st dt D
  = Ok (mkDecode (d_rows D ++ decoded_rows m v o i st dt)
                 (cov_add (d_demand_coverage D) dt (coverage_term m v o i dt))
                 (fadd (d_total_cost D) (slot_cost v o i st dt))).
Proof.
  intros Hnd Hx [hs Hs] [hot Hot] Hdt Hwork.
  destruct (Hx dt Hdt) as [hx Hhx].
  unfold decode_slot, decoded_rows, coverage_term, slot_cost.
  unfold getitem at 1. rewrite Hhx. cbn [rbind].
  unfold getitem at 1. rewrite Hot. cbn [rbind].
  unfold getitem at 1. rewrite Hs. cbn [rbind].
  rewrite (var_value_getitem o _ i dt hs Hs), (var_value_getitem o _ i dt hx Hhx),
    (var_value_getitem o _ i dt hot Hot) in *.
  apply odict_lookup_is_Some in Hdt as [d Hd]. unfold odict_get. rewrite Hd.
  destruct (truthy (solution_value o hs)) eqn:Htruthy.
  - rewrite get_subset_dts_total by (try done; unfold MAX_SHIFT_HOURS; lia).
    cbn [rbind]. rewrite shift_end_eq by auto. cbn [rbind].
    destruct (d =? 0); cbn [rbind]; [done |].
    unfold getitem. rewrite Hhx. cbn [rbind]. done.
  - cbn [rbind]. rewrite app_nil_r.
    destruct (d =? 0); cbn [rbind]; [done |].
    unfold getitem. rewrite Hhx. cbn [rbind]. done.
Qed.

Lemma decode_staff_total {FA : FloatArith} m v o i (D : Decode) :
  decode_ready m v -> (i < M m)%nat -> decodable m v o i ->
  exists st D',
    staff_df m !! i = Some st /\
    decode_staff m v o i D = Ok D' /\
    d_rows D' = d_rows D ++ staff_rows m v o i st /\
    d_demand_coverage D' = staff_coverage m v o i (d_demand_coverage D).
Proof.
  intros (Hnd & HM & Hkeys) Hi Hdec. unfold decode_staff.
  destruct (iloc_total (staff_df m) i) as (st & -> & Hst); [lia |].
  cbn [rbind]. exists st.
  destruct (for_each_total
    (fun (done : list Timestamp) (D' : Decode) =>
       d_rows D' = d_rows D ++ flat_map (decoded_rows m v o i st) done /\
       d_demand_coverage D' =
         fold_left (fun c dt => cov_add c dt (coverage_term m v o i dt)) done
                   (d_demand_coverage D))
    (decode_slot m v o i st) (keys (demand_dict m)) [] D)
    as (D' & HD' & Hrows & Hcov).
  { simpl. by rewrite app_nil_r. }
  { intros d dt D0 [Hr0 Hc0] Hdt.
    rewrite decode_slot_eq; try done.
    - eexists. split; [reflexivity |]. simpl.
      rewrite Hr0, Hc0, flat_map_app, fold_left_app. simpl.
      by rewrite app_nil_r, app_assoc.
    - intros u Hu. by destruct (Hkeys i u Hi Hu) as (_ & ? & _).
    - by destruct (Hkeys i dt Hi Hdt) as (? & _ & _).
    - by destruct (Hkeys i dt Hi Hdt) as (_ & _ & ?).
    - by apply Hdec. }
  exists D'. by repeat split.
Qed.

Lemma sum_solution_values_total {FA : FloatArith} (m : Model) (d : gmap (nat * Timestamp) nat)
  (o : Outcome) :
  (forall i u, (i < M m)%nat -> u ∈ keys (demand_dict m) -> is_Some (d !! (i, u))) ->
  exists q, sum_solution_values m d o = Ok q.
Proof.
  intros Hall. unfold sum_solution_values.
  match goal with
  | |- context [rbind (map_r ?f ?l) _] => destruct (map_r_total f l) as [hs ->]
  end; [| cbn [rbind]; eauto].
  intros [i u] Hin. apply getitem_total.
  apply list_elem_of_bind in Hin as (i' & Hin & Hi').
  apply list_elem_of_bind in Hin as (u' & Hin & Hu').
  apply list_elem_of_singleton in Hin. injection Hin as -> ->.
  apply elem_of_seq in Hi'. apply Hall; [lia | done].
Qed.

Lemma solve_total {FA : FloatArith} m v o :
  decode_ready m v -> has_solution (status o) = true ->
  (forall i, (i < M m)%nat -> decodable m v o i) ->
  exists metrics,
    solve m v o = Ok metrics /\
    shifts metrics = all_rows m v o /\
    WDC metrics = wdc_of (all_coverage m v o).
Proof.
  intros Hready Hsol Hdec. unfold solve. rewrite Hsol.
  destruct (for_each_total
    (fun (done : list nat) (D' : Decode) =>
       d_rows D' =
         flat_map (fun i =>
                     match staff_df m !! i with
                     | Some st => staff_rows m v o i st
                     | None => []
                     end) done /\
       d_demand_coverage D' = fold_left (fun c i => staff_coverage m v o i c) done [])
    (decode_staff m v o) (seq 0 (M m)) [] (mkDecode [] [] 0%Q))
    as (D' & -> & Hrows & Hcov).
  { done. }
  { intros d i D0 [Hr0 Hc0] Hi. apply elem_of_seq in Hi as [_ Hi]. simpl in Hi.
    destruct (decode_staff_total m v o i D0 Hready Hi (Hdec i Hi))
      as (st & D1 & Hst & -> & Hr1 & Hc1).
    exists D1. split; [done |].
    rewrite Hr1, Hc1, Hr0, Hc0, flat_map_app, fold_left_app. simpl.
    by rewrite Hst, app_nil_r. }
  cbn [rbind]. simpl in Hrows, Hcov.
  destruct Hready as (Hnd & HM & Hkeys).
  destruct (sum_solution_values_total m (x v) o) as [total_sh ->].
  { intros i u Hi Hu. by destruct (Hkeys i u Hi Hu) as (_ & ? & _). }
  cbn [rbind].
  destruct (Qeq_bool total_sh 0).
  - cbn [rbind]. eexists. split; [reflexivity |]. simpl.
    unfold all_rows, all_coverage, wdc_of. by rewrite Hrows, Hcov.
  - destruct (sum_solution_values_total m (x_ot v) o) as [total_ot ->].
    { intros i u Hi Hu. by destruct (Hkeys i u Hi Hu) as (_ & _ & ?). }
    cbn [rbind]. eexists. split; [reflexivity |]. simpl.
    unfold all_rows, all_coverage, wdc_of. by rewrite Hrows, Hcov.
Qed.

Lemma decode_ready_Model_of rs staff v :
  complete rs staff v -> decode_ready (Model_of rs staff) v.
Proof.
  intros Hcomp. split; [apply NoDup_keys_Model_of |]. split; [done |].
  intros i u Hi Hu. rewrite Model_of_M in Hi.
  rewrite Model_of_demand_dict, elem_of_keys_to_dict in Hu.
  destruct (Hcomp i Hi) as [Hslots _].
  destruct (Hslots u Hu) as (? & ? & ? & _). done.
Qed.

(** ** An infeasible run *)

Lemma sum_solution_values_no_solution {FA : FloatArith} m d o q :
  has_solution (status o) = false ->
  sum_solution_values m d o = Ok q -> q = 0%Q.
Proof.
  intros Hsol H. unfold sum_solution_values in H.
  bind_in H as hs Ehs. injection H as <-.
  apply fsum_zeros. apply Forall_forall. intros q Hq.
  apply list_elem_of_In, in_map_iff in Hq as (h & <- & _).
  unfold solution_value. by rewrite Hsol.
Qed.

(** Without a solution nothing is decoded. *)
Lemma solve_without_solution {FA : FloatArith} m v o :
  (forall i u, (i < M m)%nat -> u ∈ keys (demand_dict m) -> is_Some (x v !! (i, u))) ->
  has_solution (status o) = false ->
  solve m v o = Ok (mkMetrics 0 0 (py_round 0 2) "feasible" []).
Proof.
  intros Hkeys Hsol. unfold solve. rewrite Hsol. cbn [rbind].
  destruct (sum_solution_values_total m (x v) o Hkeys) as [q Hq].
  rewrite Hq. cbn [rbind].
  rewrite (sum_solution_values_no_solution _ _ _ _ Hsol Hq). cbn [rbind].
  simpl. by destruct (status o).
Qed.

(** C1 fails on its last clause.  When the engine returns a status other
    than OPTIMAL and FEASIBLE (INFEASIBLE, or one of the error statuses)
    the run ends without an exception, with no shifts and with WDC, WOR
    and total cost 0, but the [solver_status] entry of the metrics reads
    "feasible": the returned status is not what is recorded. *)
Theorem infeasible_status_reported_as_feasible {FA : FloatArith} (val : nat -> Q) :
  Forall
    (fun st =>
       exists metrics,
         schedule_shifts (Model_of (hourly_rows 0 3 3) [manager])
                         (Some (fun _ => mkOutcome st val)) = Ok metrics /\
         shifts metrics = [] /\
         (WDC metrics == 0)%Q /\ (WOR metrics == 0)%Q /\
         (total_cost metrics == 0)%Q /\
         solver_status metrics = "feasible"%string)
    [INFEASIBLE; UNBOUNDED; ABNORMAL; MODEL_INVALID; NOT_SOLVED].
Proof.
  destruct (build_model_total (hourly_rows 0 3 3) [manager]) as (s & v & Hb);
    [exact (ex_intro _ 0 eq_refl) | discriminate |].
  destruct (build_model_inv _ _ _ _ Hb) as (_ & _ & _ & _ & _ & _ & _ & Hcomp & _).
  destruct (decode_ready_Model_of _ _ v Hcomp) as (_ & _ & Hkeys).
  assert (forall st, has_solution st = false ->
            schedule_shifts (Model_of (hourly_rows 0 3 3) [manager])
                            (Some (fun _ => mkOutcome st val))
            = Ok (mkMetrics 0 0 (py_round 0 2) "feasible" [])) as Hrun.
  { intros st Hst. unfold schedule_shifts. rewrite Hb. cbn [rbind].
    apply solve_without_solution; [| done].
    intros i u Hi Hu. by destruct (Hkeys i u Hi Hu) as (_ & ? & _). }
  repeat constructor;
    (eexists; split; [by apply Hrun |]; simpl; rewrite py_round_0;
     repeat split; reflexivity).
Qed.

(** ** Sums of rationals *)

Lemma sum_over_app {A : Type} (f : A -> Q) (l k : list A) :
  (sum_over f (l ++ k) == sum_over f l + sum_over f k)%Q.
Proof. induction l as [| a l IH]; simpl; [lra | rewrite IH; lra]. Qed.

Lemma sum_over_ext {A : Type} (f g : A -> Q) (l : list A) :
  (forall a, a ∈ l -> (f a == g a)%Q) -> (sum_over f l == sum_over g l)%Q.
Proof.
  induction l as [| a l IH]; intros Hall; simpl; [lra |].
  rewrite (Hall a) by apply list_elem_of_here.
  rewrite IH; [lra |]. intros b Hb. apply Hall. by apply list_elem_of_further.
Qed.

Lemma sum_over_map {A B : Type} (f : B -> Q) (g : A -> B) (l : list A) :
  sum_over f (map g l) = sum_over (fun a => f (g a)) l.
Proof. induction l as [| a l IH]; simpl; [done | by rewrite IH]. Qed.

Lemma sum_over_zero {A : Type} (l : list A) : (sum_over (fun _ => 0) l == 0)%Q.
Proof. induction l as [| a l IH]; simpl; [lra | rewrite IH; lra]. Qed.

(** ** The coverage dictionary *)

Lemma keys_cov_add {FA : FloatArith} (c : odict Q) (k : Timestamp) (q : Q) :
  keys (cov_add c k q) = if bool_decide (k ∈ keys c) then keys c else keys c ++ [k].
Proof. unfold cov_add. destruct (odict_lookup c k); apply keys_odict_set. Qed.

Lemma keys_fold_cov_add_fresh {FA : FloatArith} (f : Timestamp -> Q)
  (l : list Timestamp) (c : odict Q) :
  NoDup (keys c ++ l) ->
  keys (fold_left (fun c dt => cov_add c dt (f dt)) l c) = keys c ++ l.
Proof.
  revert c. induction l as [| dt l IH]; intros c Hnd; simpl.
  - by rewrite app_nil_r.
  - assert (dt ∉ keys c) as Hk.
    { apply NoDup_app in Hnd as (_ & Hdisj & _). intros Hin.
      apply (Hdisj dt Hin). apply list_elem_of_here. }
    assert (keys (cov_add c dt (f dt)) = keys c ++ [dt]) as Hkeys.
    { rewrite keys_cov_add. by rewrite bool_decide_eq_false_2. }
    rewrite IH; rewrite Hkeys, <- app_assoc; done.
Qed.

Lemma keys_fold_cov_add_present {FA : FloatArith} (f : Timestamp -> Q)
  (l : list Timestamp) (c : odict Q) :
  (forall dt, dt ∈ l -> dt ∈ keys c) ->
  keys (fold_left (fun c dt => cov_add c dt (f dt)) l c) = keys c.
Proof.
  revert c. induction l as [| dt l IH]; intros c Hin; simpl; [done |].
  assert (keys (cov_add c dt (f dt)) = keys c) as Hkeys.
  { rewrite keys_cov_add. rewrite bool_decide_eq_true_2; [done |].
    apply Hin, list_elem_of_here. }
  rewrite IH; [done |]. intros u Hu. rewrite Hkeys. apply Hin.
  by apply list_elem_of_further.
Qed.

Lemma keys_all_coverage {FA : FloatArith} m v o :
  NoDup (keys (demand_dict m)) -> (0 < M m)%nat ->
  keys (all_coverage m v o) = keys (demand_dict m).
Proof.
  intros Hnd HM. unfold all_coverage.
  destruct (M m) as [| n]; [lia |]. cbn [seq fold_left].
  assert (keys (staff_coverage m v o 0 []) = keys (demand_dict m)) as H0.
  { unfold staff_coverage. by rewrite keys_fold_cov_add_fresh. }
  revert H0. generalize (staff_coverage m v o 0 []). generalize (seq 1 n).
  induction l as [| i l IH]; intros c Hc; simpl; [done |].
  apply IH. unfold staff_coverage. rewrite keys_fold_cov_add_present; [done |].
  intros dt Hdt. by rewrite Hc.
Qed.

Lemma odict_lookup_NoDup {V : Type} (d : odict V) (k : Timestamp) (v : V) :
  NoDup (keys d) -> (k, v) ∈ d -> odict_lookup d k = Some v.
Proof.
  induction d as [| [k' v'] d IH]; intros Hnd Hin; [by apply elem_of_nil in Hin |].
  simpl in *. apply NoDup_cons in Hnd as [Hk' Hnd].
  apply elem_of_cons in Hin as [[= -> ->] | Hin].
  - by rewrite Z.eqb_refl.
  - destruct (Z.eqb_spec k' k) as [-> | Hne]; [| by apply IH].
    exfalso. apply Hk'. by apply (list_elem_of_fmap_2 fst) in Hin.
Qed.

Lemma odict_lookup_None {V : Type} (d : odict V) (k : Timestamp) :
  k ∉ keys d -> odict_lookup d k = None.
Proof.
  intros Hk. destruct (odict_lookup d k) as [v |] eqn:Hl; [| done].
  exfalso. apply Hk. apply odict_lookup_is_Some. eauto.
Qed.

Lemma odict_set_new {V : Type} (d : odict V) (k : Timestamp) (v : V) :
  k ∉ keys d -> odict_set d k v = d ++ [(k, v)].
Proof.
  induction d as [| [k0 v0] d IH]; intros Hk; simpl; [done |].
  simpl in Hk. apply not_elem_of_cons in Hk as [Hne Hk].
  destruct (Z.eqb_spec k0 k) as [-> | _]; [done |]. by rewrite IH.
Qed.

(** The first staff member enters every slot into the dictionary. *)
Lemma fold_cov_add_fresh {FA : FloatArith} (t : Timestamp -> Q)
  (ks : list Timestamp) (c : odict Q) :
  NoDup (keys c ++ ks) ->
  fold_left (fun c dt => cov_add c dt (t dt)) ks c
  = c ++ map (fun dt => (dt, fadd 0 (t dt))) ks.
Proof.
  revert c. induction ks as [| k ks IH]; intros c Hnd; simpl.
  - by rewrite app_nil_r.
  - assert (k ∉ keys c) as Hk.
    { apply NoDup_app in Hnd as (_ & Hdisj & _). intros Hin.
      apply (Hdisj k Hin). apply list_elem_of_here. }
    unfold cov_add at 2. rewrite (odict_lookup_None c k Hk).
    rewrite (odict_set_new c k _ Hk). rewrite IH.
    + by rewrite <- app_assoc.
    + unfold keys. rewrite map_app. simpl. by rewrite <- app_assoc.
Qed.

Lemma odict_lookup_map (f : Timestamp -> Q) (ks : list Timestamp) (a : Timestamp) :
  a ∈ ks -> odict_lookup (map (fun dt => (dt, f dt)) ks) a = Some (f a).
Proof.
  induction ks as [| k ks IH]; intros Ha; [by apply elem_of_nil in Ha |].
  simpl. destruct (Z.eqb_spec k a) as [-> | Hne]; [done |].
  apply IH. apply elem_of_cons in Ha as [-> | Ha]; done.
Qed.

Lemma odict_set_map (f : Timestamp -> Q) (ks : list Timestamp) (a : Timestamp)
  (q : Q) :
  NoDup ks -> a ∈ ks ->
  odict_set (map (fun dt => (dt, f dt)) ks) a q
  = map (fun dt => (dt, if dt =? a then q else f dt)) ks.
Proof.
  induction ks as [| k ks IH]; intros Hnd Ha; [by apply elem_of_nil in Ha |].
  apply NoDup_cons in Hnd as [Hk Hnd]. simpl.
  destruct (Z.eqb_spec k a) as [-> | Hne].
  - f_equal. apply map_ext_in. intros dt Hdt. apply list_elem_of_In in Hdt.
    destruct (Z.eqb_spec dt a) as [-> | _]; done.
  - f_equal. apply IH; [done |]. apply elem_of_cons in Ha as [-> | Ha]; done.
Qed.

(** A later staff member adds to the entry of every slot, in place. *)
Lemma fold_cov_add_present {FA : FloatArith} (t : Timestamp -> Q)
  (ks l : list Timestamp) :
  NoDup ks -> NoDup l -> (forall dt, dt ∈ l -> dt ∈ ks) ->
  forall f : Timestamp -> Q,
    fold_left (fun c dt => cov_add c dt (t dt)) l (map (fun dt => (dt, f dt)) ks)
    = map (fun dt => (dt, if bool_decide (dt ∈ l) then fadd (f dt) (t dt) else f dt))
          ks.
Proof.
  intros Hks. induction l as [| a l IH]; intros Hl Hsub f; simpl.
  - done.
  - apply NoDup_cons in Hl as [Ha Hl].
    assert (a ∈ ks) as Hin by apply Hsub, list_elem_of_here.
    unfold cov_add at 2. rewrite (odict_lookup_map f ks a Hin).
    rewrite (odict_set_map f ks a _ Hks Hin).
    rewrite IH; [| done | intros dt Hdt; by apply Hsub, list_elem_of_further].
    apply map_ext. intros dt.
    destruct (Z.eqb_spec dt a) as [-> | Hne].
    + rewrite (bool_decide_eq_false_2 (a ∈ l)) by done.
      rewrite bool_decide_eq_true_2 by apply list_elem_of_here. done.
    + destruct (bool_decide_reflect (dt ∈ l)) as [Hdt | Hdt].
      * rewrite bool_decide_eq_true_2 by by apply list_elem_of_further. done.
      * rewrite bool_decide_eq_false_2; [done |].
        intros Hc. apply elem_of_cons in Hc as [-> | Hc]; done.
Qed.

Lemma staff_coverage_next {FA : FloatArith} m v o i (f : Timestamp -> Q) :
  NoDup (keys (demand_dict m)) ->
  staff_coverage m v o i (map (fun dt => (dt, f dt)) (keys (demand_dict m)))
  = map (fun dt => (dt, fadd (f dt) (coverage_term m v o i dt)))
        (keys (demand_dict m)).
Proof.
  intros Hnd. unfold staff_coverage.
  rewrite (fold_cov_add_present _ _ _ Hnd Hnd (fun dt H => H)).
  apply map_ext_in. intros dt Hdt. apply list_elem_of_In in Hdt.
  by rewrite bool_decide_eq_true_2.
Qed.

(** At the end of the decoding loops the dictionary has one entry per
    slot, in the order of the slots, with what the staff members added to
    it one after the other. *)
Lemma all_coverage_eq {FA : FloatArith} m v o :
  NoDup (keys (demand_dict m)) -> (0 < M m)%nat ->
  all_coverage m v o
  = map (fun dt =>
           (dt, fold_left (fun acc i => fadd acc (coverage_term m v o i dt))
                          (seq 0 (M m)) 0%Q))
        (keys (demand_dict m)).
Proof.
  intros Hnd HM. unfold all_coverage.
  destruct (M m) as [| n]; [lia |]. cbn [seq fold_left].
  assert (staff_coverage m v o 0 []
          = map (fun dt => (dt, fadd 0 (coverage_term m v o 0 dt)))
                (keys (demand_dict m))) as ->.
  { unfold staff_coverage. by rewrite fold_cov_add_fresh. }
  assert (forall (l : list nat) (f : Timestamp -> Q),
            fold_left (fun c i => staff_coverage m v o i c) l
                      (map (fun dt => (dt, f dt)) (keys (demand_dict m)))
            = map (fun dt =>
                     (dt, fold_left (fun acc i => fadd acc (coverage_term m v o i dt))
                                    l (f dt)))
                  (keys (demand_dict m))) as Hrest.
  { induction l as [| i l IH]; intros f; simpl; [done |].
    rewrite staff_coverage_next by done.
    apply (IH (fun dt => fadd (f dt) (coverage_term m v o i dt))). }
  apply (Hrest (seq 1 n) (fun dt => fadd 0 (coverage_term m v o 0 dt))).
Qed.

Lemma fold_fadd_zero {FA : FloatArith} {A : Type} (l : list A) :
  fold_left (fun acc _ => fadd acc 0) l 0%Q = 0%Q.
Proof. induction l as [| a l IH]; simpl; [done |]. by rewrite fadd_0_0. Qed.

Lemma fold_left_ext {A B : Type} (f g : B -> A -> B) (l : list A) (b : B) :
  (forall acc a, f acc a = g acc a) -> fold_left f l b = fold_left g l b.
Proof.
  intros H. revert b. induction l as [| a l IH]; intros b; simpl; [done |].
  by rewrite H, IH.
Qed.

Lemma slot_coverage_eq {FA : FloatArith} m v o (kv : Timestamp * Z) :
  NoDup (keys (demand_dict m)) -> kv ∈ demand_dict m ->
  fold_left (fun acc i => fadd acc (coverage_term m v o i (fst kv)))
            (seq 0 (M m)) 0%Q
  = slot_coverage m v o kv.
Proof.
  intros Hnd Hin. destruct kv as [dt d]. unfold slot_coverage. simpl.
  destruct (Z.eqb_spec d 0) as [-> | Hne].
  - transitivity (fold_left (fun acc (_ : nat) => fadd acc 0) (seq 0 (M m)) 0%Q);
      [| apply fold_fadd_zero].
    apply fold_left_ext. intros acc i. unfold coverage_term.
    by rewrite (odict_lookup_NoDup _ dt 0 Hnd Hin).
  - apply fold_left_ext. intros acc i. unfold coverage_term.
    rewrite (odict_lookup_NoDup _ dt d Hnd Hin).
    by destruct (Z.eqb_spec d 0).
Qed.

Lemma wdc_of_all_coverage {FA : FloatArith} m v o :
  NoDup (keys (demand_dict m)) -> (0 < M m)%nat -> demand_dict m <> [] ->
  wdc_of (all_coverage m v o)
  = py_round (fdiv (fsum (map (slot_coverage m v o) (demand_dict m)))
                   (len (demand_dict m))) 4.
Proof.
  intros Hnd HM Hne. unfold wdc_of. rewrite (all_coverage_eq m v o Hnd HM).
  unfold keys, values, len. rewrite !length_map, !map_map. simpl.
  destruct (Nat.eqb_spec (length (demand_dict m)) 0) as [H0 | _].
  { by apply nil_length_inv in H0. }
  f_equal. f_equal. f_equal. apply map_ext_in. intros kv Hkv.
  apply list_elem_of_In in Hkv. by apply slot_coverage_eq.
Qed.

(** ** Feasible assignments can be decoded *)

Lemma min_shift_works m staff s v a i j dt h u hu :
  vars_ok staff s v -> feasible s a ->
  has_min_shift m v i j dt (constraints s) ->
  x_start v !! (i, dt) = Some h -> (a h == 1)%Q ->
  u ∈ window m dt (dt + (MIN_SHIFT_HOURS - 1)) ->
  x v !! (i, u) = Some hu -> (a hu == 1)%Q.
Proof.
  intros Hok Hf (h0 & hs & Hh0 & Hhs & Hc) Hh Hone Hu Hhu.
  rewrite Hh in Hh0. injection Hh0 as <-.
  pose proof (proj2 Hf _ Hc) as Hholds. unfold holds in Hholds. simpl in Hholds.
  rewrite eval_py_sum, Hone in Hholds.
  destruct (handles_lookup _ _ _ _ u Hhs Hu) as (h1 & Hh1 & Hin).
  pose proof (eq_trans (eq_sym Hh1) Hhu) as Heq. injection Heq as ->.
  apply (total_ge_len a hs); [| | done].
  - intros h2 Hh2. destruct (handles_elem_of _ _ _ _ _ Hhs Hh2) as (dt2 & _ & Hd2).
    destruct (x_value _ _ _ _ _ _ Hok Hf Hd2) as [-> | ->]; lra.
  - unfold len in *. rewrite (handles_length _ _ _ _ Hhs). lra.
Qed.

Lemma truthy_start rs staff s v o i dt :
  build_model (Model_of rs staff) = Ok (s, v) ->
  has_solution (status o) = true -> feasible s (value o) ->
  truthy (var_value o (x_start v) i dt) = true ->
  exists h, x_start v !! (i, dt) = Some h /\ (value o h == 1)%Q.
Proof.
  intros Hb Hsol Hf Ht. unfold var_value in Ht.
  destruct (x_start v !! (i, dt)) as [h |] eqn:Hh; [| discriminate Ht].
  exists h. split; [done |].
  destruct (build_model_inv _ _ _ _ Hb) as (_ & _ & _ & _ & _ & _ & Hok & _).
  unfold solution_value in Ht. rewrite Hsol in Ht.
  destruct (start_value _ _ _ _ _ _ Hok Hf Hh) as [H0 | H1]; [| done].
  unfold truthy in Ht. apply Qeq_bool_iff in H0. by rewrite H0 in Ht.
Qed.

Lemma feasible_decodable rs staff s v o i :
  build_model (Model_of rs staff) = Ok (s, v) ->
  has_solution (status o) = true -> feasible s (value o) ->
  (i < length staff)%nat ->
  decodable (Model_of rs staff) v o i.
Proof.
  intros Hb Hsol Hf Hi dt Hdt Ht.
  destruct (truthy_start rs staff s v o i dt Hb Hsol Hf Ht) as (h & Hh & H1).
  destruct (build_model_inv _ _ _ _ Hb) as (_ & _ & _ & _ & _ & _ & Hok & Hcomp & _).
  pose proof Hdt as Hdt'. rewrite Model_of_demand_dict in Hdt'.
  apply list_elem_of_lookup in Hdt' as [j Hj].
  pose proof (built_slot_content rs staff s v i j dt Hb Hi Hj) as (_ & _ & Hmin & _).
  rewrite Model_of_demand_dict, elem_of_keys_to_dict in Hdt.
  destruct (Hcomp i Hi) as [Hslots _]. destruct (Hslots dt Hdt) as (_ & [hx Hhx] & _).
  assert (value o hx == 1)%Q as Hx1.
  { eapply (min_shift_works _ staff s v (value o) i j dt h dt hx); try done.
    apply elem_of_window. split; [unfold MIN_SHIFT_HOURS; lia |].
    by rewrite Model_of_demand_dict, elem_of_keys_to_dict. }
  assert (dt ∈ worked_slots v o i
                 (window (Model_of rs staff) dt (dt + (MAX_SHIFT_HOURS - 1)))) as Hin.
  { unfold worked_slots. apply list_elem_of_filter. split.
    - rewrite (var_value_getitem o _ i dt hx Hhx). unfold solution_value.
      rewrite Hsol. by apply Qeq_bool_iff.
    - apply elem_of_window. split; [unfold MAX_SHIFT_HOURS; lia |].
      by rewrite Model_of_demand_dict, elem_of_keys_to_dict. }
  intros Hnil. rewrite Hnil in Hin. by apply elem_of_nil in Hin.
Qed.

(** A feasible assignment of the built model is decoded without error. *)
Lemma solve_feasible {FA : FloatArith} rs staff s v o :
  build_model (Model_of rs staff) = Ok (s, v) ->
  has_solution (status o) = true -> feasible s (value o) ->
  exists metrics,
    solve (Model_of rs staff) v o = Ok metrics /\
    shifts metrics = all_rows (Model_of rs staff) v o /\
    WDC metrics = wdc_of (all_coverage (Model_of rs staff) v o).
Proof.
  intros Hb Hsol Hf.
  destruct (build_model_inv _ _ _ _ Hb) as (_ & _ & _ & _ & _ & _ & Hok & Hcomp & _).
  apply solve_total; [by apply decode_ready_Model_of | done |].
  intros i Hi. rewrite Model_of_M in Hi. by eapply feasible_decodable.
Qed.

Lemma demand_dict_nonempty rs staff :
  rs <> [] -> demand_dict (Model_of rs staff) <> [].
Proof.
  intros Hne Hnil. destruct rs as [| [k d] rs]; [done |].
  assert (k ∈ keys (demand_dict (Model_of (((k, d) :: rs)) staff))) as Hin.
  { rewrite Model_of_demand_dict, elem_of_keys_to_dict. apply list_elem_of_here. }
  rewrite Hnil in Hin. by apply elem_of_nil in Hin.
Qed.

(** C4, as amended. For a feasible assignment returned with status
    OPTIMAL or FEASIBLE, with at least one staff member and one slot, the
    WDC entry of the metrics is [round(S / n, 4)] in floating-point
    arithmetic, where [n] is the number of all slots and [S] is the [sum]
    over all slots of the coverage of the slot: 0 for a slot of zero
    demand and otherwise, added up staff member by staff member, the
    work of the staff member at the slot over the demand of the slot.
    Slots of zero demand add a term 0 to the sum but are counted in the
    divisor. *)
Theorem WDC_is_coverage_over_all_slots {FA : FloatArith} rs staff s v o :
  build_model (Model_of rs staff) = Ok (s, v) ->
  has_solution (status o) = true -> feasible s (value o) ->
  staff <> [] -> rs <> [] ->
  exists metrics,
    solve (Model_of rs staff) v o = Ok metrics /\
    WDC metrics =
      py_round
        (fdiv (fsum (map (slot_coverage (Model_of rs staff) v o)
                         (demand_dict (Model_of rs staff))))
              (len (demand_dict (Model_of rs staff)))) 4.
Proof.
  intros Hb Hsol Hf Hstaff Hrs.
  destruct (solve_feasible rs staff s v o Hb Hsol Hf) as (metrics & Hsolve & _ & Hwdc).
  exists metrics. split; [done |]. rewrite Hwdc.
  apply wdc_of_all_coverage.
  - apply NoDup_keys_Model_of.
  - rewrite Model_of_M. destruct staff; [done | simpl; lia].
  - by apply demand_dict_nonempty.
Qed.

Lemma two_slot_built_eq :
  build_model (Model_of two_slot_rows [manager]) = Ok two_slot_built.
Proof. vm_compute. reflexivity. Defined.

Lemma two_slot_feasible : feasible (fst two_slot_built) (value two_slot_outcome).
Proof. apply feasibleb_sound. vm_compute. reflexivity. Defined.

Lemma WDC_is_coverage_over_all_slots_witness :
  exists metrics,
    solve (Model_of two_slot_rows [manager]) (snd two_slot_built)
          two_slot_outcome = Ok metrics /\
    WDC metrics =
      py_round
        (fdiv (fsum (map (slot_coverage (Model_of two_slot_rows [manager])
                                        (snd two_slot_built) two_slot_outcome)
                         (demand_dict (Model_of two_slot_rows [manager]))))
              (len (demand_dict (Model_of two_slot_rows [manager])))) 4.
Proof.
  apply (WDC_is_coverage_over_all_slots two_slot_rows [manager]
           (fst two_slot_built) (snd two_slot_built) two_slot_outcome).
  - exact two_slot_built_eq.
  - reflexivity.
  - exact two_slot_feasible.
  - discriminate.
  - discriminate.
Defined.

(** C4 as stated fails when a slot has zero demand: one staff member
    covering the only slot with demand has WDC 0.5, not 1.  Every number
    of this run is a binary64 number, so that no rounding takes place. *)
Lemma WDC_counts_zero_demand_slots :
  build_model (Model_of two_slot_rows [manager]) = Ok two_slot_built /\
  feasible (fst two_slot_built) (value two_slot_outcome) /\
  exists metrics,
    solve (Model_of two_slot_rows [manager]) (snd two_slot_built)
          two_slot_outcome = Ok metrics /\
    (WDC metrics == 1 # 2)%Q /\
    (WDC_over_demand_slots (Model_of two_slot_rows [manager])
                           (snd two_slot_built) two_slot_outcome == 1)%Q /\
    ~ (WDC metrics ==
       WDC_over_demand_slots (Model_of two_slot_rows [manager])
                             (snd two_slot_built) two_slot_outcome)%Q.
Proof.
  split; [exact two_slot_built_eq |]. split; [exact two_slot_feasible |].
  eexists. split; [vm_compute; reflexivity |].
  split; [vm_compute; reflexivity |]. split; [vm_compute; reflexivity |].
  vm_compute. discriminate.
Defined.

(** ** The window assertion *)

Lemma no_assert_Ok {A : Type} (a : A) : no_assert (Ok a).
Proof. done. Qed.

Lemma no_assert_bind {A B : Type} (r : result A) (k : A -> result B) :
  no_assert r -> (forall a, no_assert (k a)) -> no_assert (rbind r k).
Proof.
  intros Hr Hk. destruct r as [a | e]; simpl; [apply Hk |].
  unfold no_assert in *. intros [= ->]. by apply Hr.
Qed.

Lemma no_assert_for_each {A S : Type} (l : list A) (body : A -> S -> result S)
  (st : S) :
  (forall a s, no_assert (body a s)) -> no_assert (for_each l body st).
Proof.
  intros Hbody. revert st. induction l as [| a l IH]; intros st; simpl; [done |].
  apply no_assert_bind; [apply Hbody | apply IH].
Qed.

Lemma no_assert_map_r {A B : Type} (f : A -> result B) (l : list A) :
  (forall a, no_assert (f a)) -> no_assert (map_r f l).
Proof. apply map_r_not_assert. Qed.

Lemma no_assert_getitem `{Countable K} {V : Type} (d : gmap K V) (k : K) :
  no_assert (getitem d k).
Proof. unfold getitem, no_assert. by destruct (d !! k). Qed.

Lemma no_assert_iloc {A : Type} (col : list A) (j : nat) : no_assert (iloc col j).
Proof. unfold iloc, no_assert. by destruct (col !! j). Qed.

Lemma no_assert_odict_get {V : Type} (d : odict V) (k : Timestamp) :
  no_assert (odict_get d k).
Proof. unfold odict_get, no_assert. by destruct (odict_lookup d k). Qed.

Lemma no_assert_py_max (l : list Z) : no_assert (py_max l).
Proof. unfold no_assert. by destruct l. Qed.

Lemma no_assert_column_bus_day df : no_assert (column_bus_day df).
Proof. unfold column_bus_day, no_assert. by destruct (bus_day df). Qed.

Lemma no_assert_column_week df : no_assert (column_week df).
Proof. unfold column_week, no_assert. by destruct (week df). Qed.

Lemma no_assert_iloc_bus_day m j : no_assert (iloc_bus_day m j).
Proof.
  unfold iloc_bus_day. apply no_assert_bind; [apply no_assert_column_bus_day |].
  intros col. apply no_assert_iloc.
Qed.

Lemma no_assert_get_subset_dts m lo hi (n : Z) :
  NoDup (keys (demand_dict m)) -> 0 < n -> hi - lo < n ->
  no_assert (get_subset_dts m lo hi (Some n)).
Proof. intros Hnd Hn Hs. by rewrite get_subset_dts_total. Qed.

Ltac split_pairs :=
  repeat match goal with
         | p : (_ * _)%type |- _ => destruct p
         end;
  cbv beta iota.

Ltac no_assert_step :=
  first
    [ apply no_assert_Ok
    | apply no_assert_getitem
    | apply no_assert_iloc_bus_day
    | apply no_assert_iloc
    | apply no_assert_odict_get
    | apply no_assert_py_max
    | apply no_assert_column_bus_day
    | apply no_assert_column_week
    | apply no_assert_get_subset_dts;
      [ assumption
      | unfold MAX_SHIFT_HOURS, MIN_SHIFT_HOURS, MIN_REST_HOURS; lia
      | unfold MAX_SHIFT_HOURS, MIN_SHIFT_HOURS, MIN_REST_HOURS; lia ]
    | rewrite get_subset_dts_None; apply no_assert_Ok
    | apply no_assert_map_r; intros ?; split_pairs
    | apply no_assert_for_each; intros ? ?; split_pairs
    | apply no_assert_bind; [| intros ?; split_pairs]
    | match goal with
      | |- no_assert (if ?c then _ else _) => destruct c
      | |- no_assert (match ?p with (_, _) => _ end) => destruct p
      | |- no_assert (let '(_, _) := ?p in _) => destruct p
      end ].

Lemma no_assert_add_constraints m v s :
  NoDup (keys (demand_dict m)) -> no_assert (add_constraints m v s).
Proof.
  intros Hnd. unfold add_constraints, add_staff_constraints,
    add_week_constraint, add_slot_constraints, add_overtime_constraints.
  repeat no_assert_step.
Qed.

Lemma no_assert_solve {FA : FloatArith} m v o :
  NoDup (keys (demand_dict m)) -> no_assert (solve m v o).
Proof.
  intros Hnd. unfold solve, sum_solution_values, decode_staff, decode_slot,
    shift_end.
  repeat no_assert_step.
Qed.

(** C9. On an hourly grid every window that the constraint builder and
    the decoder ask of [get_subset_dts] with a [max_length] is returned,
    with at most [max_length] slots; building the variables and the
    constraints ends without any exception, and neither the constraint
    builder nor the decoder can end in a failed assertion. *)
Theorem window_assertion_never_fails {FA : FloatArith} rs staff :
  hourly_grid (map fst rs) ->
  let m := Model_of rs staff in
  let fits (r : result (list Timestamp)) (n : Z) :=
    exists l, r = Ok l /\ Z.of_nat (length l) <= n in
  (forall bus_day bus_eod dt last,
     fits (get_subset_dts m (Z.max bus_day (dt - (MAX_SHIFT_HOURS - 1))) dt
                          (Some MAX_SHIFT_HOURS)) MAX_SHIFT_HOURS /\
     fits (get_subset_dts m (dt + 1) (dt + (MIN_SHIFT_HOURS + MIN_REST_HOURS - 1))
                          (Some (MIN_SHIFT_HOURS + MIN_REST_HOURS - 1)))
          (MIN_SHIFT_HOURS + MIN_REST_HOURS - 1) /\
     fits (get_subset_dts m dt (dt + (MIN_SHIFT_HOURS - 1)) (Some MIN_SHIFT_HOURS))
          MIN_SHIFT_HOURS /\
     fits (get_subset_dts m (last + 1)
             (Z.min bus_eod (last + (MAX_SHIFT_HOURS - MIN_SHIFT_HOURS + 1)))
             (Some (MAX_SHIFT_HOURS - MIN_SHIFT_HOURS + 1)))
          (MAX_SHIFT_HOURS - MIN_SHIFT_HOURS + 1) /\
     fits (get_subset_dts m (last + 1) (last + MIN_REST_HOURS) (Some MIN_REST_HOURS))
          MIN_REST_HOURS /\
     fits (get_subset_dts m dt (dt + (MAX_SHIFT_HOURS - 1)) (Some MAX_SHIFT_HOURS))
          MAX_SHIFT_HOURS) /\
  (exists s1 v s2,
     add_variables m (CreateSolver, no_vars) = Ok (s1, v) /\
     add_constraints m v s1 = Ok s2) /\
  (forall v s, add_constraints m v s <> Raise AssertionError) /\
  (forall v o, solve m v o <> Raise AssertionError).
Proof.
  intros Hg m fits.
  pose proof (NoDup_keys_Model_of rs staff) as Hnd. fold m in Hnd.
  assert (forall lo hi n, 0 < n -> hi - lo < n ->
            fits (get_subset_dts m lo hi (Some n)) n) as Hfits.
  { intros lo hi n Hn Hs. exists (window m lo hi).
    split; [by apply get_subset_dts_total |]. apply window_length; [done | lia | done]. }
  split; [| split; [| split]].
  - intros bus_day bus_eod dt last.
    repeat split; apply Hfits;
      unfold MAX_SHIFT_HOURS, MIN_SHIFT_HOURS, MIN_REST_HOURS; lia.
  - destruct (add_variables_total rs staff) as (s1 & v & Hv & _ & Hcomp & _).
    destruct (add_constraints_total rs staff v s1 Hg Hcomp) as [s2 Hs2].
    by exists s1, v, s2.
  - intros v s. by apply no_assert_add_constraints.
  - intros v o. by apply no_assert_solve.
Qed.

Lemma hourly_rows_grid t0 n d : hourly_grid (map fst (hourly_rows t0 n d)).
Proof.
  exists t0. unfold hourly_rows. rewrite map_map. simpl.
  by rewrite length_map, length_seq.
Qed.

Lemma window_assertion_never_fails_witness :
  let m := Model_of (hourly_rows 0 3 3) [branch_manager] in
  let fits (r : result (list Timestamp)) (n : Z) :=
    exists l, r = Ok l /\ Z.of_nat (length l) <= n in
  (forall bus_day bus_eod dt last,
     fits (get_subset_dts m (Z.max bus_day (dt - (MAX_SHIFT_HOURS - 1))) dt
                          (Some MAX_SHIFT_HOURS)) MAX_SHIFT_HOURS /\
     fits (get_subset_dts m (dt + 1) (dt + (MIN_SHIFT_HOURS + MIN_REST_HOURS - 1))
                          (Some (MIN_SHIFT_HOURS + MIN_REST_HOURS - 1)))
          (MIN_SHIFT_HOURS + MIN_REST_HOURS - 1) /\
     fits (get_subset_dts m dt (dt + (MIN_SHIFT_HOURS - 1)) (Some MIN_SHIFT_HOURS))
          MIN_SHIFT_HOURS /\
     fits (get_subset_dts m (last + 1)
             (Z.min bus_eod (last + (MAX_SHIFT_HOURS - MIN_SHIFT_HOURS + 1)))
             (Some (MAX_SHIFT_HOURS - MIN_SHIFT_HOURS + 1)))
          (MAX_SHIFT_HOURS - MIN_SHIFT_HOURS + 1) /\
     fits (get_subset_dts m (last + 1) (last + MIN_REST_HOURS) (Some MIN_REST_HOURS))
          MIN_REST_HOURS /\
     fits (get_subset_dts m dt (dt + (MAX_SHIFT_HOURS - 1)) (Some MAX_SHIFT_HOURS))
          MAX_SHIFT_HOURS) /\
  (exists s1 v s2,
     add_variables m (CreateSolver, no_vars) = Ok (s1, v) /\
     add_constraints m v s1 = Ok s2) /\
  (forall v s, add_constraints m v s <> Raise AssertionError) /\
  (forall v o, solve m v o <> Raise AssertionError).
Proof.
  apply (window_assertion_never_fails (hourly_rows 0 3 3) [branch_manager]).
  exists 0. vm_compute. reflexivity.
Defined.

(** The assertion itself is live: a window wider than its bound fails. *)
Example get_subset_dts_asserts :
  get_subset_dts (Model_of (hourly_rows 0 3 3) [branch_manager]) 0 2 (Some 2)
  = Raise AssertionError.
Proof. reflexivity. Qed.

(** ** Input that the specification calls malformed *)

Lemma combine_fst_snd {A B : Type} (l : list (A * B)) :
  combine (map fst l) (map snd l) = l.
Proof. induction l as [| [a b] l IH]; simpl; [done | by rewrite IH]. Qed.

Lemma to_datetime_stamps parse (l : list Timestamp) :
  map_r (to_datetime parse) (map Stamp l) = Ok l.
Proof. induction l as [| t l IH]; simpl; [done | by rewrite IH]. Qed.

Lemma init_stamped parse rs staff :
  __init__ parse (stamped rs) staff = Ok (format_inputs (mkFrame rs None None) staff).
Proof.
  unfold __init__, stamped, col_date_time, set_date_time, col_demand. simpl.
  rewrite !map_map. simpl.
  rewrite <- (map_map fst Stamp), to_datetime_stamps. cbn [rbind].
  change (map (fun r : Timestamp * Z => snd r) rs) with (map snd rs).
  by rewrite combine_fst_snd.
Qed.

Lemma add_variables_no_staff rs st :
  add_variables (Model_of rs []) st = Ok st.
Proof. reflexivity. Qed.

(** C2, as amended. Nothing is validated and no [DataError] exists.
    [__init__] accepts every demand table whose timestamps are parsed,
    text or timestamps, in any order and with any spacing, whatever the
    demand values, and every staff table: the only condition is that
    [pd.to_datetime] reads each cell.  On an hourly grid with at least one
    staff member the whole model is built, whatever the sign of the demand
    values.  With an empty staff table no variable is created and no
    constraint is added. *)
Theorem malformed_input_is_not_rejected parse (df : DataFrame cell)
  (ts : list Timestamp) staff :
  map_r (to_datetime parse) (col_date_time df) = Ok ts ->
  let rs := combine ts (col_demand df) in
  __init__ parse df staff = Ok (format_inputs (mkFrame rs None None) staff) /\
  (hourly_grid ts -> staff <> [] ->
   exists s v, build_model (Model_of rs staff) = Ok (s, v)) /\
  (staff = [] ->
   add_variables (Model_of rs staff) (CreateSolver, no_vars)
     = Ok (CreateSolver, no_vars) /\
   add_constraints (Model_of rs staff) no_vars CreateSolver = Ok CreateSolver).
Proof.
  intros Hts rs. split; [| split].
  - unfold __init__. rewrite Hts. cbn [rbind]. by destruct df.
  - intros Hg Hne. apply build_model_total; [| done].
    assert (map fst rs = ts) as ->; [| done].
    apply map_r_Ok in Hts. unfold rs, col_demand.
    by apply (fst_combine_Forall2 _ (col_date_time df) _ _ Hts).
  - intros ->. split; reflexivity.
Qed.

Lemma malformed_input_is_not_rejected_witness :
  let rs := combine [482137; 482136] (col_demand backwards_frame) in
  ~ well_formed_demand rs /\
  __init__ parse_two backwards_frame [manager]
    = Ok (format_inputs (mkFrame rs None None) [manager]) /\
  (hourly_grid [482137; 482136] -> [manager] <> [] ->
   exists s v, build_model (Model_of rs [manager]) = Ok (s, v)) /\
  ([manager] = [] ->
   add_variables (Model_of rs [manager]) (CreateSolver, no_vars)
     = Ok (CreateSolver, no_vars) /\
   add_constraints (Model_of rs [manager]) no_vars CreateSolver = Ok CreateSolver).
Proof.
  split.
  - intros [_ Hpos]. apply Forall_cons in Hpos as [Hneg _]. simpl in Hneg. lia.
  - apply (malformed_input_is_not_rejected parse_two backwards_frame
             [482137; 482136] [manager]).
    reflexivity.
Defined.

(** C2 as stated fails for each kind of malformed input: a table with
    decreasing timestamps, a table with a gap, a table with a negative
    demand and an empty staff table are all accepted by [__init__]; the
    first three are built into a model with variables, and for the empty
    staff table the run reaches the solver without any exception. *)
Lemma malformed_input_accepted :
  (~ well_formed_demand [(1, 1); (0, 1)] /\
   ~ well_formed_demand [(0, 1); (2, 1)] /\
   ~ well_formed_demand [(0, -1)]) /\
  (forall rs, In rs [[(1, 1); (0, 1)]; [(0, 1); (2, 1)]; [(0, -1)]] ->
     exists df' m s v,
       __init__ (fun _ => None) (stamped rs) [manager] = Ok (df', m) /\
       build_model m = Ok (s, v) /\ variables s <> []) /\
  (exists df' m metrics,
     __init__ (fun _ => None) (stamped [(0, 0)]) [] = Ok (df', m) /\
     schedule_shifts m (Some (fun _ => mkOutcome OPTIMAL (fun _ => 0%Q)))
       = Ok metrics).
Proof.
  split; [| split].
  - split; [| split].
    + intros [[t0 Hg] _]. simpl in Hg. injection Hg as H1 H0. lia.
    + intros [[t0 Hg] _]. simpl in Hg. injection Hg as H1 H0. lia.
    + intros [_ Hpos]. apply Forall_cons in Hpos as [Hneg _]. simpl in Hneg. lia.
  - intros rs [<- | [<- | [<- | []]]];
      eexists _, _, _, _; (split; [vm_compute; reflexivity |]);
      (split; [vm_compute; reflexivity |]); discriminate.
  - eexists _, _, _. split; [vm_compute; reflexivity | vm_compute; reflexivity].
Defined.

(** ** Shifts of a feasible assignment are contiguous *)

(** Two lookups of the same key give the same handle. *)
Ltac same_handle H1 H2 :=
  let E := fresh "E" in
  pose proof (eq_trans (eq_sym H1) H2) as E; injection E as <-.

(** A worked slot has a start in its look-back window. *)
Lemma past_needs_start m staff s v a i j dt :
  vars_ok staff s v -> feasible s a ->
  has_past m v i j dt (constraints s) -> works_at v a i dt ->
  exists bd p,
    iloc_bus_day m j = Ok bd /\
    p ∈ window m (Z.max (to_datetime_date bd) (dt - (MAX_SHIFT_HOURS - 1))) dt /\
    starts_at v a i p.
Proof.
  intros Hok Hf (bd & hx & hs & Hbd & Hhx & Hhs & Hc) (hx' & Hhx' & Hone).
  same_handle Hhx' Hhx.
  pose proof (proj2 Hf _ Hc) as Hholds. unfold holds in Hholds. simpl in Hholds.
  rewrite eval_py_sum, Hone in Hholds.
  destruct (total_pos a hs) as (h & Hin & Hnz); [lra |].
  destruct (handles_elem_of _ _ _ _ _ Hhs Hin) as (p & Hp & Hhp).
  exists bd, p. split; [done |]. split; [done |]. exists h. split; [done |].
  by destruct (start_value _ _ _ _ _ _ Hok Hf Hhp).
Qed.

(** Under a start, a worked overtime hour follows a worked hour. *)
Lemma consecutive_back staff s v a i j dt o odt :
  vars_ok staff s v -> feasible s a ->
  has_consecutive v i j dt o odt (constraints s) ->
  starts_at v a i dt -> works_at v a i odt -> works_at v a i (odt - 1).
Proof.
  intros Hok Hf (hp & hs & hx & Hhp & Hhs & Hhx & Hc) (hs' & Hhs' & Hs1)
    (hx' & Hhx' & Hx1).
  same_handle Hhs' Hhs. same_handle Hhx' Hhx.
  pose proof (proj2 Hf _ Hc) as Hholds. unfold holds in Hholds. simpl in Hholds.
  rewrite Hs1, Hx1 in Hholds.
  exists hp. split; [by replace (odt - 1) with (odt + -1) by lia |].
  destruct (x_value _ _ _ _ _ _ Hok Hf Hhp) as [H0 | H1]; [| done].
  rewrite H0 in Hholds. lra.
Qed.

Lemma starts_at_unique_in_rest m staff s v a i j t p :
  vars_ok staff s v -> feasible s a ->
  has_rest m v i j t (constraints s) ->
  starts_at v a i t -> starts_at v a i p ->
  p ∈ keys (demand_dict m) ->
  t < p -> MIN_SHIFT_HOURS + MIN_REST_HOURS <= p - t.
Proof.
  intros Hok Hf Hrest (h & Hh & H1) (hp & Hhp & Hp1) Hp Hlt.
  destruct (Z_lt_le_dec (p - t) (MIN_SHIFT_HOURS + MIN_REST_HOURS)) as [Hnear |];
    [exfalso | done].
  assert (a hp == 0)%Q as H0.
  { eapply (rest_excludes_starts m staff s v a i j t h p hp); try done. lia. }
  rewrite H0 in Hp1. discriminate Hp1.
Qed.

Section Contiguity.

Variable rs : list (Timestamp * Z).
Variable staff : list Staff.
Variable s : Solver.
Variable v : Vars.
Variable a : nat -> Q.
Variable i : nat.

Hypothesis Hgrid : hourly_grid (map fst rs).
Hypothesis Hbuilt : build_model (Model_of rs staff) = Ok (s, v).
Hypothesis Hfeasible : feasible s a.
Hypothesis Hstaff : (i < length staff)%nat.

Lemma grid_slot_content dt :
  dt ∈ map fst rs ->
  exists j,
    iloc_bus_day (Model_of rs staff) j = Ok (date dt) /\
    slot_content (Model_of rs staff) v i j dt (constraints s).
Proof.
  intros Hdt. apply list_elem_of_lookup in Hdt as [j Hj]. exists j.
  split; [by apply iloc_bus_day_Model_of |].
  apply (built_slot_content rs staff s v i j dt Hbuilt Hstaff).
  by rewrite keys_to_dict_NoDup by by apply NoDup_hourly_grid.
Qed.

Lemma built_vars_ok : vars_ok staff s v.
Proof. by destruct (build_model_inv _ _ _ _ Hbuilt) as (_ & _ & _ & _ & _ & _ & ? & _). Qed.

Lemma grid_keys dt :
  dt ∈ keys (demand_dict (Model_of rs staff)) <-> dt ∈ map fst rs.
Proof. by rewrite keys_Model_of_grid. Qed.

Lemma grid_has_x dt : dt ∈ map fst rs -> is_Some (x v !! (i, dt)).
Proof.
  intros Hdt.
  destruct (build_model_inv _ _ _ _ Hbuilt) as (_ & _ & _ & _ & _ & _ & _ & Hcomp & _).
  destruct (Hcomp i Hstaff) as [Hslots _]. by destruct (Hslots dt Hdt) as (_ & ? & _).
Qed.

(** A slot worked within [MAX_SHIFT_HOURS] of a start lies on the day of
    that start: the start that covers it can only be this one. *)
Lemma worked_same_day t u :
  starts_at v a i t -> works_at v a i u ->
  t ∈ map fst rs -> u ∈ map fst rs -> t <= u <= t + (MAX_SHIFT_HOURS - 1) ->
  date u = date t.
Proof.
  intros Hst Hwk Ht Hu Hr.
  destruct (grid_slot_content u Hu) as (ju & Hbd_u & Hpast_u & _).
  destruct (grid_slot_content t Ht) as (jt & _ & _ & Hrest_t & _).
  destruct (past_needs_start _ _ _ _ _ _ _ _ built_vars_ok Hfeasible Hpast_u Hwk)
    as (bd & p & Hbd & Hp & Hsp).
  rewrite Hbd_u in Hbd. injection Hbd as <-.
  apply elem_of_window in Hp as [Hpr Hpk].
  unfold MAX_SHIFT_HOURS, to_datetime_date in *.
  destruct (Z.lt_trichotomy p t) as [Hlt | [-> | Hgt]].
  - exfalso. destruct (grid_slot_content p (proj1 (grid_keys p) Hpk))
      as (jp & _ & _ & Hrest_p & _).
    pose proof (starts_at_unique_in_rest _ _ _ _ _ _ _ _ _ built_vars_ok Hfeasible
                  Hrest_p Hsp Hst (proj2 (grid_keys t) Ht) Hlt) as Hfar.
    unfold MIN_SHIFT_HOURS, MIN_REST_HOURS in Hfar. lia.
  - unfold date in *. Z.to_euclidean_division_equations. lia.
  - exfalso.
    pose proof (starts_at_unique_in_rest _ _ _ _ _ _ _ _ _ built_vars_ok Hfeasible
                  Hrest_t Hst Hsp Hpk Hgt) as Hfar.
    unfold MIN_SHIFT_HOURS, MIN_REST_HOURS in Hfar. lia.
Qed.

(** Within a shift, a worked hour beyond the minimum length follows a
    worked hour. *)
Lemma worked_back t u :
  starts_at v a i t -> works_at v a i u ->
  t ∈ map fst rs -> u ∈ map fst rs ->
  t + MIN_SHIFT_HOURS <= u <= t + (MAX_SHIFT_HOURS - 1) ->
  works_at v a i (u - 1).
Proof.
  intros Hst Hwk Ht Hu Hr.
  assert (date u = date t) as Hday.
  { apply worked_same_day; try done. unfold MIN_SHIFT_HOURS in Hr. lia. }
  destruct (grid_slot_content t Ht) as (jt & Hbd_t & _ & _ & _ & Hover).
  destruct Hover as (bd & last & Hbd & Hmax & Hall).
  rewrite Hbd_t in Hbd. injection Hbd as <-.
  apply py_max_Ok in Hmax as [Hlast_in Hlast_ge].
  assert (last = t + (MIN_SHIFT_HOURS - 1)) as ->.
  { apply elem_of_window in Hlast_in as [Hlr _].
    assert (t + (MIN_SHIFT_HOURS - 1) <= last); [| lia].
    apply Hlast_ge. apply elem_of_window. split; [unfold MIN_SHIFT_HOURS; lia |].
    apply grid_keys.
    apply (hourly_grid_convex _ t _ u Hgrid Ht Hu). unfold MIN_SHIFT_HOURS in *. lia. }
  assert (u ∈ window (Model_of rs staff) (t + (MIN_SHIFT_HOURS - 1) + 1)
                (Z.min (to_datetime_date (date t) + 23)
                       (t + (MIN_SHIFT_HOURS - 1)
                        + (MAX_SHIFT_HOURS - MIN_SHIFT_HOURS + 1)))) as Hin.
  { apply elem_of_window. split; [| by apply grid_keys].
    unfold MAX_SHIFT_HOURS, MIN_SHIFT_HOURS, to_datetime_date, date in *.
    Z.to_euclidean_division_equations. lia. }
  apply list_elem_of_lookup in Hin as [o Ho].
  by apply (consecutive_back staff s v a i jt t o u built_vars_ok Hfeasible
              (Hall o u Ho)).
Qed.

(** Every slot between a start and a slot worked within
    [MAX_SHIFT_HOURS] of it is a slot of the grid and is worked. *)
Lemma worked_contiguous t u u' :
  starts_at v a i t -> works_at v a i u ->
  t ∈ map fst rs -> u ∈ map fst rs -> t <= u <= t + (MAX_SHIFT_HOURS - 1) ->
  t <= u' <= u ->
  u' ∈ map fst rs /\ works_at v a i u'.
Proof.
  intros Hst Hwk Ht Hu Hr Hr'.
  assert (u' ∈ map fst rs) as Hu' by by apply (hourly_grid_convex _ t u' u).
  split; [done |].
  destruct (Z_le_gt_dec u' (t + (MIN_SHIFT_HOURS - 1))) as [Hmin | Hot].
  - destruct (grid_slot_content t Ht) as (jt & _ & _ & _ & Hmin_t & _).
    destruct Hst as (h & Hh & H1). destruct (grid_has_x u' Hu') as [hx Hhx].
    exists hx. split; [done |].
    eapply (min_shift_works _ staff s v a i jt t h u' hx); try done;
      [apply built_vars_ok |].
    apply elem_of_window. split; [lia | by apply grid_keys].
  - assert (forall k : nat,
              t + (MIN_SHIFT_HOURS - 1) <= u - Z.of_nat k ->
              works_at v a i (u - Z.of_nat k)) as Hdown.
    { induction k as [| k IH]; intros Hk.
      - by replace (u - Z.of_nat 0) with u by lia.
      - replace (u - Z.of_nat (S k)) with (u - Z.of_nat k - 1) by lia.
        apply (worked_back t); try done.
        + apply IH. lia.
        + apply (hourly_grid_convex _ t _ u Hgrid Ht Hu).
          unfold MIN_SHIFT_HOURS in *. lia.
        + unfold MIN_SHIFT_HOURS, MAX_SHIFT_HOURS in *. lia. }
    replace u' with (u - Z.of_nat (Z.to_nat (u - u'))) by lia.
    apply Hdown. lia.
Qed.

End Contiguity.

(** ** The decoded end of a shift *)

Lemma last_contiguous_max (works : Timestamp -> bool) (n : nat) :
  forall t E,
    t <= E <= t + Z.of_nat n ->
    (forall u, t < u <= E -> works u = true) ->
    (E < t + Z.of_nat n -> works (E + 1) = false) ->
    last_contiguous works t n = E.
Proof.
  induction n as [| n IH]; intros t E Hr Hall Hstop; simpl.
  - lia.
  - destruct (Z.eq_dec t E) as [-> | Hne].
    + rewrite Hstop; [done | lia].
    + rewrite Hall by lia. apply IH.
      * lia.
      * intros u Hu. apply Hall. lia.
      * intros HE. apply Hstop. lia.
Qed.

Lemma flat_map_ext_in {A B : Type} (f g : A -> list B) (l : list A) :
  (forall a, a ∈ l -> f a = g a) -> flat_map f l = flat_map g l.
Proof.
  induction l as [| a l IH]; intros Hall; simpl; [done |].
  rewrite (Hall a) by apply list_elem_of_here. f_equal. apply IH.
  intros b Hb. apply Hall. by apply list_elem_of_further.
Qed.

Lemma works_at_reported v o i u :
  has_solution (status o) = true ->
  Qeq_bool (var_value o (x v) i u) 1 = true <-> works_at v (value o) i u.
Proof.
  intros Hsol. unfold var_value, works_at, solution_value. rewrite Hsol.
  destruct (x v !! (i, u)) as [h |] eqn:Hh.
  - rewrite Qeq_bool_iff. split.
    + intros H1. by exists h.
    + intros (h' & Hh' & H1). by injection Hh' as ->.
  - split; [discriminate |]. by intros (h' & Hh' & _).
Qed.

Lemma decoded_end_spec rs staff s v o i t :
  hourly_grid (map fst rs) ->
  build_model (Model_of rs staff) = Ok (s, v) ->
  has_solution (status o) = true -> feasible s (value o) ->
  (i < length staff)%nat -> t ∈ map fst rs ->
  truthy (var_value o (x_start v) i t) = true ->
  decoded_end (Model_of rs staff) v o i t = spec_shift_end (Model_of rs staff) v o i t.
Proof.
  intros Hg Hb Hsol Hf Hi Ht Htruthy. set (m := Model_of rs staff).
  assert (starts_at v (value o) i t) as Hst.
  { destruct (truthy_start rs staff s v o i t Hb Hsol Hf Htruthy) as (h & ? & ?).
    by exists h. }
  assert (forall u, u ∈ keys (demand_dict m) <-> u ∈ map fst rs) as Hkeys.
  { intros u. unfold m. by rewrite keys_Model_of_grid. }
  pose proof (feasible_decodable rs staff s v o i Hb Hsol Hf Hi t
                (proj2 (Hkeys t) Ht) Htruthy) as Hne.
  fold m in Hne. unfold decoded_end, spec_shift_end. fold m.
  assert (forall u, u ∈ worked_slots v o i (window m t (t + (MAX_SHIFT_HOURS - 1)))
                    <-> (t <= u <= t + (MAX_SHIFT_HOURS - 1) /\ u ∈ map fst rs)
                        /\ works_at v (value o) i u) as Hws.
  { intros u. unfold worked_slots.
    rewrite list_elem_of_filter, elem_of_window, Hkeys, works_at_reported by done.
    tauto. }
  destruct (worked_slots v o i (window m t (t + (MAX_SHIFT_HOURS - 1))))
    as [| a0 l] eqn:Hlist; [done |].
  destruct (fold_left_max_spec l a0) as (Hin & Hge0 & Hge).
  set (E := fold_left Z.max l a0) in *.
  assert (E ∈ a0 :: l) as HE.
  { destruct Hin as [-> | Hin]; [apply list_elem_of_here | by apply list_elem_of_further]. }
  assert (forall b, b ∈ a0 :: l -> b <= E) as Hmax.
  { intros b Hb'. apply elem_of_cons in Hb' as [-> | Hb']; [done | by apply Hge]. }
  apply Hws in HE as [[HEr HEk] HEw].
  f_equal. symmetry. apply last_contiguous_max.
  - unfold MAX_SHIFT_HOURS in *. lia.
  - intros u Hu. unfold reported_working.
    destruct (worked_contiguous rs staff s v (value o) i Hg Hb Hf Hi t E u)
      as [Hu_in Hu_w]; try done; [lia |].
    rewrite bool_decide_eq_true_2 by by apply Hkeys.
    by apply works_at_reported.
  - intros Hlt. unfold reported_working.
    destruct (bool_decide _) eqn:Hk; [| reflexivity].
    apply bool_decide_eq_true in Hk. simpl.
    destruct (Qeq_bool (var_value o (x v) i (E + 1)) 1) eqn:Hw; [| done].
    exfalso. assert (E + 1 <= E); [| lia].
    apply Hmax, Hws. split; [split; [| by apply Hkeys] |].
    + unfold MAX_SHIFT_HOURS in *. lia.
    + by apply works_at_reported.
Qed.

(** C3. For a feasible assignment returned with status OPTIMAL or
    FEASIBLE for a model over an hourly grid, [solve] returns, and its
    shift list has exactly one record per staff member and slot with a
    start, whose end is the last slot reached from the start through
    worked slots of the grid, within the [MAX_SHIFT_HOURS] window, plus one
    hour.  A worked slot of the window behind a non-worked slot is
    therefore never the end of the shift. *)
Theorem decoded_shift_ends_after_last_contiguous_slot {FA : FloatArith} rs staff s v o :
  hourly_grid (map fst rs) ->
  build_model (Model_of rs staff) = Ok (s, v) ->
  has_solution (status o) = true -> feasible s (value o) ->
  exists metrics,
    solve (Model_of rs staff) v o = Ok metrics /\
    shifts metrics = spec_rows (Model_of rs staff) v o.
Proof.
  intros Hg Hb Hsol Hf.
  destruct (solve_feasible rs staff s v o Hb Hsol Hf) as (metrics & Hsolve & Hrows & _).
  exists metrics. split; [done |]. rewrite Hrows. unfold all_rows, spec_rows.
  apply flat_map_ext_in. intros i Hi. apply elem_of_seq in Hi as [_ Hi].
  simpl in Hi. rewrite ?Model_of_M in Hi.
  destruct (staff_df (Model_of rs staff) !! i) as [st |]; [| done].
  unfold staff_rows. apply flat_map_ext_in. intros t Ht. unfold decoded_rows.
  destruct (truthy (var_value o (x_start v) i t)) eqn:Htruthy; [| done].
  rewrite (decoded_end_spec rs staff s v o i t); try done.
  by rewrite keys_Model_of_grid in Ht.
Qed.

Lemma one_day_built_eq :
  build_model (Model_of (hourly_rows 0 24 3) [manager]) = Ok one_day_built.
Proof. vm_compute. reflexivity. Defined.

Lemma one_day_feasible : feasible (fst one_day_built) (value one_day_outcome).
Proof. apply feasibleb_sound. vm_compute. reflexivity. Defined.

Lemma decoded_shift_ends_after_last_contiguous_slot_witness :
  exists metrics,
    solve (Model_of (hourly_rows 0 24 3) [manager]) (snd one_day_built)
          one_day_outcome = Ok metrics /\
    shifts metrics =
      spec_rows (Model_of (hourly_rows 0 24 3) [manager]) (snd one_day_built)
                one_day_outcome.
Proof.
  apply (decoded_shift_ends_after_last_contiguous_slot
           (hourly_rows 0 24 3) [manager] (fst one_day_built) (snd one_day_built)
           one_day_outcome).
  - apply hourly_rows_grid.
  - exact one_day_built_eq.
  - reflexivity.
  - exact one_day_feasible.
Defined.

(** The run above yields the single shift 10:00 to 22:00. *)
Example one_day_shifts :
  spec_rows (Model_of (hourly_rows 0 24 3) [manager]) (snd one_day_built)
            one_day_outcome
  = [mkRow "101" 10 22].
Proof. vm_compute. reflexivity. Qed.

(** The decoder itself takes the last worked slot of the window: the
    contiguity of a decoded shift comes from the constraints.  On values
    that violate them the decoded shift runs past the gap. *)
Example decoder_takes_last_worked_slot :
  let o := mkOutcome FEASIBLE (by_name (fst one_day_built) gapped_shift) in
  feasibleb (fst one_day_built) (value o) = false /\
  exists metrics,
    solve (Model_of (hourly_rows 0 24 3) [manager]) (snd one_day_built) o
      = Ok metrics /\
    shifts metrics = [mkRow "101" 10 13].
Proof.
  split; [vm_compute; reflexivity |].
  eexists. split; [vm_compute; reflexivity |]. reflexivity.
Qed.

(** * Further properties of the code *)

(** ** The week column and the demand dictionary of [__init__] *)

Lemma fold_left_min_spec (l : list Z) (a : Z) :
  let mn := fold_left Z.min l a in
  (mn = a \/ mn ∈ l) /\ mn <= a /\ forall b, b ∈ l -> mn <= b.
Proof.
  revert a. induction l as [| b l IH]; intros a; simpl.
  - split; [by left |]. split; [lia |]. intros b Hb. by apply elem_of_nil in Hb.
  - destruct (IH (Z.min a b)) as (Hin & Hle & Hall).
    split; [| split].
    + destruct Hin as [Heq | Hin].
      * destruct (Z.min_spec a b) as [[_ Hm] | [_ Hm]].
        -- left. by rewrite Heq, Hm.
        -- right. rewrite Heq, Hm. apply list_elem_of_here.
      * right. by apply list_elem_of_further.
    + lia.
    + intros c Hc. apply elem_of_cons in Hc as [-> | Hc]; [lia | by apply Hall].
Qed.

Lemma col_min_spec (l : list Z) (a : Z) :
  a ∈ l -> col_min l ∈ l /\ col_min l <= a.
Proof.
  destruct l as [| b l]; [intros H; by apply elem_of_nil in H |].
  intros Ha. simpl. destruct (fold_left_min_spec l b) as (Hin & Hle & Hall). split.
  - destruct Hin as [-> | Hin]; [apply list_elem_of_here | by apply list_elem_of_further].
  - apply elem_of_cons in Ha as [-> | Ha]; [done | by apply Hall].
Qed.

Lemma lookup_map_Some {A B : Type} (f : A -> B) (l : list A) (j : nat) (a : A) :
  l !! j = Some a -> map f l !! j = Some (f a).
Proof.
  revert j. induction l as [| b l IH]; intros [| j] H; simpl in *; try done.
  - by injection H as ->.
  - by apply IH.
Qed.

(** The week of a row counts whole periods of 168 hours from the earliest
    timestamp of the table, starting at 1: row [j] has week [w] exactly
    when its timestamp lies in the [w]-th such period. *)
Theorem week_counts_from_earliest_slot rs staff (j : nat) (dt : Timestamp) :
  map fst rs !! j = Some dt ->
  let first := col_min (map fst rs) in
  exists ws w,
    week (demand_df (Model_of rs staff)) = Some ws /\ ws !! j = Some w /\
    first ∈ map fst rs /\ first <= dt /\
    1 <= w /\ 168 * (w - 1) <= dt - first < 168 * w.
Proof.
  intros Hj first.
  destruct (col_min_spec (map fst rs) dt) as [Hin Hle];
    [by apply list_elem_of_lookup_2 with j |].
  eexists _, _. split; [reflexivity |].
  split.
  { apply (lookup_map_Some _ (map fst rs) j dt Hj). }
  fold first. split; [done |]. split; [done |].
  change (col_min (col_date_time _)) with first.
  fold first in Hle. clearbody first.
  unfold days. Z.to_euclidean_division_equations. lia.
Qed.

Lemma week_counts_from_earliest_slot_witness :
  let first := col_min (map fst [(200, 1); (30, 2); (31, 0)]) in
  exists ws w,
    week (demand_df (Model_of [(200, 1); (30, 2); (31, 0)] [manager])) = Some ws /\
    ws !! 0%nat = Some w /\
    first ∈ map fst [(200, 1); (30, 2); (31, 0)] /\ first <= 200 /\
    1 <= w /\ 168 * (w - 1) <= 200 - first < 168 * w.
Proof.
  apply (week_counts_from_earliest_slot [(200, 1); (30, 2); (31, 0)] [manager] 0 200).
  reflexivity.
Defined.

Lemma odict_lookup_fold_other (rs : list (Timestamp * Z)) (d : odict Z)
  (k : Timestamp) :
  k ∉ map fst rs ->
  odict_lookup (fold_left (fun d '(k, v) => odict_set d k v) rs d) k
  = odict_lookup d k.
Proof.
  revert d. induction rs as [| [k0 v0] rs IH]; intros d Hk; simpl; [done |].
  simpl in Hk. apply not_elem_of_cons in Hk as [Hne Hk].
  rewrite IH by done. rewrite odict_lookup_set.
  by rewrite bool_decide_eq_false_2.
Qed.

Lemma odict_set_fresh {V : Type} (d : odict V) (k : Timestamp) (v : V) :
  k ∉ keys d -> odict_set d k v = d ++ [(k, v)].
Proof.
  induction d as [| [k0 v0] d IH]; intros Hk; simpl; [done |].
  simpl in Hk. apply not_elem_of_cons in Hk as [Hne Hk].
  destruct (Z.eqb_spec k0 k) as [-> | _]; [done |]. by rewrite IH.
Qed.

Lemma fold_odict_set_fresh (rs : list (Timestamp * Z)) (d : odict Z) :
  NoDup (keys d ++ map fst rs) ->
  fold_left (fun d '(k, v) => odict_set d k v) rs d = d ++ rs.
Proof.
  revert d. induction rs as [| [k v] rs IH]; intros d Hnd; simpl.
  - by rewrite app_nil_r.
  - assert (k ∉ keys d) as Hk.
    { apply NoDup_app in Hnd as (_ & Hdisj & _). intros Hin.
      apply (Hdisj k Hin). simpl. apply list_elem_of_here. }
    rewrite odict_set_fresh by done. rewrite IH.
    + by rewrite <- app_assoc.
    + unfold keys. rewrite map_app. simpl. by rewrite <- app_assoc.
Qed.

(** [demand_dict] has one entry per distinct timestamp of the table, and
    for a timestamp that occurs in several rows the demand of the last of
    them; looking up a timestamp that is in no row raises [KeyError]. *)
Theorem demand_dict_last_row_wins rs staff l1 (k : Timestamp) (d : Z) l2 :
  rs = l1 ++ (k, d) :: l2 -> k ∉ map fst l2 ->
  let m := Model_of rs staff in
  odict_get (demand_dict m) k = Ok d /\
  NoDup (keys (demand_dict m)) /\
  (forall k', k' ∈ keys (demand_dict m) <-> k' ∈ map fst rs) /\
  (forall k', k' ∉ map fst rs -> odict_get (demand_dict m) k' = Raise KeyError).
Proof.
  intros -> Hk m. split; [| split; [| split]].
  - unfold m. rewrite Model_of_demand_dict. unfold to_dict, odict_get.
    rewrite fold_left_app. simpl.
    rewrite odict_lookup_fold_other by done.
    rewrite odict_lookup_set. by rewrite bool_decide_eq_true_2.
  - apply NoDup_keys_Model_of.
  - intros k'. unfold m. rewrite Model_of_demand_dict. apply elem_of_keys_to_dict.
  - intros k' Hk'. unfold odict_get.
    destruct (odict_lookup (demand_dict m) k') as [v |] eqn:Hl; [| done].
    exfalso. apply Hk'. unfold m in Hl. rewrite Model_of_demand_dict in Hl.
    apply elem_of_keys_to_dict, odict_lookup_is_Some. eauto.
Qed.

Lemma demand_dict_last_row_wins_witness :
  let m := Model_of [(0, 1); (1, 2); (0, 3); (2, 4)] [manager] in
  odict_get (demand_dict m) 0 = Ok 3 /\
  NoDup (keys (demand_dict m)) /\
  (forall k', k' ∈ keys (demand_dict m)
              <-> k' ∈ map fst [(0, 1); (1, 2); (0, 3); (2, 4)]) /\
  (forall k', k' ∉ map fst [(0, 1); (1, 2); (0, 3); (2, 4)] ->
              odict_get (demand_dict m) k' = Raise KeyError).
Proof.
  apply (demand_dict_last_row_wins [(0, 1); (1, 2); (0, 3); (2, 4)] [manager]
           [(0, 1); (1, 2)] 0 3 [(2, 4)]).
  - reflexivity.
  - simpl. intros H. apply list_elem_of_singleton in H. discriminate H.
Defined.

(** For a table with distinct timestamps [demand_dict] is the table
    itself, row by row and in the same order. *)
Theorem demand_dict_keeps_distinct_rows rs staff :
  NoDup (map fst rs) -> demand_dict (Model_of rs staff) = rs.
Proof.
  intros Hnd. rewrite Model_of_demand_dict. unfold to_dict.
  by rewrite fold_odict_set_fresh.
Qed.

Lemma demand_dict_keeps_distinct_rows_witness :
  demand_dict (Model_of [(5, 1); (3, 2); (4, 0)] [manager]) = [(5, 1); (3, 2); (4, 0)].
Proof.
  apply (demand_dict_keeps_distinct_rows [(5, 1); (3, 2); (4, 0)] [manager]).
  apply (bool_decide_unpack _). vm_compute. exact I.
Defined.

(** ** Runs on degenerate inputs *)

Lemma map_r_raise_head {A B : Type} (f : A -> result B) (a : A) (l : list A) (e : exn) :
  f a = Raise e -> map_r f (a :: l) = Raise e.
Proof. intros H. simpl. by rewrite H. Qed.

Lemma filter_nonzero_nil (d : list (Timestamp * Z)) :
  forallb (fun kv => snd kv =? 0) d = true ->
  filter (fun kv : Timestamp * Z => snd kv <> 0) d = [].
Proof.
  induction d as [| [k z] d IH]; intros H; [done |].
  simpl in H. apply andb_true_iff in H as [Hz Hd]. apply Z.eqb_eq in Hz.
  rewrite filter_cons_False by (simpl; lia). by apply IH.
Qed.

Lemma filter_nonzero_cons (d : list (Timestamp * Z)) :
  forallb (fun kv => snd kv =? 0) d = false ->
  exists kv l, filter (fun kv : Timestamp * Z => snd kv <> 0) d = kv :: l.
Proof.
  induction d as [| [k z] d IH]; intros H; [done |].
  simpl in H. destruct (Z.eqb_spec z 0) as [-> | Hz]; simpl in H.
  - destruct (IH H) as (kv & l & Hl). exists kv, l.
    by rewrite filter_cons_False by (simpl; lia).
  - eexists _, _. by rewrite filter_cons_True by done.
Qed.

Lemma fsum_nil {FA : FloatArith} : fsum [] = 0%Q.
Proof. apply fsum_zeros. constructor. Qed.

(** With an empty staff table the run reaches the objective with no
    variable in any dictionary: it ends in [KeyError] at the first slot of
    nonzero demand, and on a table without such a slot it hands an empty
    model to the engine and reports zero metrics and no shift. *)
Theorem run_without_staff {FA : FloatArith} rs (run : Solver -> Outcome) :
  schedule_shifts (Model_of rs []) (Some run) =
  if forallb (fun kv => snd kv =? 0) (demand_dict (Model_of rs []))
  then Ok (mkMetrics 0 0 (py_round 0 2)
             (match status (run (Minimize CreateSolver (EConst 0))) with
              | OPTIMAL => "optimal"
              | _ => "feasible"
              end)%string [])
  else Raise KeyError.
Proof.
  unfold schedule_shifts, build_model.
  rewrite add_variables_no_staff. cbn [rbind].
  change (add_constraints (Model_of rs []) no_vars CreateSolver) with (Ok CreateSolver).
  cbn [rbind]. unfold objective_expr.
  destruct (forallb _ _) eqn:Hall.
  - match goal with
    | |- context [map fst ?l] =>
        replace l with (@nil (Timestamp * Z))
          by (symmetry; exact (filter_nonzero_nil _ Hall))
    end.
    cbn [map map_r rbind py_sum fold_left].
    unfold solve, sum_solution_values. simpl. rewrite fsum_nil. simpl.
    by destruct (has_solution _).
  - destruct (filter_nonzero_cons _ Hall) as ([k z] & l & Hl).
    match goal with
    | |- context [map fst ?l0] =>
        replace l0 with ((k, z) :: l) by (symmetry; exact Hl)
    end.
    cbn [map fst].
    by rewrite (map_r_raise_head _ k _ KeyError).
Qed.

Lemma for_each_id {A S : Type} (l : list A) (body : A -> S -> result S) (st : S) :
  (forall a, a ∈ l -> body a st = Ok st) -> for_each l body st = Ok st.
Proof.
  induction l as [| a l IH]; intros H; simpl; [done |].
  rewrite (H a) by apply list_elem_of_here. cbn [rbind].
  apply IH. intros b Hb. apply H. by apply list_elem_of_further.
Qed.

Lemma bind_no_slots {A : Type} (l : list A) :
  (a ← l; dt ← @nil Timestamp; [(a, dt)]) = @nil (A * Timestamp).
Proof. induction l as [| a l IH]; [done |]. exact IH. Qed.

(** On a demand table without rows no variable and no constraint is
    created whatever the staff table, the objective is the constant 0,
    and the run reports zero metrics and no shift for every answer of
    the engine. *)
Theorem run_on_empty_demand_table {FA : FloatArith} staff (run : Solver -> Outcome) :
  build_model (Model_of [] staff) = Ok (Minimize CreateSolver (EConst 0), no_vars) /\
  schedule_shifts (Model_of [] staff) (Some run) =
  Ok (mkMetrics 0 0 (py_round 0 2)
        (match status (run (Minimize CreateSolver (EConst 0))) with
         | OPTIMAL => "optimal"
         | _ => "feasible"
         end)%string []).
Proof.
  assert (build_model (Model_of [] staff)
          = Ok (Minimize CreateSolver (EConst 0), no_vars)) as Hb.
  { unfold build_model.
    assert (add_variables (Model_of [] staff) (CreateSolver, no_vars)
            = Ok (CreateSolver, no_vars)) as ->.
    { unfold add_variables. by apply for_each_id. }
    cbn [rbind].
    assert (add_constraints (Model_of [] staff) no_vars CreateSolver
            = Ok CreateSolver) as ->.
    { unfold add_constraints. by apply for_each_id. }
    reflexivity. }
  split; [done |].
  unfold schedule_shifts. rewrite Hb. cbn [rbind].
  set (o := run _). unfold solve.
  assert (for_each (seq 0 (M (Model_of [] staff)))
            (decode_staff (Model_of [] staff) no_vars o) (mkDecode [] [] 0%Q)
          = Ok (mkDecode [] [] 0%Q)) as Hdec.
  { apply for_each_id. intros i Hi. apply elem_of_seq in Hi as [_ Hi].
    rewrite Model_of_M in Hi. simpl in Hi. unfold decode_staff.
    rewrite Model_of_staff_df.
    destruct (lookup_lt_is_Some_2 staff i Hi) as [st Hst].
    unfold iloc. by rewrite Hst. }
  assert ((if has_solution (status o)
           then for_each (seq 0 (M (Model_of [] staff)))
                  (decode_staff (Model_of [] staff) no_vars o) (mkDecode [] [] 0%Q)
           else Ok (mkDecode [] [] 0%Q)) = Ok (mkDecode [] [] 0%Q)) as ->.
  { rewrite Hdec. by destruct (has_solution _). }
  cbn [rbind]. unfold sum_solution_values.
  change (keys (demand_dict (Model_of [] staff))) with (@nil Timestamp).
  rewrite bind_no_slots. simpl. rewrite fsum_nil. reflexivity.
Qed.

(** ** The other constraints that [add_constraints] adds *)

Lemma additional_rest_dts_Ok m dt l :
  (if Nat.eqb
        (length (window m (dt + 1) (dt + (MIN_SHIFT_HOURS + MIN_REST_HOURS - 1))))
        0
   then Ok []
   else
     let* last_rest_dt :=
       py_max (window m (dt + 1) (dt + (MIN_SHIFT_HOURS + MIN_REST_HOURS - 1))) in
     get_subset_dts m (last_rest_dt + 1) (last_rest_dt + MIN_REST_HOURS)
                    (Some MIN_REST_HOURS)) = Ok l ->
  l = additional_rest_dts m dt.
Proof.
  unfold additional_rest_dts.
  destruct (window m (dt + 1) _) as [| a w]; cbn [length Nat.eqb py_max rbind].
  - by intros [= <-].
  - intros H. by apply get_subset_dts_Ok in H.
Qed.

Lemma has_ot_mono v i j dt o odt (cs cs' : list MPConstraint) :
  (forall c, c ∈ cs -> c ∈ cs') -> has_ot v i j dt o odt cs -> has_ot v i j dt o odt cs'.
Proof.
  intros Hsub (h1 & h2 & h3 & ? & ? & ? & ?). exists h1, h2, h3. eauto.
Qed.

Lemma has_extra_rest_mono v i j o odt r (cs cs' : list MPConstraint) :
  (forall c, c ∈ cs -> c ∈ cs') ->
  has_extra_rest v i j o odt r cs -> has_extra_rest v i j o odt r cs'.
Proof. intros Hsub (h1 & h2 & ? & ? & ?). exists h1, h2. eauto. Qed.

Lemma has_overtime_flags_mono m v i j dt (cs cs' : list MPConstraint) :
  (forall c, c ∈ cs -> c ∈ cs') -> has_overtime_flags m v i j dt cs ->
  has_overtime_flags m v i j dt cs'.
Proof.
  intros Hsub (bd & last & ? & ? & Hall). exists bd, last.
  split; [done |]. split; [done |]. intros o odt Ho.
  destruct (Hall o odt Ho) as [Hot Hrest]. split.
  - by eapply has_ot_mono.
  - intros r Hr. eapply has_extra_rest_mono; [done |]. by apply Hrest.
Qed.

Lemma has_max_per_day_mono m v i j (cs cs' : list MPConstraint) :
  (forall c, c ∈ cs -> c ∈ cs') -> has_max_per_day m v i j cs ->
  has_max_per_day m v i j cs'.
Proof. intros Hsub (bd & hs & ? & ? & ?). exists bd, hs. eauto. Qed.

Lemma has_dc_mono m v j dt (cs cs' : list MPConstraint) :
  (forall c, c ∈ cs -> c ∈ cs') -> has_dc m v j dt cs -> has_dc m v j dt cs'.
Proof.
  intros Hsub (hs & h1 & h2 & d & ? & ? & ? & ? & ?).
  exists hs, h1, h2, d. eauto 10.
Qed.

Lemma slot_content_rest_mono m v i j dt (cs cs' : list MPConstraint) :
  (forall c, c ∈ cs -> c ∈ cs') -> slot_content_rest m v i j dt cs ->
  slot_content_rest m v i j dt cs'.
Proof.
  intros Hsub (Ho & Hd & Hdc). split; [| split].
  - by eapply has_overtime_flags_mono.
  - by eapply has_max_per_day_mono.
  - intros Hlast. eapply has_dc_mono; [done |]. by apply Hdc.
Qed.

Lemma add_overtime_constraints_flags m v i j dt rest o overtime_dt s s' :
  add_overtime_constraints v i j dt rest o overtime_dt s = Ok s' ->
  extends m s s' /\
  has_ot v i j dt o overtime_dt (constraints s') /\
  forall r, rest !! o = Some r ->
            has_extra_rest v i j o overtime_dt r (constraints s').
Proof.
  intros H. pose proof (add_overtime_constraints_inv m _ _ _ _ _ _ _ _ _ H) as [X _].
  split; [done |].
  unfold add_overtime_constraints in H.
  repeat step_bind H. apply getitem_Ok in E, E0, E1, E2.
  set (s1 := Add s _ GE _ (Cconsecutive i j o)) in H.
  set (s2 := Add s1 _ GE _ (Cot i j o)) in H.
  assert (has_ot v i j dt o overtime_dt (constraints s2)) as Hot.
  { exists a2, a0, a1. repeat split; try done. apply elem_of_Add. }
  destruct (Nat.leb_spec (o + 1) (length rest)) as [Hlen | Hlen].
  - repeat step_bind H. injection H as <-.
    apply getitem_Ok in E4. unfold iloc in E3.
    split.
    + eapply has_ot_mono; [| done]. intros c. apply (extends_elem_of m).
      by apply extends_Add.
    + intros r Hr. rewrite Hr in E3. injection E3 as <-.
      exists a2, a4. repeat split; try done. apply elem_of_Add.
  - injection H as <-. split; [done |].
    intros r Hr. apply lookup_lt_Some in Hr. lia.
Qed.

Lemma add_slot_constraints_rest m v i j dt s ls s' ls' :
  add_slot_constraints m v i j dt (s, ls) = Ok (s', ls') ->
  slot_content_rest m v i j dt (constraints s').
Proof.
  unfold add_slot_constraints. intros H.
  bind_in H as bd Ebd.
  bind_in H as past_dts Epast.
  bind_in H as h_x Ehx.
  bind_in H as hs_past Ehp.
  bind_in H as rest_dts Erest. apply get_subset_dts_Ok in Erest as ->.
  bind_in H as hs_rest Ehr.
  bind_in H as h_start Ehs.
  bind_in H as shift_dts Eshift. apply get_subset_dts_Ok in Eshift as ->.
  bind_in H as hs_shift Ehsh.
  bind_in H as last_shift_dt Emax.
  bind_in H as pot Epot. apply get_subset_dts_Ok in Epot as ->.
  bind_in H as add_rest Eadd. apply additional_rest_dts_Ok in Eadd as ->.
  bind_in H as s4 Eloop.
  bind_in H as other Eother. apply get_subset_dts_Ok in Eother as ->.
  bind_in H as hs_other Eho. apply map_r_getitem in Eho.
  bind_in H as p Elink. destruct p as [s6 ls6].
  set (s5 := Add s4 _ LE _ (Cmax_per_day i j)) in *.
  assert (extends m s4 s5) as X5 by by apply extends_Add.
  (* the loop over potential overtime hours *)
  pose proof (for_each_inv
    (fun (done : list (nat * Timestamp)) (s' : Solver) =>
       forall o odt, (o, odt) ∈ done ->
         has_ot v i j dt o odt (constraints s') /\
         forall r, additional_rest_dts m dt !! o = Some r ->
                   has_extra_rest v i j o odt r (constraints s'))
    _ _ [] _ _ Eloop) as Hloop.
  simpl in Hloop.
  assert (forall o odt,
            potential_overtime_dts m bd last_shift_dt !! o = Some odt ->
            has_ot v i j dt o odt (constraints s4) /\
            forall r, additional_rest_dts m dt !! o = Some r ->
                      has_extra_rest v i j o odt r (constraints s4)) as Hflags.
  { intros o odt Ho. apply Hloop; [| | by apply elem_of_enumerate].
    - intros o' odt' Ho'. by apply elem_of_nil in Ho'.
    - intros d [o1 odt1] sa sb Ha _ Hbody.
      apply (add_overtime_constraints_flags m) in Hbody as (Xb & Hot & Hrest).
      intros o' odt' Ho'. apply elem_of_app in Ho' as [Ho' | Ho'].
      + destruct (Ha o' odt' Ho') as [Hot' Hrest']. split.
        * eapply has_ot_mono; [| done]. intros c. by apply (extends_elem_of m).
        * intros r Hr. eapply has_extra_rest_mono; [| by apply Hrest'].
          intros c. by apply (extends_elem_of m).
      + apply list_elem_of_singleton in Ho'. by injection Ho' as -> ->. }
  (* linking x with x_day *)
  assert (extends m s5 s6) as X6.
  { destruct (bool_decide _); [| injection Elink as <- <-; apply extends_refl].
    bind_in Elink as days Edays.
    destruct (_ >? _) eqn:Hlong; [| injection Elink as <- <-; apply extends_refl].
    repeat step_bind Elink. injection Elink as <- <-.
    apply extends_Add. simpl. exists days. split; [done | lia]. }
  assert (has_overtime_flags m v i j dt (constraints s6) /\
          has_max_per_day m v i j (constraints s6)) as [Hov Hday].
  { split.
    - exists bd, last_shift_dt. split; [done |]. split; [done |].
      intros o odt Ho. destruct (Hflags o odt Ho) as [Hot Hrest]. split.
      + eapply has_ot_mono; [| done]. intros c Hc.
        apply (extends_elem_of m s5); [done |]. by apply (extends_elem_of m s4).
      + intros r Hr. eapply has_extra_rest_mono; [| by apply Hrest].
        intros c Hc.
        apply (extends_elem_of m s5); [done |]. by apply (extends_elem_of m s4).
    - exists bd, hs_other. split; [done |]. split; [done |].
      apply (extends_elem_of m s5); [done |]. apply elem_of_Add. }
  destruct (is_last_staff m i) eqn:Hlast.
  - bind_in H as hs_all Eall. bind_in H as h_y1 Ey1. bind_in H as h_y2 Ey2.
    bind_in H as d Ed. injection H as <- <-.
    apply getitem_Ok in Ey1, Ey2.
    assert (Forall2 (fun s h => x v !! (s, dt) = Some h) (seq 0 (M m)) hs_all)
      as Hall.
    { apply map_r_Ok in Eall. eapply Forall2_impl; [exact Eall |].
      intros s0 h. by rewrite getitem_Ok. }
    set (s7 := Add s6 _ GE _ (Cdc j)).
    assert (extends m s6 s7) as X7 by by apply extends_Add.
    split; [| split].
    + eapply has_overtime_flags_mono; [| done].
      intros c. by apply (extends_elem_of m).
    + eapply has_max_per_day_mono; [| done].
      intros c. by apply (extends_elem_of m).
    + intros _. exists hs_all, h_y1, h_y2, d. repeat split; try done.
      apply elem_of_Add.
  - injection H as <- <-. split; [done |]. split; [done |].
    intros Hl. congruence.
Qed.

(** A property of the constraints that one pass of the loop over slots
    establishes, and that later constraints do not undo, holds of every
    staff member and slot at the end of [add_constraints]. *)
Section SlotPass.

Variable m : Model.
Variable v : Vars.
Variable P : nat -> nat -> Timestamp -> list MPConstraint -> Prop.

Hypothesis P_mono :
  forall i j dt (cs cs' : list MPConstraint),
    (forall c, c ∈ cs -> c ∈ cs') -> P i j dt cs -> P i j dt cs'.
Hypothesis P_step :
  forall i j dt s ls s' ls',
    add_slot_constraints m v i j dt (s, ls) = Ok (s', ls') ->
    P i j dt (constraints s').

Lemma add_staff_constraints_pass i s s' :
  add_staff_constraints m v i s = Ok s' ->
  forall j dt, keys (demand_dict m) !! j = Some dt -> P i j dt (constraints s').
Proof.
  unfold add_staff_constraints. intros H.
  bind_in H as p Eslots. destruct p as [s1 ls1].
  bind_in H as weeks Ew.
  pose proof (for_each_inv
    (fun (done : list (nat * Timestamp)) (st : Solver * option Timestamp) =>
       forall j dt, (j, dt) ∈ done -> P i j dt (constraints (fst st)))
    _ _ [] _ _ Eslots) as Hslots.
  simpl in Hslots.
  pose proof (for_each_inv
    (fun (done : list Z) (s' : Solver) => extends m s1 s')
    _ _ [] _ _ H) as X2.
  simpl in X2.
  assert (extends m s1 s') as X3.
  { apply X2; [apply extends_refl |].
    intros d w sa sb Xa _ Hbody. apply add_week_constraint_inv in Hbody.
    by eapply extends_trans. }
  intros j dt Hj. eapply P_mono.
  - intros c. by apply (extends_elem_of m s1).
  - apply Hslots; [| | by apply elem_of_enumerate].
    + intros j' dt' Hj'. by apply elem_of_nil in Hj'.
    + intros d [j1 dt1] [sa la] [sb lb] Ha _ Hbody. simpl in *.
      pose proof (add_slot_constraints_inv _ _ _ _ _ _ _ _ _ Hbody) as [Xb _].
      intros j' dt' Hj'. apply elem_of_app in Hj' as [Hj' | Hj'].
      * eapply P_mono; [| by apply Ha]. intros c. by apply (extends_elem_of m).
      * apply list_elem_of_singleton in Hj'. injection Hj' as -> ->.
        by eapply P_step.
Qed.

Lemma add_constraints_pass s s' :
  add_constraints m v s = Ok s' ->
  forall i j dt, (i < M m)%nat -> keys (demand_dict m) !! j = Some dt ->
                 P i j dt (constraints s').
Proof.
  unfold add_constraints. intros H.
  pose proof (for_each_inv
    (fun (done : list nat) (s' : Solver) =>
       forall i j dt, i ∈ done -> keys (demand_dict m) !! j = Some dt ->
                      P i j dt (constraints s'))
    _ _ [] _ _ H) as Hall.
  simpl in Hall.
  intros i j dt Hi Hj. apply Hall; [| | apply elem_of_seq; lia | done].
  - intros i' j' dt' Hi'. by apply elem_of_nil in Hi'.
  - intros d i1 sa sb Ha _ Hbody.
    pose proof (add_staff_constraints_inv _ _ _ _ _ Hbody) as [Xb _].
    intros i' j' dt' Hi' Hj'. apply elem_of_app in Hi' as [Hi' | Hi'].
    + eapply P_mono; [| by apply Ha]. intros c. by apply (extends_elem_of m).
    + apply list_elem_of_singleton in Hi' as ->.
      by apply (add_staff_constraints_pass _ _ _ Hbody).
Qed.

End SlotPass.

Lemma built_slot_content_rest rs staff s v i j dt :
  build_model (Model_of rs staff) = Ok (s, v) ->
  (i < length staff)%nat -> keys (to_dict rs) !! j = Some dt ->
  slot_content_rest (Model_of rs staff) v i j dt (constraints s).
Proof.
  intros Hb Hi Hj.
  destruct (build_model_inv _ _ _ _ Hb)
    as (s1 & s2 & obj & _ & Hcons & _ & _ & _ & _ & _ & _ & Hcs).
  rewrite Hcs.
  apply (add_constraints_pass (Model_of rs staff) v
           (slot_content_rest (Model_of rs staff) v)
           (slot_content_rest_mono _ _)
           (add_slot_constraints_rest _ _) s1 s2 Hcons i j dt); done.
Qed.

(** With distinct timestamps, the slot at which a timestamp is processed
    is the row of the table that holds it. *)
Lemma distinct_slot_content rs staff s v i dt :
  NoDup (map fst rs) ->
  build_model (Model_of rs staff) = Ok (s, v) ->
  (i < length staff)%nat -> dt ∈ map fst rs ->
  exists j,
    iloc_bus_day (Model_of rs staff) j = Ok (date dt) /\
    slot_content (Model_of rs staff) v i j dt (constraints s) /\
    slot_content_rest (Model_of rs staff) v i j dt (constraints s).
Proof.
  intros Hnd Hb Hi Hdt. apply list_elem_of_lookup in Hdt as [j Hj]. exists j.
  split; [by apply iloc_bus_day_Model_of |].
  assert (keys (to_dict rs) !! j = Some dt) as Hk
    by by rewrite keys_to_dict_NoDup.
  split.
  - by apply (built_slot_content rs staff s v i j dt Hb Hi).
  - by apply (built_slot_content_rest rs staff s v i j dt Hb Hi).
Qed.

(** ** What the constraints mean for a feasible assignment *)

Lemma total_ge_elem a hs h :
  (forall h, h ∈ hs -> (0 <= a h)%Q) -> h ∈ hs -> (a h <= total a hs)%Q.
Proof.
  induction hs as [| h0 hs IH]; intros Hall Hin; [by apply elem_of_nil in Hin |].
  simpl.
  assert (0 <= a h0)%Q by (apply Hall, list_elem_of_here).
  assert (0 <= total a hs)%Q.
  { apply total_nonneg. intros h' Hh'. apply Hall. by apply list_elem_of_further. }
  apply elem_of_cons in Hin as [-> | Hin]; [lra |].
  assert (a h <= total a hs)%Q; [| lra].
  apply IH; [| done]. intros h' Hh'. apply Hall. by apply list_elem_of_further.
Qed.

Lemma total_two a hs (n n' : nat) h h' :
  (forall h, h ∈ hs -> (0 <= a h)%Q) ->
  hs !! n = Some h -> hs !! n' = Some h' -> n <> n' ->
  (a h + a h' <= total a hs)%Q.
Proof.
  revert n n'. induction hs as [| h0 hs IH]; intros n n' Hall Hn Hn' Hne;
    [done |].
  assert (forall h, h ∈ hs -> (0 <= a h)%Q) as Hall'.
  { intros h1 Hh1. apply Hall. by apply list_elem_of_further. }
  assert (0 <= a h0)%Q by (apply Hall, list_elem_of_here).
  simpl. destruct n as [| n], n' as [| n']; simpl in Hn, Hn'; [done | | |].
  - injection Hn as ->.
    assert (a h' <= total a hs)%Q; [| lra].
    apply total_ge_elem; [done |]. by apply list_elem_of_lookup_2 with n'.
  - injection Hn' as ->.
    assert (a h <= total a hs)%Q; [| lra].
    apply total_ge_elem; [done |]. by apply list_elem_of_lookup_2 with n.
  - assert (a h + a h' <= total a hs)%Q; [| lra].
    apply (IH n n'); try done. lia.
Qed.

(** A staff member who works at a slot has started a shift on the same
    business day, at that slot or at most [MAX_SHIFT_HOURS - 1] hours
    before it. *)
Theorem work_needs_a_start_on_the_same_day rs staff s v a i u :
  NoDup (map fst rs) ->
  build_model (Model_of rs staff) = Ok (s, v) -> feasible s a ->
  (i < length staff)%nat -> u ∈ map fst rs -> works_at v a i u ->
  exists p, p ∈ map fst rs /\ starts_at v a i p /\ date p = date u /\
            u - (MAX_SHIFT_HOURS - 1) <= p <= u.
Proof.
  intros Hnd Hb Hf Hi Hu Hwk.
  destruct (distinct_slot_content rs staff s v i u Hnd Hb Hi Hu)
    as (j & Hbd & (Hpast & _) & _).
  destruct (build_model_inv _ _ _ _ Hb) as (_ & _ & _ & _ & _ & _ & Hok & _).
  destruct (past_needs_start _ _ _ _ _ _ _ _ Hok Hf Hpast Hwk)
    as (bd & p & Hbd' & Hp & Hsp).
  rewrite Hbd in Hbd'. injection Hbd' as <-.
  apply elem_of_window in Hp as [Hr Hk].
  rewrite Model_of_demand_dict, elem_of_keys_to_dict in Hk.
  exists p. split; [done |]. split; [done |].
  unfold to_datetime_date, date, MAX_SHIFT_HOURS in *.
  split; [Z.to_euclidean_division_equations |]; lia.
Qed.

Lemma work_needs_a_start_on_the_same_day_witness :
  exists p, p ∈ map fst (hourly_rows 0 24 3) /\
            starts_at (snd one_day_built) (value one_day_outcome) 0 p /\
            date p = date 15 /\ 15 - (MAX_SHIFT_HOURS - 1) <= p <= 15.
Proof.
  apply (work_needs_a_start_on_the_same_day (hourly_rows 0 24 3) [manager]
           (fst one_day_built) (snd one_day_built) (value one_day_outcome) 0%nat 15).
  - apply (bool_decide_unpack _). vm_compute. exact I.
  - exact one_day_built_eq.
  - exact one_day_feasible.
  - simpl. lia.
  - apply (bool_decide_unpack _). vm_compute. exact I.
  - eexists. split; vm_compute; reflexivity.
Defined.

(** A staff member who starts a shift at a slot works at every slot of
    the table in the [MIN_SHIFT_HOURS] hours from that slot on. *)
Theorem start_works_the_minimum_shift rs staff s v a i t u :
  NoDup (map fst rs) ->
  build_model (Model_of rs staff) = Ok (s, v) -> feasible s a ->
  (i < length staff)%nat -> t ∈ map fst rs -> u ∈ map fst rs ->
  starts_at v a i t -> t <= u <= t + (MIN_SHIFT_HOURS - 1) ->
  works_at v a i u.
Proof.
  intros Hnd Hb Hf Hi Ht Hu (h & Hh & H1) Hr.
  destruct (distinct_slot_content rs staff s v i t Hnd Hb Hi Ht)
    as (j & _ & (_ & _ & Hmin & _) & _).
  destruct (build_model_inv _ _ _ _ Hb) as (_ & _ & _ & _ & _ & _ & Hok & Hcomp & _).
  destruct (Hcomp i Hi) as [Hslots _]. destruct (Hslots u Hu) as (_ & [hx Hhx] & _).
  exists hx. split; [done |].
  eapply (min_shift_works _ staff s v a i j t h u hx); try done.
  apply elem_of_window. split; [done |].
  by rewrite Model_of_demand_dict, elem_of_keys_to_dict.
Qed.

Lemma start_works_the_minimum_shift_witness :
  works_at (snd one_day_built) (value one_day_outcome) 0 18.
Proof.
  apply (start_works_the_minimum_shift (hourly_rows 0 24 3) [manager]
           (fst one_day_built) (snd one_day_built) (value one_day_outcome)
           0%nat 10 18).
  - apply (bool_decide_unpack _). vm_compute. exact I.
  - exact one_day_built_eq.
  - exact one_day_feasible.
  - simpl. lia.
  - apply (bool_decide_unpack _). vm_compute. exact I.
  - apply (bool_decide_unpack _). vm_compute. exact I.
  - eexists. split; vm_compute; reflexivity.
  - unfold MIN_SHIFT_HOURS. lia.
Defined.

(** No staff member starts two shifts on the same business day. *)
Theorem one_shift_start_per_business_day rs staff s v a i t t' :
  NoDup (map fst rs) ->
  build_model (Model_of rs staff) = Ok (s, v) -> feasible s a ->
  (i < length staff)%nat -> t ∈ map fst rs -> t' ∈ map fst rs ->
  starts_at v a i t -> t' <> t -> date t' = date t -> ~ starts_at v a i t'.
Proof.
  intros Hnd Hb Hf Hi Ht Ht' (h & Hh & H1) Hdiff Hday (h' & Hh' & H1').
  destruct (distinct_slot_content rs staff s v i t Hnd Hb Hi Ht)
    as (j & Hbd & _ & (_ & Hmax & _)).
  destruct (build_model_inv _ _ _ _ Hb) as (_ & _ & _ & _ & _ & _ & Hok & _).
  destruct Hmax as (bd & hs & Hbd' & Hhs & Hc).
  rewrite Hbd in Hbd'. injection Hbd' as <-.
  pose proof (proj2 Hf _ Hc) as Hholds. unfold holds in Hholds. simpl in Hholds.
  rewrite eval_py_sum in Hholds.
  set (w := window (Model_of rs staff) (to_datetime_date (date t))
                   (to_datetime_date (date t) + 23)) in *.
  assert (t ∈ w /\ t' ∈ w) as [Hin Hin'].
  { split; apply elem_of_window;
      (split; [| by rewrite Model_of_demand_dict, elem_of_keys_to_dict]);
      unfold to_datetime_date, date in *; Z.to_euclidean_division_equations; lia. }
  apply list_elem_of_lookup in Hin as [n Hn].
  apply list_elem_of_lookup in Hin' as [n' Hn'].
  destruct (Forall2_lookup_l _ _ _ _ _ Hhs Hn) as (h0 & Hh0 & Hd0).
  destruct (Forall2_lookup_l _ _ _ _ _ Hhs Hn') as (h0' & Hh0' & Hd0').
  same_handle Hd0 Hh. same_handle Hd0' Hh'.
  destruct (decide (n = n')) as [-> | Hne]; [congruence |].
  assert (a h0 + a h0' <= total a hs)%Q as Htwo.
  { apply (total_two a hs n n'); try done.
    intros h2 Hh2. destruct (handles_elem_of _ _ _ _ _ Hhs Hh2) as (dt2 & _ & Hd2).
    destruct (start_value _ _ _ _ _ _ Hok Hf Hd2) as [-> | ->]; lra. }
  rewrite H1, H1' in Htwo. unfold MAX_SHIFTS_PER_DAY in Hholds.
  change (inject_Z 1) with 1%Q in Hholds. lra.
Qed.

Lemma one_shift_start_per_business_day_witness :
  ~ starts_at (snd one_day_built) (value one_day_outcome) 0 0.
Proof.
  apply (one_shift_start_per_business_day (hourly_rows 0 24 3) [manager]
           (fst one_day_built) (snd one_day_built) (value one_day_outcome)
           0%nat 10 0).
  - apply (bool_decide_unpack _). vm_compute. exact I.
  - exact one_day_built_eq.
  - exact one_day_feasible.
  - simpl. lia.
  - apply (bool_decide_unpack _). vm_compute. exact I.
  - apply (bool_decide_unpack _). vm_compute. exact I.
  - eexists. split; vm_compute; reflexivity.
  - lia.
  - reflexivity.
Defined.

(** At every slot the staff working and the two shortfall variables
    together reach the demand of the slot. *)
Theorem staff_and_shortfall_reach_demand rs staff s v a dt d :
  build_model (Model_of rs staff) = Ok (s, v) -> feasible s a ->
  staff <> [] -> odict_get (demand_dict (Model_of rs staff)) dt = Ok d ->
  exists hs h_y1 h_y2,
    Forall2 (fun i h => x v !! (i, dt) = Some h) (seq 0 (length staff)) hs /\
    y1 v !! dt = Some h_y1 /\ y2 v !! dt = Some h_y2 /\
    (inject_Z d <= total a hs + a h_y1 + a h_y2)%Q.
Proof.
  intros Hb Hf Hne Hd.
  destruct (is_last_staff_last rs staff Hne) as [Hlast Hlt].
  assert (dt ∈ keys (to_dict rs)) as Hk.
  { apply odict_lookup_is_Some. unfold odict_get in Hd.
    rewrite Model_of_demand_dict in Hd.
    destruct (odict_lookup (to_dict rs) dt); [eauto | discriminate Hd]. }
  apply list_elem_of_lookup in Hk as [j Hj].
  destruct (built_slot_content_rest rs staff s v _ j dt Hb Hlt Hj) as (_ & _ & Hdc).
  destruct (Hdc Hlast) as (hs & h1 & h2 & d' & Hhs & Hh1 & Hh2 & Hd' & Hc).
  rewrite Hd in Hd'. injection Hd' as <-.
  rewrite Model_of_M in Hhs.
  exists hs, h1, h2. repeat split; try done.
  pose proof (proj2 Hf _ Hc) as Hholds. unfold holds in Hholds. simpl in Hholds.
  by rewrite eval_py_sum in Hholds.
Qed.

Lemma staff_and_shortfall_reach_demand_witness :
  exists hs h_y1 h_y2,
    Forall2 (fun i h => x (snd one_day_built) !! (i, 12) = Some h)
            (seq 0 (length [manager])) hs /\
    y1 (snd one_day_built) !! 12 = Some h_y1 /\
    y2 (snd one_day_built) !! 12 = Some h_y2 /\
    (inject_Z 3 <= total (value one_day_outcome) hs
                   + value one_day_outcome h_y1 + value one_day_outcome h_y2)%Q.
Proof.
  apply (staff_and_shortfall_reach_demand (hourly_rows 0 24 3) [manager]
           (fst one_day_built) (snd one_day_built) (value one_day_outcome) 12 3).
  - exact one_day_built_eq.
  - exact one_day_feasible.
  - discriminate.
  - vm_compute. reflexivity.
Defined.

Lemma overtime_flag_value rs staff s v a i t last u :
  NoDup (map fst rs) ->
  build_model (Model_of rs staff) = Ok (s, v) -> feasible s a ->
  (i < length staff)%nat -> t ∈ map fst rs ->
  py_max (window (Model_of rs staff) t (t + (MIN_SHIFT_HOURS - 1))) = Ok last ->
  u ∈ potential_overtime_dts (Model_of rs staff) (date t) last ->
  starts_at v a i t -> works_at v a i u ->
  exists h, x_ot v !! (i, u) = Some h /\ (a h == 1)%Q.
Proof.
  intros Hnd Hb Hf Hi Ht Hlast Hu (hs & Hhs & Hs1) (hx & Hhx & Hx1).
  destruct (distinct_slot_content rs staff s v i t Hnd Hb Hi Ht)
    as (j & Hbd & _ & (Hflags & _)).
  destruct (build_model_inv _ _ _ _ Hb) as (_ & _ & _ & _ & _ & _ & Hok & _).
  destruct Hflags as (bd & last' & Hbd' & Hlast' & Hall).
  rewrite Hbd in Hbd'. injection Hbd' as <-.
  rewrite Hlast in Hlast'. injection Hlast' as <-.
  apply list_elem_of_lookup in Hu as [o Ho].
  destruct (Hall o u Ho) as [(h_ot & hs' & hx' & Hot & Hhs' & Hhx' & Hc) _].
  same_handle Hhs' Hhs. same_handle Hhx' Hhx.
  exists h_ot. split; [done |].
  pose proof (proj2 Hf _ Hc) as Hholds. unfold holds in Hholds. simpl in Hholds.
  rewrite Hs1, Hx1 in Hholds.
  destruct (feasible_at_handle s a h_ot _ Hf (ok_ot _ _ _ Hok _ _ Hot))
    as (var & (Hlb & _ & Hub) & (_ & Ru & _)).
  destruct (lookup_lt_is_Some_2 staff i Hi) as [st Hst].
  rewrite (Hub st Hst) in Ru.
  assert (a h_ot <= 1)%Q.
  { destruct (_ || _); [change (inject_Z 0) with 0%Q in Ru; lra | done]. }
  lra.
Qed.

(** A potential overtime hour that is worked in a shift is flagged as
    overtime: when staff [i] starts at [t] and works at a slot [u] among
    the potential overtime hours of [t], [x_ot[i][u]] is 1. *)
Theorem worked_overtime_hour_is_flagged rs staff s v a i t last u :
  NoDup (map fst rs) ->
  build_model (Model_of rs staff) = Ok (s, v) -> feasible s a ->
  (i < length staff)%nat -> t ∈ map fst rs ->
  py_max (window (Model_of rs staff) t (t + (MIN_SHIFT_HOURS - 1))) = Ok last ->
  u ∈ potential_overtime_dts (Model_of rs staff) (date t) last ->
  starts_at v a i t -> works_at v a i u ->
  exists h, x_ot v !! (i, u) = Some h /\ (a h == 1)%Q.
Proof. apply overtime_flag_value. Qed.

Lemma worked_overtime_hour_is_flagged_witness :
  exists h, x_ot (snd one_day_built) !! (0%nat, 20) = Some h /\
            (value one_day_outcome h == 1)%Q.
Proof.
  apply (worked_overtime_hour_is_flagged (hourly_rows 0 24 3) [manager]
           (fst one_day_built) (snd one_day_built) (value one_day_outcome)
           0%nat 10 18 20).
  - apply (bool_decide_unpack _). vm_compute. exact I.
  - exact one_day_built_eq.
  - exact one_day_feasible.
  - simpl. lia.
  - apply (bool_decide_unpack _). vm_compute. exact I.
  - vm_compute. reflexivity.
  - apply (bool_decide_unpack _). vm_compute. exact I.
  - eexists. split; vm_compute; reflexivity.
  - eexists. split; vm_compute; reflexivity.
Defined.

(** A staff member whose role is in [ROLE_OT_PROHIBITED] works at none
    of the potential overtime hours of a shift they start. *)
Theorem prohibited_roles_work_no_overtime rs staff s v a i st t last u :
  NoDup (map fst rs) ->
  build_model (Model_of rs staff) = Ok (s, v) -> feasible s a ->
  staff !! i = Some st -> ot_prohibited (role st) = true ->
  t ∈ map fst rs ->
  py_max (window (Model_of rs staff) t (t + (MIN_SHIFT_HOURS - 1))) = Ok last ->
  u ∈ potential_overtime_dts (Model_of rs staff) (date t) last ->
  starts_at v a i t -> ~ works_at v a i u.
Proof.
  intros Hnd Hb Hf Hst Hrole Ht Hlast Hu Hstart Hwork.
  assert (i < length staff)%nat as Hi by by eapply lookup_lt_Some.
  destruct (build_model_inv _ _ _ _ Hb) as (_ & _ & _ & _ & _ & _ & Hok & _).
  destruct (overtime_flag_value _ _ _ _ _ _ _ _ _
              Hnd Hb Hf Hi Ht Hlast Hu Hstart Hwork) as (h & Hh & H1).
  destruct (feasible_at_handle s a h _ Hf (ok_ot _ _ _ Hok _ _ Hh))
    as (var & (_ & _ & Hub) & (_ & Ru & _)).
  rewrite (Hub st Hst), Hrole in Ru. simpl in Ru.
  change (inject_Z 0) with 0%Q in Ru. lra.
Qed.

Lemma branch_day_built_eq :
  build_model (Model_of (hourly_rows 0 24 3) [branch_manager]) = Ok branch_day_built.
Proof. vm_compute. reflexivity. Defined.

Lemma branch_day_feasible :
  feasible (fst branch_day_built) (value branch_day_outcome).
Proof. apply feasibleb_sound. vm_compute. reflexivity. Defined.

Lemma prohibited_roles_work_no_overtime_witness :
  ~ works_at (snd branch_day_built) (value branch_day_outcome) 0 19.
Proof.
  apply (prohibited_roles_work_no_overtime (hourly_rows 0 24 3) [branch_manager]
           (fst branch_day_built) (snd branch_day_built) (value branch_day_outcome)
           0%nat branch_manager 10 18 19).
  - apply (bool_decide_unpack _). vm_compute. exact I.
  - exact branch_day_built_eq.
  - exact branch_day_feasible.
  - reflexivity.
  - reflexivity.
  - apply (bool_decide_unpack _). vm_compute. exact I.
  - vm_compute. reflexivity.
  - apply (bool_decide_unpack _). vm_compute. exact I.
  - eexists. split; vm_compute; reflexivity.
Defined.

(** Overtime lengthens the rest: when the [o]-th potential overtime hour
    of a slot is flagged as overtime for a staff member, that staff
    member starts no shift at the [o]-th slot after the rest window of
    the slot. *)
Theorem overtime_hour_blocks_a_later_start rs staff s v a i t last o u r :
  NoDup (map fst rs) ->
  build_model (Model_of rs staff) = Ok (s, v) -> feasible s a ->
  (i < length staff)%nat -> t ∈ map fst rs ->
  py_max (window (Model_of rs staff) t (t + (MIN_SHIFT_HOURS - 1))) = Ok last ->
  potential_overtime_dts (Model_of rs staff) (date t) last !! o = Some u ->
  additional_rest_dts (Model_of rs staff) t !! o = Some r ->
  (exists h, x_ot v !! (i, u) = Some h /\ (a h == 1)%Q) ->
  ~ starts_at v a i r.
Proof.
  intros Hnd Hb Hf Hi Ht Hlast Hu Hr (h & Hh & H1) (hr & Hhr & Hr1).
  destruct (distinct_slot_content rs staff s v i t Hnd Hb Hi Ht)
    as (j & Hbd & _ & (Hflags & _)).
  destruct Hflags as (bd & last' & Hbd' & Hlast' & Hall).
  rewrite Hbd in Hbd'. injection Hbd' as <-.
  rewrite Hlast in Hlast'. injection Hlast' as <-.
  destruct (Hall o u Hu) as [_ Hrest].
  destruct (Hrest r Hr) as (h' & hr' & Hh' & Hhr' & Hc).
  same_handle Hh' Hh. same_handle Hhr' Hhr.
  pose proof (proj2 Hf _ Hc) as Hholds. unfold holds in Hholds. simpl in Hholds.
  rewrite H1, Hr1 in Hholds. lra.
Qed.

Lemma overtime_hour_blocks_a_later_start_witness :
  ~ starts_at (snd one_day_built) (value one_day_outcome) 0 23.
Proof.
  apply (overtime_hour_blocks_a_later_start (hourly_rows 0 24 3) [manager]
           (fst one_day_built) (snd one_day_built) (value one_day_outcome)
           0%nat 10 18 0%nat 19 23).
  - apply (bool_decide_unpack _). vm_compute. exact I.
  - exact one_day_built_eq.
  - exact one_day_feasible.
  - simpl. lia.
  - apply (bool_decide_unpack _). vm_compute. exact I.
  - vm_compute. reflexivity.
  - vm_compute. reflexivity.
  - vm_compute. reflexivity.
  - eexists. split; vm_compute; reflexivity.
Defined.

(** ** Day indicators and the weekly day off *)

Lemma has_day_link_mono m v i bd (cs cs' : list MPConstraint) :
  (forall c, c ∈ cs -> c ∈ cs') -> has_day_link m v i bd cs ->
  has_day_link m v i bd cs'.
Proof. intros Hsub (j & hs & h & ? & ? & ?). exists j, hs, h. eauto. Qed.

Lemma has_max_per_week_mono m v i w (cs cs' : list MPConstraint) :
  (forall c, c ∈ cs -> c ∈ cs') -> has_max_per_week m v i w cs ->
  has_max_per_week m v i w cs'.
Proof.
  intros Hsub (weeks & days & hs & ? & ? & ? & ?). exists weeks, days, hs. eauto.
Qed.

Lemma to_datetime_date_inj (d d' : Date) :
  to_datetime_date d = to_datetime_date d' -> d = d'.
Proof. unfold to_datetime_date. lia. Qed.

(** On a long horizon a pass of the loop over slots leaves the day link
    of the business day of its row in the model, and that day in
    [last_seen_date]. *)
Lemma add_slot_constraints_day_link m v i j dt s ls s' ls' :
  long_horizon m ->
  add_slot_constraints m v i j dt (s, ls) = Ok (s', ls') ->
  (forall bd0, ls = Some (to_datetime_date bd0) ->
               has_day_link m v i bd0 (constraints s)) ->
  exists bd,
    iloc_bus_day m j = Ok bd /\ ls' = Some (to_datetime_date bd) /\
    has_day_link m v i bd (constraints s').
Proof.
  intros (days0 & Hdays0 & Hlong0) H Hseen.
  pose proof (add_slot_constraints_inv _ _ _ _ _ _ _ _ _ H) as [X _].
  unfold add_slot_constraints in H.
  bind_in H as bd Ebd. exists bd. split; [done |].
  bind_in H as past_dts Epast.
  bind_in H as h_x Ehx.
  bind_in H as hs_past Ehp.
  bind_in H as rest_dts Erest.
  bind_in H as hs_rest Ehr.
  bind_in H as h_start Ehs.
  bind_in H as shift_dts Eshift.
  bind_in H as hs_shift Ehsh.
  bind_in H as last_shift_dt Emax.
  bind_in H as pot Epot.
  bind_in H as add_rest Eadd.
  bind_in H as s4 Eloop.
  bind_in H as other Eother. apply get_subset_dts_Ok in Eother as ->.
  bind_in H as hs_other Eho.
  bind_in H as p Elink. destruct p as [s6 ls6].
  set (s5 := Add s4 _ LE _ (Cmax_per_day i j)) in *.
  assert (ls6 = Some (to_datetime_date bd) /\
          (has_day_link m v i bd (constraints s6) \/
           has_day_link m v i bd (constraints s))) as [Hls6 Hl6].
  { destruct (bool_decide_reflect (Some (to_datetime_date bd) <> ls)) as [Hne | Heq].
    - rewrite Hdays0 in Elink. cbn [rbind] in Elink.
      destruct (_ >? _) eqn:Hlong; [| lia].
      bind_in Elink as hs_day Ehd. apply map_r_getitem in Ehd.
      bind_in Elink as h_day Ehday. apply getitem_Ok in Ehday.
      injection Elink as <- <-. split; [done |]. left.
      exists j, hs_day, h_day. split; [done |]. split; [done |]. apply elem_of_Add.
    - apply dec_stable in Heq. injection Elink as <- <-.
      split; [done |]. right. by apply Hseen. }
  assert (has_day_link m v i bd (constraints s')) as Hfinal.
  { destruct Hl6 as [Hl6 | Hl6].
    - destruct (is_last_staff m i).
      + repeat step_bind H. injection H as <- <-.
        eapply has_day_link_mono; [| done].
        intros c Hc. simpl. apply elem_of_app. by left.
      + by injection H as <- <-.
    - eapply has_day_link_mono; [| done]. intros c. by apply (extends_elem_of m). }
  split; [| done].
  destruct (is_last_staff m i).
  - repeat step_bind H. by injection H as <- <-.
  - by injection H as <- <-.
Qed.

Lemma add_week_constraint_content m v i w s s' weeks days :
  add_week_constraint m v i w s = Ok s' ->
  column_week (demand_df m) = Ok weeks ->
  column_bus_day (demand_df m) = Ok days ->
  Z.of_nat (length (week_days_of weeks days w)) > MAX_DAYS_PER_WEEK ->
  has_max_per_week m v i w (constraints s').
Proof.
  unfold add_week_constraint. intros H Hw Hd Hlong.
  rewrite Hw, Hd in H. cbn [rbind] in H.
  destruct (_ >? _) eqn:Hgt; [| lia].
  bind_in H as hs Ehs. injection H as <-.
  exists weeks, days, hs. split; [done |]. split; [done |]. split.
  - apply map_r_Ok in Ehs. eapply Forall2_impl; [exact Ehs |].
    intros d h. by rewrite getitem_Ok.
  - apply elem_of_Add.
Qed.

Lemma days_off_content_mono m v i (cs cs' : list MPConstraint) :
  (forall c, c ∈ cs -> c ∈ cs') -> days_off_content m v i cs ->
  days_off_content m v i cs'.
Proof.
  intros Hsub [Hl Hw]. split.
  - intros j dt Hj. destruct (Hl j dt Hj) as (bd & Hbd & Hlink).
    exists bd. split; [done |]. by eapply has_day_link_mono.
  - intros weeks days w H1 H2 H3 H4. eapply has_max_per_week_mono; [done |].
    by eapply Hw.
Qed.

Lemma add_staff_constraints_days_off m v i s s' :
  long_horizon m ->
  add_staff_constraints m v i s = Ok s' ->
  days_off_content m v i (constraints s').
Proof.
  intros Hlong H. unfold add_staff_constraints in H.
  bind_in H as p Eslots. destruct p as [s1 ls1].
  bind_in H as weeks Ew.
  pose proof (for_each_inv
    (fun (done : list (nat * Timestamp)) (st : Solver * option Timestamp) =>
       (forall j dt, (j, dt) ∈ done ->
          exists bd, iloc_bus_day m j = Ok bd /\
                     has_day_link m v i bd (constraints (fst st))) /\
       (forall bd0, snd st = Some (to_datetime_date bd0) ->
                    has_day_link m v i bd0 (constraints (fst st))))
    _ _ [] _ _ Eslots) as Hslots.
  simpl in Hslots. destruct Hslots as [Hlinks _].
  { split; [| done]. intros j dt Hj. by apply elem_of_nil in Hj. }
  { intros d [j dt] [sa la] [sb lb] [Ha Hseen] _ Hbody. simpl in *.
    pose proof (add_slot_constraints_inv _ _ _ _ _ _ _ _ _ Hbody) as [Xb _].
    destruct (add_slot_constraints_day_link _ _ _ _ _ _ _ _ _ Hlong Hbody Hseen)
      as (bd & Hbd & Hlb & Hlink).
    split.
    - intros j' dt' Hj'. apply elem_of_app in Hj' as [Hj' | Hj'].
      + destruct (Ha j' dt' Hj') as (bd' & Hbd' & Hlink'). exists bd'.
        split; [done |]. eapply has_day_link_mono; [| done].
        intros c. by apply (extends_elem_of m).
      + apply list_elem_of_singleton in Hj'. injection Hj' as -> ->. eauto.
    - intros bd0 Hbd0. rewrite Hlb in Hbd0. injection Hbd0 as Heq.
      apply to_datetime_date_inj in Heq as <-. done. }
  pose proof (for_each_inv
    (fun (done : list Z) (s' : Solver) =>
       extends m s1 s' /\
       forall days w,
         column_bus_day (demand_df m) = Ok days -> w ∈ done ->
         Z.of_nat (length (week_days_of weeks days w)) > MAX_DAYS_PER_WEEK ->
         has_max_per_week m v i w (constraints s'))
    _ _ [] _ _ H) as Hweeks.
  simpl in Hweeks. destruct Hweeks as [X Hweeks].
  { split; [apply extends_refl |]. intros days w _ Hw. by apply elem_of_nil in Hw. }
  { intros d w sa sb [Xa Ha] _ Hbody.
    pose proof (add_week_constraint_inv _ _ _ _ _ _ Hbody) as Xb.
    split; [by eapply extends_trans |].
    intros days w' Hd Hw' Hlen. apply elem_of_app in Hw' as [Hw' | Hw'].
    - eapply has_max_per_week_mono; [| by eapply Ha].
      intros c. by apply (extends_elem_of m).
    - apply list_elem_of_singleton in Hw' as ->.
      by eapply add_week_constraint_content. }
  split.
  - intros j dt Hj. destruct (Hlinks j dt) as (bd & Hbd & Hlink).
    { by apply elem_of_enumerate. }
    exists bd. split; [done |]. eapply has_day_link_mono; [| done].
    intros c. by apply (extends_elem_of m).
  - intros weeks' days w Hw Hd Hin Hlen.
    rewrite Ew in Hw. injection Hw as <-.
    apply (Hweeks days w Hd); [| done]. by apply elem_of_unique.
Qed.

Lemma add_constraints_days_off m v s s' i :
  long_horizon m -> add_constraints m v s = Ok s' -> (i < M m)%nat ->
  days_off_content m v i (constraints s').
Proof.
  intros Hlong H Hi. unfold add_constraints in H.
  pose proof (for_each_inv
    (fun (done : list nat) (s' : Solver) =>
       forall i, i ∈ done -> days_off_content m v i (constraints s'))
    _ _ [] _ _ H) as Hall.
  simpl in Hall. apply Hall; [| | apply elem_of_seq; lia].
  - intros i' Hi'. by apply elem_of_nil in Hi'.
  - intros d i1 sa sb Ha _ Hbody.
    pose proof (add_staff_constraints_inv _ _ _ _ _ Hbody) as [Xb _].
    intros i' Hi'. apply elem_of_app in Hi' as [Hi' | Hi'].
    + eapply days_off_content_mono; [| by apply Ha].
      intros c. by apply (extends_elem_of m).
    + apply list_elem_of_singleton in Hi' as ->.
      by apply (add_staff_constraints_days_off m v i1 sa sb).
Qed.

Lemma built_days_off rs staff s v i :
  long_horizon (Model_of rs staff) ->
  build_model (Model_of rs staff) = Ok (s, v) -> (i < length staff)%nat ->
  days_off_content (Model_of rs staff) v i (constraints s).
Proof.
  intros Hlong Hb Hi.
  destruct (build_model_inv _ _ _ _ Hb)
    as (s1 & s2 & obj & _ & Hcons & _ & _ & _ & _ & _ & _ & Hcs).
  rewrite Hcs. by apply (add_constraints_days_off _ _ s1).
Qed.

Lemma week_built_eq : build_model (Model_of week_rows [manager]) = Ok week_built.
Proof. vm_compute. reflexivity. Defined.

Lemma week_feasible : feasible (fst week_built) (value week_outcome).
Proof. apply feasibleb_sound. vm_compute. reflexivity. Defined.

Lemma day_value s v staff a k h :
  vars_ok staff s v -> feasible s a -> x_day v !! k = Some h ->
  (a h == 0)%Q \/ (a h == 1)%Q.
Proof.
  intros Hok Hf Hk.
  destruct (feasible_at_handle s a h _ Hf (ok_day _ _ _ Hok k h Hk))
    as (var & (Hlb & Hub & Hint & _) & (Rl & Ru & Ri)).
  rewrite Hlb in Rl. rewrite Hub in Ru.
  apply integer_0_1; [by apply Ri | done | done].
Qed.

(** Under a day link, work at a slot of the day sets the day indicator. *)
Lemma day_link_value m staff s v a i bd u :
  vars_ok staff s v -> feasible s a ->
  has_day_link m v i bd (constraints s) ->
  u ∈ keys (demand_dict m) -> date u = bd -> works_at v a i u ->
  exists h, x_day v !! (i, to_datetime_date bd) = Some h /\ (a h == 1)%Q.
Proof.
  intros Hok Hf (j & hs & h & Hhs & Hh & Hc) Hu Hday (hx & Hhx & H1).
  exists h. split; [done |].
  pose proof (proj2 Hf _ Hc) as Hholds. unfold holds in Hholds. simpl in Hholds.
  rewrite eval_py_sum in Hholds.
  destruct (handles_lookup _ _ _ _ u Hhs) as (hx' & Hhx' & Hin).
  { apply elem_of_window. split; [| done].
    unfold to_datetime_date, date in *. Z.to_euclidean_division_equations. lia. }
  same_handle Hhx' Hhx.
  assert (a hx' <= total a hs)%Q as Hge.
  { apply total_ge_elem; [| done].
    intros h2 Hh2. destruct (handles_elem_of _ _ _ _ _ Hhs Hh2) as (dt2 & _ & Hd2).
    destruct (x_value _ _ _ _ _ _ Hok Hf Hd2) as [-> | ->]; lra. }
  destruct (day_value _ _ _ _ _ _ Hok Hf Hh) as [H0 | ?]; [| done].
  rewrite H0 in Hholds. lra.
Qed.

Lemma distinct_day_link rs staff s v i u :
  NoDup (map fst rs) -> long_horizon (Model_of rs staff) ->
  build_model (Model_of rs staff) = Ok (s, v) ->
  (i < length staff)%nat -> u ∈ map fst rs ->
  has_day_link (Model_of rs staff) v i (date u) (constraints s).
Proof.
  intros Hnd Hlong Hb Hi Hu.
  destruct (built_days_off rs staff s v i Hlong Hb Hi) as [Hlinks _].
  apply list_elem_of_lookup in Hu as [j Hj].
  destruct (Hlinks j u) as (bd & Hbd & Hlink).
  { rewrite Model_of_demand_dict. by rewrite keys_to_dict_NoDup. }
  rewrite (iloc_bus_day_Model_of rs staff j u Hj) in Hbd. by injection Hbd as <-.
Qed.

(** On a horizon of more than [MAX_DAYS_PER_WEEK] business days, a staff
    member who works at a slot has the indicator of the business day of
    that slot at 1. *)
Theorem worked_day_is_counted rs staff s v a i u :
  NoDup (map fst rs) -> long_horizon (Model_of rs staff) ->
  build_model (Model_of rs staff) = Ok (s, v) -> feasible s a ->
  (i < length staff)%nat -> u ∈ map fst rs -> works_at v a i u ->
  exists h, x_day v !! (i, to_datetime_date (date u)) = Some h /\ (a h == 1)%Q.
Proof.
  intros Hnd Hlong Hb Hf Hi Hu Hwk.
  destruct (build_model_inv _ _ _ _ Hb) as (_ & _ & _ & _ & _ & _ & Hok & _).
  apply (day_link_value (Model_of rs staff) staff s v a i (date u) u); try done.
  - by apply distinct_day_link.
  - by rewrite Model_of_demand_dict, elem_of_keys_to_dict.
Qed.

Lemma worked_day_is_counted_witness :
  exists h, x_day (snd week_built) !! (0%nat, to_datetime_date (date 58)) = Some h /\
            (value week_outcome h == 1)%Q.
Proof.
  apply (worked_day_is_counted week_rows [manager] (fst week_built)
           (snd week_built) (value week_outcome) 0%nat 58).
  - apply (bool_decide_unpack _). vm_compute. exact I.
  - eexists. split; [reflexivity | vm_compute; reflexivity].
  - exact week_built_eq.
  - exact week_feasible.
  - simpl. lia.
  - apply (bool_decide_unpack _). vm_compute. exact I.
  - eexists. split; vm_compute; reflexivity.
Defined.

Lemma total_zero_or_full a hs :
  (forall h, h ∈ hs -> (a h == 0)%Q \/ (a h == 1)%Q) ->
  (exists h, h ∈ hs /\ (a h == 0)%Q) \/ (total a hs == len hs)%Q.
Proof.
  unfold len. induction hs as [| h0 hs IH]; intros Hall.
  - right. simpl. reflexivity.
  - destruct (Hall h0) as [H0 | H1]; [apply list_elem_of_here | |].
    { left. exists h0. split; [apply list_elem_of_here | done]. }
    destruct IH as [(h & Hin & Hh) | Hfull].
    + intros h Hh. apply Hall. by apply list_elem_of_further.
    + left. exists h. split; [by apply list_elem_of_further | done].
    + right. simpl length. rewrite Nat2Z.inj_succ. unfold Z.succ.
      rewrite inject_Z_plus. simpl total. rewrite Hfull, H1.
      change (inject_Z 1) with 1%Q. lra.
Qed.

Lemma week_days_of_week weeks days w d :
  d ∈ week_days_of weeks days w -> w ∈ weeks.
Proof.
  unfold week_days_of. rewrite elem_of_unique. intros Hd.
  apply list_elem_of_fmap in Hd as ([w' d'] & -> & Hin).
  apply list_elem_of_filter in Hin as [Hw Hin]. simpl in Hw. subst w'.
  apply list_elem_of_In in Hin. apply in_combine_l in Hin.
  by apply list_elem_of_In.
Qed.

(** In a week of the table with more than [MAX_DAYS_PER_WEEK] business
    days, every staff member has a business day without any work. *)
Theorem weekly_day_off rs staff s v a i weeks days w :
  NoDup (map fst rs) ->
  build_model (Model_of rs staff) = Ok (s, v) -> feasible s a ->
  (i < length staff)%nat ->
  column_week (demand_df (Model_of rs staff)) = Ok weeks ->
  column_bus_day (demand_df (Model_of rs staff)) = Ok days ->
  Z.of_nat (length (week_days_of weeks days w)) > MAX_DAYS_PER_WEEK ->
  exists d, d ∈ week_days_of weeks days w /\
            forall u, u ∈ map fst rs -> date u = d -> ~ works_at v a i u.
Proof.
  intros Hnd Hb Hf Hi Hw Hd Hlen.
  destruct (build_model_inv _ _ _ _ Hb) as (_ & _ & _ & _ & _ & _ & Hok & _).
  assert (long_horizon (Model_of rs staff)) as Hlong.
  { exists days. split; [done |].
    pose proof (length_week_days_of weeks days w). lia. }
  assert (w ∈ weeks) as Hin.
  { destruct (week_days_of weeks days w) as [| d0 l] eqn:Hwd;
      [simpl in Hlen; unfold MAX_DAYS_PER_WEEK in Hlen; lia |].
    apply (week_days_of_week weeks days w d0). rewrite Hwd. apply list_elem_of_here. }
  destruct (built_days_off rs staff s v i Hlong Hb Hi) as [_ Hweeks].
  destruct (Hweeks weeks days w Hw Hd Hin Hlen)
    as (weeks' & days' & hs & Hw' & Hd' & Hhs & Hc).
  rewrite Hw in Hw'. injection Hw' as <-. rewrite Hd in Hd'. injection Hd' as <-.
  pose proof (proj2 Hf _ Hc) as Hholds. unfold holds in Hholds. simpl in Hholds.
  rewrite eval_py_sum in Hholds.
  destruct (total_zero_or_full a hs) as [(h & Hh & H0) | Hfull].
  { intros h Hh. apply list_elem_of_lookup in Hh as [n Hn].
    destruct (Forall2_lookup_r _ _ _ _ _ Hhs Hn) as (d & _ & Hdh).
    by apply (day_value _ _ _ _ _ _ Hok Hf Hdh). }
  - apply list_elem_of_lookup in Hh as [n Hn].
    destruct (Forall2_lookup_r _ _ _ _ _ Hhs Hn) as (d & Hdn & Hdh).
    exists d. split; [by apply list_elem_of_lookup_2 with n |].
    intros u Hu Hday Hwk.
    destruct (day_link_value (Model_of rs staff) staff s v a i d u Hok Hf)
      as (h' & Hh' & H1); try done.
    + rewrite <- Hday. by apply distinct_day_link.
    + by rewrite Model_of_demand_dict, elem_of_keys_to_dict.
    + same_handle Hh' Hdh. rewrite H0 in H1. discriminate H1.
  - exfalso. rewrite Hfull in Hholds. unfold len in Hholds.
    rewrite <- (Forall2_length _ _ _ Hhs) in Hholds.
    rewrite <- Zle_Qle in Hholds. lia.
Qed.

Lemma weekly_day_off_witness :
  exists d,
    d ∈ week_days_of (map (fun _ => 1) week_rows) (map date (map fst week_rows)) 1 /\
    forall u, u ∈ map fst week_rows -> date u = d ->
              ~ works_at (snd week_built) (value week_outcome) 0 u.
Proof.
  apply (weekly_day_off week_rows [manager] (fst week_built) (snd week_built)
           (value week_outcome) 0%nat).
  - apply (bool_decide_unpack _). vm_compute. exact I.
  - exact week_built_eq.
  - exact week_feasible.
  - simpl. lia.
  - reflexivity.
  - reflexivity.
  - vm_compute. reflexivity.
Defined.

(** ** The variables that [add_variables] creates *)

Lemma for_each_preserve {A S : Type} (I : S -> Prop) (body : A -> S -> result S)
  (l : list A) (st st' : S) :
  (forall a s s', I s -> a ∈ l -> body a s = Ok s' -> I s') ->
  I st -> for_each l body st = Ok st' -> I st'.
Proof.
  intros Hstep Hinit Hrun.
  apply (for_each_inv (fun _ s => I s) body l [] st st' Hrun Hinit).
  intros d a s s' Hs Ha Hb. by eapply Hstep.
Qed.

Lemma for_each_count {A S : Type} (f : S -> nat) (c : nat)
  (body : A -> S -> result S) (l : list A) (st st' : S) :
  (forall a s s', a ∈ l -> body a s = Ok s' -> f s' = (f s + c)%nat) ->
  for_each l body st = Ok st' -> f st' = (f st + c * length l)%nat.
Proof.
  intros Hstep Hrun.
  pose proof (for_each_inv (fun done s => f s = (f st + c * length done)%nat)
                body l [] st st' Hrun) as H.
  simpl in H. apply H; [lia |].
  intros d a s s' Hs Ha Hb. rewrite (Hstep a s s' Ha Hb), Hs, length_app. simpl. lia.
Qed.

(** What one pass of the inner loop of [add_variables] does to the list
    of variables and to the shortfall variables. *)
Lemma add_slot_variables_shape m i j dt s v s' v' :
  add_slot_variables m i j dt (s, v) = Ok (s', v') ->
  length (variables s') =
    (length (variables s) + if is_last_staff m i then 5 else 3)%nat /\
  (shortfall_ok m (s, v) -> shortfall_ok m (s', v')).
Proof.
  intros H.
  destruct (iloc_bus_day m j) as [bd | e] eqn:Ebd.
  2: { unfold add_slot_variables, IntVar, MakeVar in H. rewrite Ebd in H.
       discriminate H. }
  destruct (iloc (staff_df m) i) as [st | e] eqn:Est.
  2: { unfold add_slot_variables, IntVar, BoolVar, NumVar, MakeVar in H.
       rewrite Ebd, Est in H. discriminate H. }
  rewrite (add_slot_variables_eq m i j dt s v bd st Ebd Est) in H.
  cbv zeta in H. destruct (is_last_staff m i).
  - bind_in H as d Ed. injection H as <- <-. simpl.
    split; [rewrite !length_app; simpl; lia |].
    intros [H1 H2]. simpl in H1, H2. split; simpl.
    + apply dict_ok_insert; [eapply dict_ok_app; [reflexivity | done] |].
      new_handle 3%nat. done.
    + apply dict_ok_insert; [eapply dict_ok_app; [reflexivity | done] |].
      new_handle 4%nat. repeat split. by exists d.
  - injection H as <- <-. simpl.
    split; [rewrite !length_app; simpl; lia |].
    intros [H1 H2]. simpl in H1, H2.
    split; simpl; (eapply dict_ok_app; [reflexivity | done]).
Qed.

Lemma add_day_variable_shape m i d bd s v :
  length (variables (fst (add_day_variable i d bd (s, v)))) =
    (length (variables s) + 1)%nat /\
  (shortfall_ok m (s, v) -> shortfall_ok m (add_day_variable i d bd (s, v))).
Proof.
  unfold add_day_variable, BoolVar, MakeVar, SetBranchingPriority. simpl.
  rewrite alter_last. split; [rewrite length_app; simpl; lia |].
  intros [H1 H2]. simpl in H1, H2.
  split; simpl; (eapply dict_ok_app; [reflexivity | done]).
Qed.

Lemma add_staff_variables_shape m i st st' days :
  column_bus_day (demand_df m) = Ok days ->
  add_staff_variables m i st = Ok st' ->
  length (variables (fst st')) =
    (length (variables (fst st))
     + (if is_last_staff m i then 5 else 3) * length (col_date_time (demand_df m))
     + length (unique days))%nat /\
  (shortfall_ok m st -> shortfall_ok m st').
Proof.
  intros Hdays H. unfold add_staff_variables in H.
  bind_in H as st1 Eslots. rewrite Hdays in H. cbn [rbind] in H.
  assert (length (variables (fst st1)) =
            (length (variables (fst st))
             + (if is_last_staff m i then 5 else 3)
               * length (enumerate (col_date_time (demand_df m))))%nat) as Hn1.
  { eapply (for_each_count (fun st : Solver * Vars => length (variables (fst st))));
      [| exact Eslots].
    intros [j dt] [s v] [s' v'] _ Hbody.
    by apply add_slot_variables_shape in Hbody as [? _]. }
  assert (length (variables (fst st')) =
            (length (variables (fst st1)) + 1 * length (enumerate (unique days)))%nat)
    as Hn2.
  { eapply (for_each_count (fun st : Solver * Vars => length (variables (fst st))));
      [| exact H].
    intros [d bd] [s v] st2 _ Hbody. injection Hbody as <-.
    by destruct (add_day_variable_shape m i d bd s v) as [? _]. }
  unfold enumerate in Hn1, Hn2.
  rewrite length_combine, length_seq, Nat.min_id in Hn1, Hn2.
  split; [lia |].
  intros Hok.
  refine (for_each_preserve (shortfall_ok m) _ _ _ _ _ _ H).
  - intros [d bd] [s v] st2 Hs _ Hbody. injection Hbody as <-.
    by apply add_day_variable_shape.
  - refine (for_each_preserve (shortfall_ok m) _ _ _ _ _ Hok Eslots).
    intros [j dt] [s v] [s' v'] Hs _ Hbody.
    by apply (add_slot_variables_shape m i j dt s v s' v' Hbody).
Qed.

Lemma for_each_app {A S : Type} (l k : list A) (body : A -> S -> result S) (st : S) :
  for_each (l ++ k) body st = let* st1 := for_each l body st in for_each k body st1.
Proof.
  revert st. induction l as [| a l IH]; intros st; simpl; [done |].
  destruct (body a st) as [st1 | e]; cbn [rbind]; [apply IH | done].
Qed.

Lemma add_variables_shape m st st' days :
  column_bus_day (demand_df m) = Ok days ->
  add_variables m st = Ok st' ->
  length (variables (fst st')) =
    (length (variables (fst st))
     + M m * (3 * length (col_date_time (demand_df m)) + length (unique days))
     + if (M m =? 0)%nat then 0 else 2 * length (col_date_time (demand_df m)))%nat /\
  (shortfall_ok m st -> shortfall_ok m st').
Proof.
  intros Hdays H. unfold add_variables in H.
  destruct (M m) as [| k] eqn:HM.
  { injection H as <-. simpl. split; [lia | done]. }
  rewrite seq_S, for_each_app in H. bind_in H as st1 Efirst.
  simpl in H. bind_in H as st2 Elast. injection H as <-.
  assert (length (variables (fst st1)) =
            (length (variables (fst st))
             + (3 * length (col_date_time (demand_df m)) + length (unique days))
               * length (seq 0 k))%nat) as Hn1.
  { eapply (for_each_count (fun st : Solver * Vars => length (variables (fst st))));
      [| exact Efirst].
    intros i s0 s1 Hi Hbody. apply elem_of_seq in Hi.
    apply (add_staff_variables_shape m i s0 s1 days Hdays) in Hbody as [Hlen _].
    replace (is_last_staff m i) with false in Hlen; [lia |].
    symmetry. unfold is_last_staff. rewrite HM. apply Z.eqb_neq. lia. }
  destruct (add_staff_variables_shape m k st1 st2 days Hdays Elast) as [Hn2 Hs2].
  replace (is_last_staff m k) with true in Hn2.
  2: { symmetry. unfold is_last_staff. rewrite HM. apply Z.eqb_eq. lia. }
  rewrite length_seq in Hn1. split; [simpl; lia |].
  intros Hok. apply Hs2.
  refine (for_each_preserve (shortfall_ok m) _ _ _ _ _ Hok Efirst).
  intros i s0 s1 Hs _ Hbody.
  by apply (add_staff_variables_shape m i s0 s1 days Hdays Hbody).
Qed.

(** The model has three variables per staff member and slot, one per
    staff member and business day, and two per slot. *)
Theorem number_of_variables rs staff s v :
  build_model (Model_of rs staff) = Ok (s, v) -> staff <> [] ->
  length (variables s) =
    (length staff * (3 * length rs + length (unique (map date (map fst rs))))
     + 2 * length rs)%nat.
Proof.
  intros Hb Hne.
  destruct (build_model_inv _ _ _ _ Hb) as (s1 & _ & _ & Hvars & _ & _ & _ & _ & -> & _).
  destruct (add_variables_shape _ _ _ _ (Model_of_bus_day rs staff) Hvars) as [Hn _].
  simpl fst in Hn. rewrite Model_of_M, Model_of_dts, length_map in Hn.
  destruct staff; [done |]. simpl in Hn |- *. lia.
Qed.

Lemma number_of_variables_witness :
  let rs := hourly_rows 0 24 3 in
  length (variables (fst one_day_built)) =
    (length [manager] * (3 * length rs + length (unique (map date (map fst rs))))
     + 2 * length rs)%nat.
Proof.
  apply (number_of_variables (hourly_rows 0 24 3) [manager] (fst one_day_built)
           (snd one_day_built)).
  - exact one_day_built_eq.
  - discriminate.
Defined.

(** The shortfall variables of a slot are integer variables with lower
    bound 0; [y1] has upper bound 1, and [y2] the demand of the slot less
    [min(M, MIN_STAFF_PER_HOUR - 1)], or 0 when that is negative. *)
Theorem shortfall_variable_bounds rs staff s v dt h1 h2 :
  build_model (Model_of rs staff) = Ok (s, v) ->
  y1 v !! dt = Some h1 -> y2 v !! dt = Some h2 ->
  exists var1 var2 d,
    variables s !! h1 = Some var1 /\ variables s !! h2 = Some var2 /\
    odict_get (demand_dict (Model_of rs staff)) dt = Ok d /\
    v_lb var1 = 0 /\ v_ub var1 = 1 /\ v_integer var1 = true /\
    v_lb var2 = 0 /\ v_integer var2 = true /\
    v_ub var2 =
      Z.max 0 (d - Z.min (Z.of_nat (length staff)) (MIN_STAFF_PER_HOUR - 1)).
Proof.
  intros Hb Hh1 Hh2.
  destruct (build_model_inv _ _ _ _ Hb) as (s1 & _ & _ & Hvars & _ & _ & _ & _ & -> & _).
  destruct (add_variables_shape _ _ _ _ (Model_of_bus_day rs staff) Hvars)
    as [_ Hok].
  destruct Hok as [Hy1 Hy2].
  { split; intros k h; simpl; by rewrite lookup_empty. }
  destruct (Hy1 dt h1 Hh1) as (var1 & Hv1 & Hl1 & Hu1 & Hi1).
  destruct (Hy2 dt h2 Hh2) as (var2 & Hv2 & Hl2 & Hi2 & d & Hd & Hu2).
  exists var1, var2, d. by repeat split.
Qed.

Lemma shortfall_variable_bounds_witness :
  exists var1 var2 d,
    variables (fst one_day_built) !! 3%nat = Some var1 /\
    variables (fst one_day_built) !! 4%nat = Some var2 /\
    odict_get (demand_dict (Model_of (hourly_rows 0 24 3) [manager])) 0 = Ok d /\
    v_lb var1 = 0 /\ v_ub var1 = 1 /\ v_integer var1 = true /\
    v_lb var2 = 0 /\ v_integer var2 = true /\
    v_ub var2 =
      Z.max 0 (d - Z.min (Z.of_nat (length [manager])) (MIN_STAFF_PER_HOUR - 1)).
Proof.
  apply (shortfall_variable_bounds (hourly_rows 0 24 3) [manager]
           (fst one_day_built) (snd one_day_built) 0 3%nat 4%nat).
  - exact one_day_built_eq.
  - vm_compute. reflexivity.
  - vm_compute. reflexivity.
Defined.

(** ** The objective handed to the engine *)

Lemma div_safe_fold_left (es : list LinearExpr) (e0 : LinearExpr) :
  div_safe e0 -> Forall div_safe es -> div_safe (fold_left EAdd es e0).
Proof.
  revert e0. induction es as [| e es IH]; intros e0 H0 Hall; simpl; [done |].
  apply Forall_cons in Hall as [He Hes]. apply IH; [| done]. by split.
Qed.

Lemma div_safe_py_sum_vars (hs : list nat) : div_safe (py_sum (map EVar hs)).
Proof.
  apply div_safe_fold_left; [done |]. apply Forall_forall. intros e He.
  apply list_elem_of_In, in_map_iff in He as (h & <- & _). done.
Qed.

Lemma eval_py_sum_terms a (es : list LinearExpr) :
  (eval a (py_sum es) == sum_over (eval a) es)%Q.
Proof. unfold py_sum. rewrite eval_fold_left_EAdd. simpl. unfold sum_over. lra. Qed.

Lemma sum_over_Forall2 {A B : Type} (R : A -> B -> Prop) (f : A -> Q) (g : B -> Q)
  (l : list A) (k : list B) :
  Forall2 R l k -> (forall x y, x ∈ l -> R x y -> (g y == f x)%Q) ->
  (sum_over g k == sum_over f l)%Q.
Proof.
  induction 1 as [| x y l k Hxy Hlk IH]; intros Hall; simpl; [lra |].
  rewrite (Hall x y) by (try apply list_elem_of_here; done).
  rewrite IH; [lra |]. intros x' y' Hx'. apply Hall. by apply list_elem_of_further.
Qed.

Lemma total_sum_over a hs : (total a hs == sum_over a hs)%Q.
Proof. unfold total, sum_over. lra. Qed.

Lemma objective_term_Ok m v dt t :
  objective_term m v dt = Ok t ->
  exists h1 h2 hs d,
    y1 v !! dt = Some h1 /\ y2 v !! dt = Some h2 /\
    Forall2 (fun i h => x_ot v !! (i, dt) = Some h) (seq 0 (M m)) hs /\
    odict_get (demand_dict m) dt = Ok d /\
    t = EDiv (EAdd (EMul W1 (EAdd (EVar h1) (EMul 2 (EVar h2))))
                   (EMul (1 - W1) (py_sum (map EVar hs))))
             (inject_Z d).
Proof.
  unfold objective_term. intros H.
  bind_in H as h1 E1. bind_in H as h2 E2. bind_in H as hs Ehs. bind_in H as d Ed.
  injection H as <-. apply getitem_Ok in E1, E2.
  exists h1, h2, hs, d. repeat split; try done.
  apply map_r_Ok in Ehs. eapply Forall2_impl; [exact Ehs |].
  intros i h. by rewrite getitem_Ok.
Qed.

Lemma eval_objective_term m v a kv t :
  NoDup (keys (demand_dict m)) -> kv ∈ demand_dict m ->
  objective_term m v (fst kv) = Ok t ->
  (eval a t == slot_penalty m v a kv)%Q /\ (snd kv <> 0 -> div_safe t).
Proof.
  intros Hnd Hin Ht.
  destruct (objective_term_Ok _ _ _ _ Ht) as (h1 & h2 & hs & d & H1 & H2 & Hhs & Hd & ->).
  destruct kv as [dt d0]. simpl in *.
  assert (d = d0) as ->.
  { unfold odict_get in Hd. rewrite (odict_lookup_NoDup _ _ _ Hnd Hin) in Hd.
    by injection Hd. }
  split.
  - unfold slot_penalty, value_at. simpl. rewrite H1, H2, eval_py_sum, total_sum_over.
    assert (sum_over a hs ==
            sum_over (fun i => match x_ot v !! (i, dt) with
                               | Some h => a h
                               | None => 0
                               end) (seq 0 (M m)))%Q as ->; [| reflexivity].
    apply (sum_over_Forall2 _ _ _ _ _ Hhs). intros i h _ Hh. by rewrite Hh.
  - intros Hnz. split; [| split; [done | apply div_safe_py_sum_vars]].
    intros Hz. apply Hnz. change 0%Q with (inject_Z 0) in Hz.
    exact (proj1 (inject_Z_injective _ _) Hz).
Qed.

(** The objective of the built model sums, over the slots of nonzero
    demand, the weighted shortfall and overtime of the slot divided by its
    demand; slots of zero demand do not occur in it and no division is by
    zero. *)
Theorem objective_is_penalty_per_unit_of_demand rs staff s v :
  build_model (Model_of rs staff) = Ok (s, v) ->
  exists obj,
    objective s = Some obj /\ div_safe obj /\
    forall a, (eval a obj == objective_value (Model_of rs staff) v a)%Q.
Proof.
  intros Hb. unfold build_model in Hb.
  bind_in Hb as p Evars. destruct p as [s1 v1].
  bind_in Hb as s2 Econs. bind_in Hb as obj Eobj. injection Hb as <- <-.
  exists obj. split; [done |].
  unfold objective_expr in Eobj. bind_in Eobj as terms Eterms.
  injection Eobj as <-. apply map_r_Ok in Eterms.
  set (m := Model_of rs staff) in *.
  set (l := filter (fun kv : Timestamp * Z => snd kv <> 0) (demand_dict m)) in *.
  assert (Forall2 (fun kv t => objective_term m v1 (fst kv) = Ok t) l terms) as Hall.
  { by apply Forall2_fmap_l in Eterms. }
  assert (forall kv t, kv ∈ l -> objective_term m v1 (fst kv) = Ok t ->
            (forall a, (eval a t == slot_penalty m v1 a kv)%Q) /\ div_safe t) as Hterm.
  { intros kv t Hkv Ht. apply list_elem_of_filter in Hkv as [Hnz Hkv]. split.
    - intros a.
      by apply (eval_objective_term m v1 a kv t (NoDup_keys_Model_of rs staff) Hkv).
    - by apply (eval_objective_term m v1 (fun _ => 0%Q) kv t
                  (NoDup_keys_Model_of rs staff) Hkv). }
  split.
  - apply div_safe_fold_left; [done |]. apply Forall_forall. intros t Ht.
    apply list_elem_of_lookup in Ht as [n Hn].
    destruct (Forall2_lookup_r _ _ _ _ _ Hall Hn) as (kv & Hkv & Hkt).
    apply (Hterm kv t); [| done]. by apply list_elem_of_lookup_2 with n.
  - intros a. rewrite eval_py_sum_terms. unfold objective_value. fold m l.
    apply (sum_over_Forall2 _ _ _ _ _ Hall). intros kv t Hkv Ht.
    by apply Hterm.
Qed.

Lemma objective_is_penalty_per_unit_of_demand_witness :
  exists obj,
    objective (fst two_slot_built) = Some obj /\ div_safe obj /\
    forall a, (eval a obj ==
               objective_value (Model_of two_slot_rows [manager])
                               (snd two_slot_built) a)%Q.
Proof.
  apply (objective_is_penalty_per_unit_of_demand two_slot_rows [manager]
           (fst two_slot_built) (snd two_slot_built)).
  exact two_slot_built_eq.
Defined.

(** ** What [solve] reports *)

(** When the engine reports a status other than [OPTIMAL] and [FEASIBLE],
    [solve] decodes nothing: the metrics are WDC 0, WOR 0, total cost 0
    and no shift. *)
Theorem no_solution_gives_empty_schedule {FA : FloatArith} rs staff s v o :
  build_model (Model_of rs staff) = Ok (s, v) ->
  has_solution (status o) = false ->
  solve (Model_of rs staff) v o
  = Ok (mkMetrics 0 0 (py_round 0 2) "feasible" []).
Proof.
  intros Hb Hsol.
  destruct (build_model_inv _ _ _ _ Hb) as (_ & _ & _ & _ & _ & _ & _ & Hcomp & _).
  destruct (decode_ready_Model_of rs staff v Hcomp) as (_ & _ & Hkeys).
  apply solve_without_solution; [| done].
  intros i u Hi Hu. by destruct (Hkeys i u Hi Hu) as (_ & ? & _).
Qed.

Lemma no_solution_gives_empty_schedule_witness :
  solve (Model_of two_slot_rows [manager]) (snd two_slot_built) no_solution_outcome
  = Ok (mkMetrics 0 0 (py_round 0 2) "feasible" []).
Proof.
  apply (no_solution_gives_empty_schedule two_slot_rows [manager]
           (fst two_slot_built) (snd two_slot_built) no_solution_outcome).
  - exact two_slot_built_eq.
  - reflexivity.
Defined.

(** Every shift record decoded from a feasible assignment starts at a
    slot of the table, belongs to a staff member of the staff table, ends
    at least one hour and at most [MAX_SHIFT_HOURS] hours after its start,
    and ends after every slot of the table in the [MIN_SHIFT_HOURS] hours
    from its start on. *)
Theorem decoded_shift_bounds {FA : FloatArith} rs staff s v o metrics row :
  build_model (Model_of rs staff) = Ok (s, v) ->
  has_solution (status o) = true -> feasible s (value o) ->
  solve (Model_of rs staff) v o = Ok metrics -> row ∈ shifts metrics ->
  let t := start_date_time row in
  t ∈ map fst rs /\
  (exists st, st ∈ staff /\ row_staff_id row = staff_id st) /\
  t + 1 <= end_date_time row <= t + MAX_SHIFT_HOURS /\
  forall u, u ∈ map fst rs -> t <= u <= t + (MIN_SHIFT_HOURS - 1) ->
            u < end_date_time row.
Proof.
  intros Hb Hsol Hf Hsolve Hrow.
  destruct (solve_feasible rs staff s v o Hb Hsol Hf) as (metrics' & Hs' & Hrows & _).
  rewrite Hsolve in Hs'. injection Hs' as <-. rewrite Hrows in Hrow.
  unfold all_rows in Hrow. apply list_elem_of_In, in_flat_map in Hrow as (i & Hi & Hrow).
  apply list_elem_of_In, elem_of_seq in Hi as [_ Hi]. simpl in Hi.
  rewrite ?Model_of_M in Hi. rewrite Model_of_staff_df in Hrow.
  destruct (staff !! i) as [st |] eqn:Hst; [| by destruct Hrow].
  unfold staff_rows in Hrow. apply in_flat_map in Hrow as (t & Ht & Hrow).
  apply list_elem_of_In in Ht. unfold decoded_rows in Hrow.
  destruct (truthy (var_value o (x_start v) i t)) eqn:Htruthy; [| by destruct Hrow].
  destruct Hrow as [<- | []]. simpl.
  pose proof (feasible_decodable rs staff s v o i Hb Hsol Hf Hi t Ht Htruthy) as Hne.
  assert (t ∈ map fst rs) as Ht'
    by by rewrite Model_of_demand_dict, elem_of_keys_to_dict in Ht.
  split; [done |]. split; [exists st; split; [by eapply list_elem_of_lookup_2 | done] |].
  unfold decoded_end.
  destruct (worked_slots v o i _) as [| w0 ws] eqn:Hws; [done |].
  assert (fold_left Z.max ws w0 ∈ w0 :: ws /\
          forall b, b ∈ w0 :: ws -> b <= fold_left Z.max ws w0) as [Hin Hmax]
    by by apply py_max_Ok.
  rewrite <- Hws in Hin, Hmax.
  unfold worked_slots in Hin. apply list_elem_of_filter in Hin as [_ Hin].
  apply elem_of_window in Hin as [Hr _].
  split; [unfold MAX_SHIFT_HOURS in *; lia |].
  intros u Hu Hur.
  assert (u <= fold_left Z.max ws w0); [| lia].
  apply Hmax. unfold worked_slots. apply list_elem_of_filter. split.
  - apply (works_at_reported v o i u Hsol).
    destruct (truthy_start rs staff s v o i t Hb Hsol Hf Htruthy) as (h & Hh & H1).
    pose proof Ht as Hk. rewrite Model_of_demand_dict in Hk.
    apply list_elem_of_lookup in Hk as [j Hj].
    pose proof (built_slot_content rs staff s v i j t Hb Hi Hj) as (_ & _ & Hmin & _).
    destruct (build_model_inv _ _ _ _ Hb) as (_ & _ & _ & _ & _ & _ & Hok & Hcomp & _).
    destruct (Hcomp i Hi) as [Hslots _]. destruct (Hslots u Hu) as (_ & [hx Hhx] & _).
    exists hx. split; [done |].
    eapply (min_shift_works _ staff s v (value o) i j t h u hx); try done.
    apply elem_of_window. split; [done |].
    by rewrite Model_of_demand_dict, elem_of_keys_to_dict.
  - apply elem_of_window. split; [unfold MIN_SHIFT_HOURS, MAX_SHIFT_HOURS in *; lia |].
    by rewrite Model_of_demand_dict, elem_of_keys_to_dict.
Qed.

Lemma decoded_shift_bounds_witness :
  let row := mkRow "101" 10 22 in
  let t := start_date_time row in
  t ∈ map fst (hourly_rows 0 24 3) /\
  (exists st, st ∈ [manager] /\ row_staff_id row = staff_id st) /\
  t + 1 <= end_date_time row <= t + MAX_SHIFT_HOURS /\
  forall u, u ∈ map fst (hourly_rows 0 24 3) ->
            t <= u <= t + (MIN_SHIFT_HOURS - 1) -> u < end_date_time row.
Proof.
  apply (decoded_shift_bounds (hourly_rows 0 24 3) [manager] (fst one_day_built)
           (snd one_day_built) one_day_outcome
           one_day_metrics (mkRow "101" 10 22)).
  - exact one_day_built_eq.
  - reflexivity.
  - exact one_day_feasible.
  - vm_compute. reflexivity.
  - apply list_elem_of_here.
Defined.

Lemma sum_solution_values_eq {FA : FloatArith} m d o q :
  sum_solution_values m d o = Ok q -> q = reported_hours m d o.
Proof.
  unfold sum_solution_values, reported_hours. intros H.
  bind_in H as hs Ehs. injection H as <-. f_equal.
  apply map_r_Ok in Ehs.
  induction Ehs as [| [i dt] h ks hs Hh _ IH]; simpl; [done |].
  apply getitem_Ok in Hh. by rewrite IH, (var_value_getitem o d i dt h Hh).
Qed.

Lemma decode_staff_cost {FA : FloatArith} m v o i (D D' : Decode) :
  decode_ready m v -> (i < M m)%nat -> decodable m v o i ->
  decode_staff m v o i D = Ok D' ->
  d_total_cost D' = staff_cost m v o (d_total_cost D) i.
Proof.
  intros (Hnd & HM & Hkeys) Hi Hdec H. unfold decode_staff, iloc in H.
  unfold staff_cost.
  destruct (staff_df m !! i) as [st |]; [| discriminate H]. cbn [rbind] in H.
  pose proof (for_each_inv
    (fun (done : list Timestamp) (D1 : Decode) =>
       d_total_cost D1
       = fold_left (fun c dt => fadd c (slot_cost v o i st dt)) done (d_total_cost D))
    _ _ [] _ _ H) as Hloop.
  simpl in Hloop. apply Hloop; [done |].
  intros done dt D0 D1 H0 Hdt Hbody.
  rewrite decode_slot_eq in Hbody; try done.
  - injection Hbody as <-. simpl. by rewrite fold_left_app, <- H0.
  - intros u Hu. by destruct (Hkeys i u Hi Hu) as (_ & ? & _).
  - by destruct (Hkeys i dt Hi Hdt) as (? & _ & _).
  - by destruct (Hkeys i dt Hi Hdt) as (_ & _ & ?).
  - by apply Hdec.
Qed.

(** The total cost that [solve] reports for a feasible assignment is the
    pay added up over all staff and slots, staff member by staff member
    and slot by slot, each slot paid at the larger of the regular and the
    overtime pay, and then rounded to two digits; the overtime rate is the
    sum of the overtime hours over the sum of the scheduled hours, rounded
    to four digits, and 0 when the sum of the scheduled hours is 0.  All
    of it is floating-point arithmetic. *)
Theorem reported_cost_and_overtime_rate {FA : FloatArith} rs staff s v o metrics :
  build_model (Model_of rs staff) = Ok (s, v) ->
  has_solution (status o) = true -> feasible s (value o) ->
  solve (Model_of rs staff) v o = Ok metrics ->
  let m := Model_of rs staff in
  total_cost metrics = py_round (labour_cost m v o) 2 /\
  WOR metrics =
    if Qeq_bool (reported_hours m (x v) o) 0 then 0%Q
    else py_round (fdiv (reported_hours m (x_ot v) o) (reported_hours m (x v) o)) 4.
Proof.
  intros Hb Hsol Hf Hsolve m.
  destruct (build_model_inv _ _ _ _ Hb) as (_ & _ & _ & _ & _ & _ & _ & Hcomp & _).
  pose proof (decode_ready_Model_of rs staff v Hcomp) as Hready.
  unfold solve in Hsolve. rewrite Hsol in Hsolve.
  bind_in Hsolve as D Edec. bind_in Hsolve as total_sh Esh.
  apply sum_solution_values_eq in Esh. subst total_sh.
  assert (d_total_cost D = labour_cost m v o) as Hcost.
  { pose proof (for_each_inv
      (fun (done : list nat) (D1 : Decode) =>
         d_total_cost D1 = fold_left (staff_cost m v o) done 0%Q)
      _ _ [] _ _ Edec) as Hloop.
    simpl in Hloop. apply Hloop; [done |].
    intros done i D0 D1 H0 Hi Hbody. apply elem_of_seq in Hi as [_ Hi]. simpl in Hi.
    assert (i < length staff)%nat as Hi' by by rewrite ?Model_of_M in Hi.
    rewrite fold_left_app. simpl. rewrite <- H0.
    by apply (decode_staff_cost m v o i D0 D1 Hready Hi
                (feasible_decodable rs staff s v o i Hb Hsol Hf Hi')). }
  fold m in Hsolve.
  destruct (Qeq_bool (reported_hours m (x v) o) 0) eqn:Hzero.
  - cbn [rbind] in Hsolve. injection Hsolve as <-. simpl.
    split; [by rewrite Hcost |]. by destruct (_ =? _)%nat.
  - bind_in Hsolve as wor Ewor. bind_in Ewor as total_ot Eot.
    apply sum_solution_values_eq in Eot. subst total_ot. injection Ewor as <-.
    injection Hsolve as <-. simpl. split; [by rewrite Hcost | done].
Qed.

Lemma reported_cost_and_overtime_rate_witness :
  let m := Model_of (hourly_rows 0 24 3) [manager] in
  let v := snd one_day_built in
  total_cost one_day_metrics = py_round (labour_cost m v one_day_outcome) 2 /\
  WOR one_day_metrics =
    if Qeq_bool (reported_hours m (x v) one_day_outcome) 0 then 0%Q
    else py_round (fdiv (reported_hours m (x_ot v) one_day_outcome)
                        (reported_hours m (x v) one_day_outcome)) 4.
Proof.
  apply (reported_cost_and_overtime_rate (hourly_rows 0 24 3) [manager]
           (fst one_day_built) (snd one_day_built) one_day_outcome one_day_metrics).
  - exact one_day_built_eq.
  - reflexivity.
  - exact one_day_feasible.
  - vm_compute. reflexivity.
Defined.

(** The metrics are rounded floats.  Nine hours of work at 1/20 of the
    demand over 24 slots give WDC 0.0187 (the sum of the floats is below
    0.45, while 9/20/24 is the tie 0.01875), and nine hours at 10.005 give
    the total cost 90.05 (the sum of the floats is above the tie
    90.045). *)
Example metrics_are_rounded_floats :
  exists metrics,
    solve (Model_of (hourly_rows 0 24 20) [clerk]) (snd busy_day_built)
          busy_day_outcome = Ok metrics /\
    WDC metrics = fl (187 # 10000) /\ total_cost metrics = fl (9005 # 100) /\
    shifts metrics = [mkRow "102" 10 19].
Proof.
  eexists. split; [vm_compute; reflexivity |].
  repeat split; vm_compute; reflexivity.
Qed.
